(** * STMS: task execution, recording and alert decisions

    A shallow embedding of the task executors and the guarded management
    operations of [server/services/task.service.ts], and of the decision
    rules of the notification and cron services, with the properties of the
    execution pipeline proved over it.

    Asynchronous service code is embedded as a program tree [Prog]: every
    call that leaves the service (clock, id generator, console, transport,
    storage) is a node whose children are indexed by the answer of the
    environment.  [try { } catch { }] is a combinator on such trees.  A
    handler plays the environment and running a program against it yields
    the result, the final world and the trace of calls that were made. *)

From Stdlib Require Import ZArith List String Bool Lia.
From Stdlib Require Import DecimalString.
From Stdlib Require Import Sorting.Permutation Sorting.Sorted.
From ExtLib Require Import Structures.Monad Structures.MonadExc.
Import ListNotations.
Import MonadNotation.

Local Open Scope string_scope.
Local Open Scope Z_scope.
Local Open Scope monad_scope.

(* ===================================================================== *)
(** ** JavaScript values *)
(* ===================================================================== *)

(** What a [catch (error)] clause can receive: an [Error] instance with its
    message, or any other value. *)
Inductive Thrown : Type :=
| JsError (message : string)
| JsOther.

(** [error instanceof Error ? error.message : '未知错误'] *)
Definition errorMessage (error : Thrown) : string :=
  match error with
  | JsError message => message
  | JsOther => "未知错误"
  end.

(** The result of awaiting a call: it returned, or it threw. *)
Inductive Outcome (A : Type) : Type :=
| Returned (a : A)
| Raised (e : Thrown).
Arguments Returned {A} a.
Arguments Raised {A} e.

(** Truthiness of an optional string: [undefined] and [''] are falsy. *)
Definition truthy (s : option string) : bool :=
  match s with
  | Some EmptyString => false
  | Some _ => true
  | None => false
  end.

(** [a || b] on optional strings. *)
Definition or_else (a b : option string) : option string :=
  if truthy a then a else b.

(** [x || d] on an optional number: [undefined] and [0] are falsy. *)
Definition num_or (x : option Z) (d : Z) : Z :=
  match x with
  | Some 0 => d
  | Some n => n
  | None => d
  end.

(** A number inside a template literal (integers only). *)
Definition show_number (n : Z) : string :=
  NilZero.string_of_int (Z.to_int n).

(** An optional string inside a template literal. *)
Definition show_string (s : option string) : string :=
  match s with
  | Some v => v
  | None => "undefined"
  end.

(** An instant, in milliseconds since the epoch. *)
Definition Date := Z.

(** The ISO-8601 rendering of an instant, kept symbolic: two renderings are
    equal exactly when the instants are. *)
Inductive IsoString : Type :=
| ISO (instant : Date).

Definition toISOString (d : Date) : IsoString := ISO d.

(* ===================================================================== *)
(** ** Data model ([server/types]) *)
(* ===================================================================== *)

Inductive TaskType : Type :=
| keepalive
| notification.

Definition TaskType_eqb (a b : TaskType) : bool :=
  match a, b with
  | keepalive, keepalive => true
  | notification, notification => true
  | _, _ => false
  end.

(** ['success' | 'failure'] *)
Inductive RunStatus : Type :=
| success
| failure.

Definition RunStatus_eqb (a b : RunStatus) : bool :=
  match a, b with
  | success, success => true
  | failure, failure => true
  | _, _ => false
  end.

Definition Headers := list (string * string).

Record NotifyXConfig : Type := {
  nx_apiKey : option string;
  nx_channelId : option string;
  nx_title : option string;
  nx_recipients : option (list string)
}.

(** The [config] slot of a task.  It is one JavaScript object read through
    [as KeepaliveConfig] or [as NotificationConfig]; a property that the
    object does not carry reads as [undefined], here [None]. *)
Record Config : Type := {
  cfg_url : option string;
  cfg_method : option string;
  cfg_headers : option Headers;
  cfg_body : option string;
  cfg_timeout : option Z;
  cfg_message : option string;
  cfg_title : option string;
  cfg_priority : option string;
  cfg_notifyxConfig : option NotifyXConfig
}.

Record Task : Type := {
  id : string;
  name : string;
  type : TaskType;
  schedule : string;
  config : Config;
  enabled : bool;
  created_by : string;
  last_executed : option IsoString;
  last_status : option RunStatus
}.

(** [Partial<Task>]: the fields an update carries. *)
Record TaskPatch : Type := {
  p_name : option string;
  p_type : option TaskType;
  p_schedule : option string;
  p_config : option Config;
  p_enabled : option bool;
  p_last_executed : option IsoString;
  p_last_status : option RunStatus
}.

Definition no_change : TaskPatch :=
  {| p_name := None; p_type := None; p_schedule := None; p_config := None;
     p_enabled := None; p_last_executed := None; p_last_status := None |}.

Record ExecutionResult : Type := {
  er_success : bool;
  er_responseTime : Z;
  er_statusCode : option Z;
  er_error : option string;
  er_timestamp : Date
}.

Inductive LogType : Type :=
| log_execution
| log_system
| log_audit.

Record ExecutionLog : Type := {
  log_id : string;
  log_task_id : option string;
  log_type : LogType;
  log_status : RunStatus;
  log_response_time : option Z;
  log_status_code : option Z;
  log_error_message : option string;
  log_details : option ExecutionResult
}.

(** The uniform result of a storage operation: [{success, data?, error?}]. *)
Record DbResult (A : Type) : Type := {
  db_success : bool;
  db_data : option A;
  db_error : option string
}.
Arguments db_success {A} _.
Arguments db_data {A} _.
Arguments db_error {A} _.

(** The result the task-management operations hand to the routes. *)
Record ServiceResult (A : Type) : Type := {
  sr_success : bool;
  sr_data : option A;
  sr_error : option string
}.
Arguments sr_success {A} _.
Arguments sr_data {A} _.
Arguments sr_error {A} _.

(* ===================================================================== *)
(** ** The transport *)
(* ===================================================================== *)

Record AbortSignal : Type := { signal_ms : Z }.

Record NotifyXPayload : Type := {
  pl_channel_id : option string;
  pl_title : option string;
  pl_message : option string;
  pl_priority : option string;
  pl_recipients : option (list string)
}.

(** A request body: the configured text, or [JSON.stringify] of a payload. *)
Inductive Body : Type :=
| RawBody (text : string)
| JsonBody (payload : NotifyXPayload).

Record RequestInit : Type := {
  ri_method : option string;
  ri_headers : Headers;
  ri_body : option Body;
  ri_signal : AbortSignal
}.

Record Response : Type := {
  ok : bool;
  status : Z;
  statusText : string
}.

(* ===================================================================== *)
(** ** Calls that leave the service *)
(* ===================================================================== *)

(** Calls that always return. *)
Inductive SysCmd : Type -> Type :=
| Date_now : SysCmd Z
| new_Date : SysCmd Date
| crypto_randomUUID : SysCmd string
| console_error (label : string) (error : Thrown) : SysCmd unit.

(** Awaited calls: each returns or throws. *)
Inductive ExtCmd : Type -> Type :=
| AbortSignal_timeout (ms : Z) : ExtCmd AbortSignal
| fetch (url : option string) (init : RequestInit) : ExtCmd Response
| Response_text (r : Response) : ExtCmd string
| DatabaseUtils_getTaskById (taskId : string) : ExtCmd (DbResult Task)
| DatabaseUtils_updateTask (taskId : string) (updateData : TaskPatch)
    : ExtCmd (DbResult Task)
| DatabaseUtils_deleteTask (taskId : string) : ExtCmd (DbResult unit)
| DatabaseUtils_createExecutionLog (log : ExecutionLog)
    : ExtCmd (DbResult ExecutionLog).

(** One call together with the answer it got. *)
Inductive Event : Type :=
| EvSys {X : Type} (c : SysCmd X) (x : X)
| EvExt {X : Type} (c : ExtCmd X) (o : Outcome X).

(* ===================================================================== *)
(** ** Programs *)
(* ===================================================================== *)

Inductive Prog (A : Type) : Type :=
| Ret (a : A)
| Throw (e : Thrown)
| Sys {X : Type} (c : SysCmd X) (k : X -> Prog A)
| Ext {X : Type} (c : ExtCmd X) (k : Outcome X -> Prog A).
Arguments Ret {A} a.
Arguments Throw {A} e.
Arguments Sys {A X} c k.
Arguments Ext {A X} c k.

Fixpoint pbind {A B : Type} (p : Prog A) (f : A -> Prog B) : Prog B :=
  match p with
  | Ret a => f a
  | Throw e => Throw e
  | Sys c k => Sys c (fun x => pbind (k x) f)
  | Ext c k => Ext c (fun o => pbind (k o) f)
  end.

(** [try { p } catch (error) { h error }] *)
Fixpoint try_catch {A : Type} (p : Prog A) (h : Thrown -> Prog A) : Prog A :=
  match p with
  | Ret a => Ret a
  | Throw e => h e
  | Sys c k => Sys c (fun x => try_catch (k x) h)
  | Ext c k => Ext c (fun o => try_catch (k o) h)
  end.

#[export] Instance Monad_Prog : Monad Prog :=
  {| ret := @Ret; bind := @pbind |}.

#[export] Instance Exc_Prog : MonadExc Thrown Prog :=
  {| raise := @Throw; catch := @try_catch |}.

(** A call that cannot throw. *)
Definition sys {X : Type} (c : SysCmd X) : Prog X := Sys c Ret.

(** [await c]: the value when the call returns, a throw when it throws. *)
Definition await {X : Type} (c : ExtCmd X) : Prog X :=
  Ext c (fun o => match o with
                  | Returned x => Ret x
                  | Raised e => Throw e
                  end).

(** The environment: it answers every call and may change while doing so. *)
Record Handler (W : Type) : Type := {
  on_sys : forall X, SysCmd X -> W -> X * W;
  on_ext : forall X, ExtCmd X -> W -> Outcome X * W
}.
Arguments on_sys {W} _ {X} _ _.
Arguments on_ext {W} _ {X} _ _.

Record Run (W A : Type) : Type := {
  outcome : Outcome A;
  world : W;
  trace : list Event
}.
Arguments outcome {W A} _.
Arguments world {W A} _.
Arguments trace {W A} _.

Definition after {W A : Type} (ev : Event) (r : Run W A) : Run W A :=
  {| outcome := outcome r; world := world r; trace := ev :: trace r |}.

Fixpoint run {W A : Type} (h : Handler W) (p : Prog A) (w : W) : Run W A :=
  match p with
  | Ret a => {| outcome := Returned a; world := w; trace := [] |}
  | Throw e => {| outcome := Raised e; world := w; trace := [] |}
  | Sys c k =>
      let (x, w') := on_sys h c w in
      after (EvSys c x) (run h (k x) w')
  | Ext c k =>
      let (o, w') := on_ext h c w in
      after (EvExt c o) (run h (k o) w')
  end.

(* ===================================================================== *)
(** ** [server/services/task.service.ts] *)
(* ===================================================================== *)

Module TaskService.

(** [crypto.randomUUID()] *)
Definition generateId : Prog string := sys crypto_randomUUID.

(** Modelled from the spec: [ExecutionLogModel.create], of
    [models/execution-log.model], whose source is not available.  Following
    the data model it builds an execution-type log that carries a task id
    and the fields it is given. *)
Definition ExecutionLogModel_create (id task_id : string) (status : RunStatus)
    (response_time : Z) (status_code : option Z)
    (error_message : option string) (details : ExecutionResult)
    : ExecutionLog :=
  {| log_id := id;
     log_task_id := Some task_id;
     log_type := log_execution;
     log_status := status;
     log_response_time := Some response_time;
     log_status_code := status_code;
     log_error_message := error_message;
     log_details := Some details |}.

(** [result.success ? 'success' : 'failure'] *)
Definition status_of (ok : bool) : RunStatus :=
  if ok then success else failure.

Definition logExecution (taskId : string) (result : ExecutionResult)
    : Prog unit :=
  catch
    (id <- generateId ;;
     let log :=
       ExecutionLogModel_create id taskId
         (status_of (er_success result))
         (er_responseTime result)
         (er_statusCode result)
         (er_error result)
         result in
     _ <- await (DatabaseUtils_createExecutionLog log) ;;
     ret tt)
    (fun error => sys (console_error "记录执行日志失败:" error)).

(** [{ last_executed: new Date().toISOString(), last_status: s }] *)
Definition last_run (d : Date) (s : RunStatus) : TaskPatch :=
  {| p_name := None; p_type := None; p_schedule := None; p_config := None;
     p_enabled := None;
     p_last_executed := Some (toISOString d);
     p_last_status := Some s |}.

(** The [catch (error)] block shared by both executors. *)
Definition execution_failed (startTime : Z) (task : Task) (error : Thrown)
    : Prog ExecutionResult :=
  now <- sys Date_now ;;
  let responseTime := now - startTime in
  timestamp <- sys new_Date ;;
  let executionResult :=
    {| er_success := false;
       er_responseTime := responseTime;
       er_statusCode := None;
       er_error := Some (errorMessage error);
       er_timestamp := timestamp |} in
  logExecution (id task) executionResult ;;
  d <- sys new_Date ;;
  _ <- await (DatabaseUtils_updateTask (id task) (last_run d failure)) ;;
  ret executionResult.

(** [config.method === 'POST' || config.method === 'PUT'] *)
Definition carries_body (method : option string) : bool :=
  match method with
  | Some m => String.eqb m "POST" || String.eqb m "PUT"
  | None => false
  end.

Definition executeKeepaliveTask (task : Task) : Prog ExecutionResult :=
  startTime <- sys Date_now ;;
  catch
    ((if TaskType_eqb (type task) keepalive
      then ret tt
      else raise (JsError "任务类型不是保活任务")) ;;
     let config := config task in
     signal <- await (AbortSignal_timeout (num_or (cfg_timeout config) 30000)) ;;
     let requestOptions :=
       {| ri_method := cfg_method config;
          ri_headers := match cfg_headers config with
                        | Some hs => hs
                        | None => []
                        end;
          ri_body :=
            if truthy (cfg_body config) && carries_body (cfg_method config)
            then option_map RawBody (cfg_body config)
            else None;
          ri_signal := signal |} in
     response <- await (fetch (cfg_url config) requestOptions) ;;
     now <- sys Date_now ;;
     let responseTime := now - startTime in
     timestamp <- sys new_Date ;;
     let executionResult :=
       {| er_success := ok response;
          er_responseTime := responseTime;
          er_statusCode := Some (status response);
          er_error :=
            if negb (ok response)
            then Some ("HTTP " ++ show_number (status response) ++ ": "
                       ++ statusText response)
            else None;
          er_timestamp := timestamp |} in
     logExecution (id task) executionResult ;;
     d <- sys new_Date ;;
     _ <- await (DatabaseUtils_updateTask (id task)
                   (last_run d (status_of (er_success executionResult)))) ;;
     ret executionResult)
    (execution_failed startTime task).

(** Reading a property of [undefined] throws a [TypeError]. *)
Definition undefined_read (property : string) : Thrown :=
  JsError ("Cannot read properties of undefined (reading '" ++ property ++ "')").

Definition executeNotificationTask (task : Task) : Prog ExecutionResult :=
  startTime <- sys Date_now ;;
  catch
    ((if TaskType_eqb (type task) notification
      then ret tt
      else raise (JsError "任务类型不是通知任务")) ;;
     let config := config task in
     notifyxConfig <- match cfg_notifyxConfig config with
                      | Some c => ret c
                      | None => raise (undefined_read "apiKey")
                      end ;;
     let payload :=
       {| pl_channel_id := nx_channelId notifyxConfig;
          pl_title := or_else (or_else (cfg_title config) (nx_title notifyxConfig))
                        (Some "定时通知");
          pl_message := cfg_message config;
          pl_priority := or_else (cfg_priority config) (Some "normal");
          pl_recipients := nx_recipients notifyxConfig |} in
     signal <- await (AbortSignal_timeout 30000) ;;
     response <- await (fetch (Some "https://api.notifyx.cn/v1/send")
       {| ri_method := Some "POST";
          ri_headers :=
            [("Content-Type", "application/json");
             ("Authorization", "Bearer " ++ show_string (nx_apiKey notifyxConfig))];
          ri_body := Some (JsonBody payload);
          ri_signal := signal |}) ;;
     now <- sys Date_now ;;
     let responseTime := now - startTime in
     timestamp <- sys new_Date ;;
     error <- (if negb (ok response)
               then errorText <- await (Response_text response) ;;
                    ret (Some ("通知发送失败: HTTP " ++ show_number (status response)
                               ++ " - " ++ errorText))
               else ret None) ;;
     let executionResult :=
       {| er_success := ok response;
          er_responseTime := responseTime;
          er_statusCode := Some (status response);
          er_error := error;
          er_timestamp := timestamp |} in
     logExecution (id task) executionResult ;;
     d <- sys new_Date ;;
     _ <- await (DatabaseUtils_updateTask (id task)
                   (last_run d (status_of (er_success executionResult)))) ;;
     ret executionResult)
    (execution_failed startTime task).

(** [{ success: false, error }] *)
Definition refused {A : Type} (error : option string) : ServiceResult A :=
  {| sr_success := false; sr_data := None; sr_error := error |}.

(** [{ success: true, data }] *)
Definition done {A : Type} (data : option A) : ServiceResult A :=
  {| sr_success := true; sr_data := data; sr_error := None |}.

(** [!existingResult.success || !existingResult.data] decides between "no
    such task" and the task that was found. *)
Definition found (existingResult : DbResult Task) : option Task :=
  if negb (db_success existingResult) then None else db_data existingResult.

Definition updateTask (taskId : string) (updateData : TaskPatch)
    (userId : string) : Prog (ServiceResult Task) :=
  catch
    (existingResult <- await (DatabaseUtils_getTaskById taskId) ;;
     match found existingResult with
     | None => ret (refused (Some "任务不存在"))
     | Some existing =>
         if negb (String.eqb (created_by existing) userId)
         then ret (refused (Some "无权限更新此任务"))
         else
           result <- await (DatabaseUtils_updateTask taskId updateData) ;;
           if negb (db_success result)
           then ret (refused (db_error result))
           else ret (done (db_data result))
     end)
    (fun error => ret (refused (Some ("更新任务失败: " ++ errorMessage error)))).

Definition deleteTask (taskId : string) (userId : string)
    : Prog (ServiceResult unit) :=
  catch
    (existingResult <- await (DatabaseUtils_getTaskById taskId) ;;
     match found existingResult with
     | None => ret (refused (Some "任务不存在"))
     | Some existing =>
         if negb (String.eqb (created_by existing) userId)
         then ret (refused (Some "无权限删除此任务"))
         else
           result <- await (DatabaseUtils_deleteTask taskId) ;;
           if negb (db_success result)
           then ret (refused (db_error result))
           else ret (done None)
     end)
    (fun error => ret (refused (Some ("删除任务失败: " ++ errorMessage error)))).

Definition toggleTaskStatus (taskId : string) (userId : string)
    : Prog (ServiceResult Task) :=
  catch
    (existingResult <- await (DatabaseUtils_getTaskById taskId) ;;
     match found existingResult with
     | None => ret (refused (Some "任务不存在"))
     | Some existing =>
         if negb (String.eqb (created_by existing) userId)
         then ret (refused (Some "无权限修改此任务"))
         else
           let newEnabled := negb (enabled existing) in
           result <- await (DatabaseUtils_updateTask taskId
             {| p_name := None; p_type := None; p_schedule := None;
                p_config := None; p_enabled := Some newEnabled;
                p_last_executed := None; p_last_status := None |}) ;;
           if negb (db_success result)
           then ret (refused (db_error result))
           else ret (done (db_data result))
     end)
    (fun error => ret (refused (Some ("切换任务状态失败: " ++ errorMessage error)))).

End TaskService.

(* ===================================================================== *)
(** ** Reading a trace *)
(* ===================================================================== *)

Local Open Scope list_scope.

(** The storage operations a run asked for, in order. *)
Inductive StorageCall : Type :=
| TaskRead (taskId : string)
| TaskUpdate (taskId : string) (updateData : TaskPatch)
| TaskDelete (taskId : string)
| LogWrite (log : ExecutionLog).

Definition storage_call (ev : Event) : option StorageCall :=
  match ev with
  | EvExt c _ =>
      match c with
      | DatabaseUtils_getTaskById taskId => Some (TaskRead taskId)
      | DatabaseUtils_updateTask taskId updateData =>
          Some (TaskUpdate taskId updateData)
      | DatabaseUtils_deleteTask taskId => Some (TaskDelete taskId)
      | DatabaseUtils_createExecutionLog log => Some (LogWrite log)
      | _ => None
      end
  | EvSys _ _ => None
  end.

Fixpoint pick {A B : Type} (f : A -> option B) (l : list A) : list B :=
  match l with
  | [] => []
  | a :: l' =>
      match f a with
      | Some b => b :: pick f l'
      | None => pick f l'
      end
  end.

Definition storage_calls (tr : list Event) : list StorageCall :=
  pick storage_call tr.

(** What the transport answered to each [fetch]. *)
Definition transport_answer (ev : Event) : option (Outcome Response) :=
  match ev with
  | EvExt c o =>
      match c in ExtCmd X return Outcome X -> option (Outcome Response) with
      | fetch _ _ => fun o => Some o
      | _ => fun _ => None
      end o
  | EvSys _ _ => None
  end.

Definition transport_answers (tr : list Event) : list (Outcome Response) :=
  pick transport_answer tr.

(** The requests handed to [fetch]. *)
Definition request (ev : Event) : option (option string * RequestInit) :=
  match ev with
  | EvExt c _ =>
      match c with
      | fetch url init => Some (url, init)
      | _ => None
      end
  | EvSys _ _ => None
  end.

Definition requests (tr : list Event) : list (option string * RequestInit) :=
  pick request tr.

(** What storage answered to each log write: [None] when the write returned,
    the thrown value when it threw. *)
Definition thrown_by {X : Type} (o : Outcome X) : option Thrown :=
  match o with
  | Returned _ => None
  | Raised e => Some e
  end.

Definition log_write_failure (ev : Event) : option (option Thrown) :=
  match ev with
  | EvExt c o =>
      match c with
      | DatabaseUtils_createExecutionLog _ => Some (thrown_by o)
      | _ => None
      end
  | EvSys _ _ => None
  end.

Definition log_write_failures (tr : list Event) : list (option Thrown) :=
  pick log_write_failure tr.

(** The same for task updates. *)
Definition update_failure (ev : Event) : option (option Thrown) :=
  match ev with
  | EvExt c o =>
      match c with
      | DatabaseUtils_updateTask _ _ => Some (thrown_by o)
      | _ => None
      end
  | EvSys _ _ => None
  end.

Definition is_none {A : Type} (o : option A) : bool :=
  match o with
  | None => true
  | Some _ => false
  end.

Definition update_failures (tr : list Event) : list (option Thrown) :=
  pick update_failure tr.

(** Every task update of the trace returned a result. *)
Definition updates_returned (tr : list Event) : bool :=
  forallb is_none (update_failures tr).

(** What was written to the console. *)
Definition console_line (ev : Event) : option (string * Thrown) :=
  match ev with
  | EvSys c _ =>
      match c with
      | console_error label error => Some (label, error)
      | _ => None
      end
  | EvExt _ _ => None
  end.

Definition console (tr : list Event) : list (string * Thrown) :=
  pick console_line tr.

(** Each task update together with the [new Date()] reading that came last
    before it ([clock] is the reading so far). *)
Fixpoint stamped_updates (clock : option Date) (tr : list Event)
    : list (option Date * string * TaskPatch) :=
  match tr with
  | [] => []
  | ev :: tr' =>
      match ev with
      | EvSys c x =>
          match c in SysCmd X return X -> _ with
          | new_Date => fun d => stamped_updates (Some d) tr'
          | _ => fun _ => stamped_updates clock tr'
          end x
      | EvExt c _ =>
          match c with
          | DatabaseUtils_updateTask taskId updateData =>
              (clock, taskId, updateData) :: stamped_updates clock tr'
          | _ => stamped_updates clock tr'
          end
      end
  end.


(* ===================================================================== *)
(** ** The two executors side by side *)
(* ===================================================================== *)

Inductive Executor : Type :=
| KeepaliveExecutor
| NotificationExecutor.

(** The task type an executor checks for. *)
Definition expects (x : Executor) : TaskType :=
  match x with
  | KeepaliveExecutor => keepalive
  | NotificationExecutor => notification
  end.

(** The message of the error it throws on any other type. *)
Definition mismatch_message (x : Executor) : string :=
  match x with
  | KeepaliveExecutor => "任务类型不是保活任务"
  | NotificationExecutor => "任务类型不是通知任务"
  end.

Definition execute (x : Executor) (task : Task) : Prog ExecutionResult :=
  match x with
  | KeepaliveExecutor => TaskService.executeKeepaliveTask task
  | NotificationExecutor => TaskService.executeNotificationTask task
  end.

(** One run of an executor against an environment. *)
Definition execution {W : Type} (h : Handler W) (w : W) (x : Executor)
    (task : Task) : Run W ExecutionResult :=
  run h (execute x task) w.

(** The thrown values among the answers to log writes. *)
Fixpoint thrown_values (l : list (option Thrown)) : list Thrown :=
  match l with
  | [] => []
  | Some e :: l' => e :: thrown_values l'
  | None :: l' => thrown_values l'
  end.

(** Log writes and task updates strictly alternate, a log write first. *)
Fixpoint log_then_update (taskId : string) (calls : list StorageCall) : Prop :=
  match calls with
  | [] => True
  | LogWrite _ :: TaskUpdate taskId' _ :: rest =>
      taskId' = taskId /\ log_then_update taskId rest
  | _ => False
  end.

(** Storage calls that change a stored task. *)
Definition changes_task (c : StorageCall) : bool :=
  match c with
  | TaskUpdate _ _ => true
  | TaskDelete _ => true
  | TaskRead _ => false
  | LogWrite _ => false
  end.

(* ===================================================================== *)
(** ** Composing runs *)
(* ===================================================================== *)

(** Sequencing two runs: the second starts in the world the first left, if
    the first returned. *)
Definition and_then {W A B : Type} (r : Run W A) (k : A -> W -> Run W B)
    : Run W B :=
  match outcome r with
  | Returned a =>
      let r' := k a (world r) in
      {| outcome := outcome r'; world := world r';
         trace := trace r ++ trace r' |}
  | Raised e => {| outcome := Raised e; world := world r; trace := trace r |}
  end.

(** Recovering from a run that threw. *)
Definition or_catch {W A : Type} (r : Run W A) (k : Thrown -> W -> Run W A)
    : Run W A :=
  match outcome r with
  | Returned a => r
  | Raised e =>
      let r' := k e (world r) in
      {| outcome := outcome r'; world := world r';
         trace := trace r ++ trace r' |}
  end.

(* ===================================================================== *)
(** ** The notification decision engine *)
(* ===================================================================== *)

Module NotificationService.

(** A log as storage holds it: the written fields plus the execution time
    the database stamps on the row. *)
Record StoredLog : Type := {
  entry : ExecutionLog;
  execution_time : Date
}.

Definition stored_status (l : StoredLog) : RunStatus := log_status (entry l).

Definition of_task (taskId : string) (l : StoredLog) : bool :=
  match log_task_id (entry l) with
  | Some t => String.eqb t taskId
  | None => false
  end.

(** Insertion of a row into rows ordered by execution time, newest first. *)
Fixpoint insert_newest_first (x : StoredLog) (l : list StoredLog)
    : list StoredLog :=
  match l with
  | [] => [x]
  | y :: l' =>
      if execution_time y <? execution_time x
      then x :: y :: l'
      else y :: insert_newest_first x l'
  end.

(** [ORDER BY execution_time DESC] *)
Fixpoint newest_first (l : list StoredLog) : list StoredLog :=
  match l with
  | [] => []
  | x :: l' => insert_newest_first x (newest_first l')
  end.

(** [a] was executed no earlier than [b]. *)
Definition not_older (a b : StoredLog) : Prop :=
  execution_time b <= execution_time a.

(** The history of one task, newest first. *)
Definition history (store : list StoredLog) (taskId : string)
    : list StoredLog :=
  newest_first (filter (of_task taskId) store).

(** Modelled from the spec: the storage query
    [getExecutionLogsByTaskId(id, limit)] of [utils/database], whose source
    is not available: the [limit] most recent logs of the task, ordered by
    execution time descending. *)
Definition getExecutionLogsByTaskId (store : list StoredLog)
    (taskId : string) (limit : nat) : list StoredLog :=
  firstn limit (history store taskId).

(** Modelled from the spec: the consecutive-failure count, the number of
    failure-status logs met scanning newest-first before the first
    success. *)
Fixpoint consecutiveFailures (logs : list StoredLog) : nat :=
  match logs with
  | [] => O
  | l :: rest =>
      match stored_status l with
      | failure => S (consecutiveFailures rest)
      | success => O
      end
  end.

(** Modelled from the spec: the failure-alert rule of
    [notification.service], whose source is not available.  It scans the most recent logs of the task newest-first, stopping at the
    first success or at the threshold count, and fires when the count
    reaches the threshold. *)
Definition shouldAlertOnFailure (store : list StoredLog) (taskId : string)
    (threshold : nat) : bool :=
  (threshold <=?
     consecutiveFailures (getExecutionLogsByTaskId store taskId threshold))%nat.

(** Modelled from the spec: the recovery-alert rule of
    [notification.service]: the two most recent logs are fetched; it fires
    when the newest is a success and the one before it a failure, and not
    at all with fewer than two logs. *)
Definition shouldSendRecoveryAlert (store : list StoredLog) (taskId : string)
    : bool :=
  match getExecutionLogsByTaskId store taskId 2 with
  | [newest; previous] =>
      RunStatus_eqb (stored_status newest) success
      && RunStatus_eqb (stored_status previous) failure
  | _ => false
  end.

Inductive Channel : Type :=
| NotifyX
| Webhook
| Email.

Record NotificationSettings : Type := {
  user_id : string;
  email_enabled : bool;
  email_address : option string;
  email_api_key : option string;
  webhook_enabled : bool;
  webhook_url : option string;
  notifyx_enabled : bool;
  notifyx_api_key : option string;
  failure_threshold : nat
}.

(** The enabled channels, in fan-out order: push, webhook, email. *)
Definition enabled_channels (s : NotificationSettings) : list Channel :=
  (if notifyx_enabled s then [NotifyX] else [])
  ++ (if webhook_enabled s then [Webhook] else [])
  ++ (if email_enabled s then [Email] else []).

(** What the caller of an alert gets back, and the deliveries that were
    attempted with their outcomes. *)
Record AlertResult : Type := {
  alert_success : bool;
  attempts : list (Channel * bool)
}.

Definition skipped : AlertResult :=
  {| alert_success := true; attempts := [] |}.

(** Modelled from the spec: the channel fan-out.  Every enabled channel is
    attempted on its own, whatever became of the others; with no channel
    enabled the call is skipped as a success.  With channels enabled the
    call succeeds when a delivery did, which is how the property tests of
    the service read the result. *)
Definition fan_out (deliver : Channel -> bool) (s : NotificationSettings)
    : AlertResult :=
  match enabled_channels s with
  | [] => skipped
  | channels =>
      let outcomes := map (fun c => (c, deliver c)) channels in
      {| alert_success := existsb snd outcomes; attempts := outcomes |}
  end.

(** Modelled from the spec: [sendFailureAlert] of [notification.service].
    The threshold is the user's [failure_threshold], or the default of the
    engine when the user has no settings; below the threshold nothing is
    sent and the call succeeds. *)
Definition sendFailureAlert (default_threshold : nat)
    (settings : option NotificationSettings) (store : list StoredLog)
    (deliver : Channel -> bool) (task : Task) : AlertResult :=
  let threshold :=
    match settings with
    | Some s => failure_threshold s
    | None => default_threshold
    end in
  if shouldAlertOnFailure store (id task) threshold
  then match settings with
       | Some s => fan_out deliver s
       | None => skipped
       end
  else skipped.

End NotificationService.

(* ===================================================================== *)
(** ** The recurrence rule evaluator *)
(* ===================================================================== *)

Module CronService.

(** One field of a cron expression: [*], an exact value, or a step from
    zero. *)
Inductive CronField : Type :=
| Wildcard
| Exact (value : Z)
| Step (step : Z).

Record CronExpression : Type := {
  cron_minute : CronField;
  cron_hour : CronField;
  cron_day_of_month : CronField;
  cron_month : CronField;
  cron_day_of_week : CronField
}.

Inductive IntervalUnit : Type :=
| unit_minute
| unit_hour
| unit_day
| unit_week
| unit_month.

(** [{ type: 'interval', unit, interval, startDate, reminderAdvanceValue,
    reminderAdvanceUnit }] *)
Record IntervalRule : Type := {
  unit : IntervalUnit;
  interval : Z;
  startDate : Date;
  reminderAdvanceValue : option Z;
  reminderAdvanceUnit : option IntervalUnit
}.

Inductive Rule : Type :=
| CronRule (expression : CronExpression)
| Interval (rule : IntervalRule)
| Malformed.

(** The calendar fields of an instant, in UTC. *)
Definition minute_of (t : Date) : Z := (t / 60000) mod 60.
Definition hour_of (t : Date) : Z := (t / 3600000) mod 24.
Definition days_of (t : Date) : Z := t / 86400000.
Definition day_of_week_of (t : Date) : Z := (days_of t + 4) mod 7.

(** Day of the year counted from the first of March, with its year of the
    400-year era, for the day number [z] counted from 0000-03-01. *)
Definition day_of_era (z : Z) : Z := z mod 146097.
Definition year_of_era (doe : Z) : Z :=
  (doe - doe / 1460 + doe / 36524 - doe / 146096) / 365.
Definition day_of_year (doe : Z) : Z :=
  let yoe := year_of_era doe in
  doe - (365 * yoe + yoe / 4 - yoe / 100).

Definition month_of (t : Date) : Z :=
  let mp := (5 * day_of_year (day_of_era (days_of t + 719468)) + 2) / 153 in
  if mp <? 10 then mp + 3 else mp - 9.

Definition day_of_month_of (t : Date) : Z :=
  let doy := day_of_year (day_of_era (days_of t + 719468)) in
  let mp := (5 * doy + 2) / 153 in
  doy - (153 * mp + 2) / 5 + 1.

Definition matches (f : CronField) (v : Z) : bool :=
  match f with
  | Wildcard => true
  | Exact value => v =? value
  | Step step => (0 <? step) && (v mod step =? 0)
  end.

(** Both instants fall in the same minute. *)
Definition same_minute (a b : Date) : bool := a / 60000 =? b / 60000.

Definition executed_this_minute (lastExecutedAt : option Date) (now : Date)
    : bool :=
  match lastExecutedAt with
  | Some t => same_minute t now
  | None => false
  end.

Section Evaluator.

(** What the design leaves to the engine: the length of each unit and the
    tolerance window of a tick, in milliseconds. *)
Variable unit_length : IntervalUnit -> Z.
Variable tolerance : Z.

Definition cron_due (e : CronExpression) (lastExecutedAt : option Date)
    (now : Date) : bool :=
  matches (cron_minute e) (minute_of now)
  && matches (cron_hour e) (hour_of now)
  && matches (cron_day_of_month e) (day_of_month_of now)
  && matches (cron_month e) (month_of now)
  && matches (cron_day_of_week e) (day_of_week_of now)
  && negb (executed_this_minute lastExecutedAt now).

Definition period (r : IntervalRule) : Z := interval r * unit_length (unit r).

(** The first occurrence at or after [now]. *)
Definition next_interval_occurrence (r : IntervalRule) (now : Date) : Date :=
  if now <=? startDate r
  then startDate r
  else startDate r + ((now - startDate r + period r - 1) / period r) * period r.

Definition reminder_advance (r : IntervalRule) : Z :=
  match reminderAdvanceValue r, reminderAdvanceUnit r with
  | Some v, Some u => v * unit_length u
  | _, _ => 0
  end.

Definition interval_due (r : IntervalRule) (now : Date) : bool :=
  if (interval r <=? 0) || (period r <=? 0)
  then false
  else
    ((startDate r <=? now) && ((now - startDate r) mod period r <? tolerance))
    || ((next_interval_occurrence r now - reminder_advance r <=? now)
        && (now <? next_interval_occurrence r now)).

(** Modelled from the spec: the rule check of [cron.service], whose source
    is not available.  A cron rule is due when every field
    of [now] matches and the task has not run in this minute; an interval
    rule is due on a multiple of its period after the start date, within
    the tolerance of a tick, or inside the reminder window before the next
    occurrence; a malformed rule is never due. *)
Definition due (rule : Rule) (lastExecutedAt : option Date) (now : Date)
    : bool :=
  match rule with
  | CronRule e => cron_due e lastExecutedAt now
  | Interval r => interval_due r now
  | Malformed => false
  end.

End Evaluator.

(** [*/5 * * * *] *)
Definition every_five_minutes : CronExpression :=
  {| cron_minute := Step 5; cron_hour := Wildcard;
     cron_day_of_month := Wildcard; cron_month := Wildcard;
     cron_day_of_week := Wildcard |}.

End CronService.

(* ===================================================================== *)
(** ** An environment that computes *)
(* ===================================================================== *)

(** A small world to run the service against: a clock that advances with
    every reading, a counter for ids, one scripted transport answer, and
    storage held in memory.  Storage can be given a fault: a value that
    every log write throws, and a value that the next task update throws. *)
Module Memory.

Record World : Type := {
  clock : Z;
  issued : nat;
  net : Outcome Response;
  net_text : Outcome string;
  tasks : list Task;
  logs : list ExecutionLog;
  log_fault : option Thrown;
  update_fault : option Thrown;
  printed : list (string * Thrown)
}.

Definition tick (w : World) : World :=
  {| clock := clock w + 1; issued := issued w; net := net w;
     net_text := net_text w; tasks := tasks w; logs := logs w;
     log_fault := log_fault w; update_fault := update_fault w;
     printed := printed w |}.

Definition issue (w : World) : World :=
  {| clock := clock w; issued := S (issued w); net := net w;
     net_text := net_text w; tasks := tasks w; logs := logs w;
     log_fault := log_fault w; update_fault := update_fault w;
     printed := printed w |}.

Definition print (line : string * Thrown) (w : World) : World :=
  {| clock := clock w; issued := issued w; net := net w;
     net_text := net_text w; tasks := tasks w; logs := logs w;
     log_fault := log_fault w; update_fault := update_fault w;
     printed := printed w ++ [line] |}.

Definition with_tasks (ts : list Task) (w : World) : World :=
  {| clock := clock w; issued := issued w; net := net w;
     net_text := net_text w; tasks := ts; logs := logs w;
     log_fault := log_fault w; update_fault := update_fault w;
     printed := printed w |}.

Definition with_logs (ls : list ExecutionLog) (w : World) : World :=
  {| clock := clock w; issued := issued w; net := net w;
     net_text := net_text w; tasks := tasks w; logs := ls;
     log_fault := log_fault w; update_fault := update_fault w;
     printed := printed w |}.

Definition with_log_fault (e : option Thrown) (w : World) : World :=
  {| clock := clock w; issued := issued w; net := net w;
     net_text := net_text w; tasks := tasks w; logs := logs w;
     log_fault := e; update_fault := update_fault w;
     printed := printed w |}.

Definition with_update_fault (e : option Thrown) (w : World) : World :=
  {| clock := clock w; issued := issued w; net := net w;
     net_text := net_text w; tasks := tasks w; logs := logs w;
     log_fault := log_fault w; update_fault := e;
     printed := printed w |}.

Definition keep {A : Type} (new : option A) (old : A) : A :=
  match new with
  | Some a => a
  | None => old
  end.

Definition keep_opt {A : Type} (new old : option A) : option A :=
  match new with
  | Some a => Some a
  | None => old
  end.

Definition patched (p : TaskPatch) (t : Task) : Task :=
  {| id := id t;
     name := keep (p_name p) (name t);
     type := keep (p_type p) (type t);
     schedule := keep (p_schedule p) (schedule t);
     config := keep (p_config p) (config t);
     enabled := keep (p_enabled p) (enabled t);
     created_by := created_by t;
     last_executed := keep_opt (p_last_executed p) (last_executed t);
     last_status := keep_opt (p_last_status p) (last_status t) |}.

Definition lookup (taskId : string) (ts : list Task) : option Task :=
  find (fun t => String.eqb (id t) taskId) ts.

Definition replace (taskId : string) (p : TaskPatch) (ts : list Task)
    : list Task :=
  map (fun t => if String.eqb (id t) taskId then patched p t else t) ts.

Definition remove (taskId : string) (ts : list Task) : list Task :=
  filter (fun t => negb (String.eqb (id t) taskId)) ts.

Definition found_row {A : Type} (a : option A) : DbResult A :=
  {| db_success := true; db_data := a; db_error := None |}.

Definition missing {A : Type} : DbResult A :=
  {| db_success := false; db_data := None; db_error := Some "任务不存在" |}.

Definition answer_sys (X : Type) (c : SysCmd X) (w : World) : X * World :=
  match c in SysCmd X return X * World with
  | Date_now => (clock w, tick w)
  | new_Date => (clock w, tick w)
  | crypto_randomUUID =>
      (("log-" ++ NilZero.string_of_uint (Nat.to_uint (issued w)))%string,
       issue w)
  | console_error label error => (tt, print (label, error) w)
  end.

Definition answer_ext (X : Type) (c : ExtCmd X) (w : World)
    : Outcome X * World :=
  match c in ExtCmd X return Outcome X * World with
  | AbortSignal_timeout ms =>
      if ms <? 0
      then (Raised (JsError "The value is out of range"), w)
      else (Returned {| signal_ms := ms |}, w)
  | fetch _ _ => (net w, w)
  | Response_text _ => (net_text w, w)
  | DatabaseUtils_getTaskById taskId =>
      (Returned (found_row (lookup taskId (tasks w))), w)
  | DatabaseUtils_updateTask taskId updateData =>
      match update_fault w with
      | Some e => (Raised e, with_update_fault None w)
      | None =>
          match lookup taskId (tasks w) with
          | Some t =>
              (Returned (found_row (Some (patched updateData t))),
               with_tasks (replace taskId updateData (tasks w)) w)
          | None => (Returned missing, w)
          end
      end
  | DatabaseUtils_deleteTask taskId =>
      match lookup taskId (tasks w) with
      | Some _ =>
          (Returned (found_row None), with_tasks (remove taskId (tasks w)) w)
      | None => (Returned missing, w)
      end
  | DatabaseUtils_createExecutionLog log =>
      match log_fault w with
      | Some e => (Raised e, w)
      | None => (Returned (found_row (Some log)), with_logs (logs w ++ [log]) w)
      end
  end.

Definition handler : Handler World :=
  {| on_sys := answer_sys; on_ext := answer_ext |}.

(** A keepalive task as the end-to-end tests build it. *)
Definition ping : Task :=
  {| id := "task-fail-1";
     name := "ping";
     type := keepalive;
     schedule := "*/5 * * * *";
     config := {| cfg_url := Some "https://api.example.com/health";
                  cfg_method := Some "GET";
                  cfg_headers := None;
                  cfg_body := None;
                  cfg_timeout := Some 30000;
                  cfg_message := None;
                  cfg_title := None;
                  cfg_priority := None;
                  cfg_notifyxConfig := None |};
     enabled := true;
     created_by := "other-user-id";
     last_executed := None;
     last_status := None |}.

(** A world whose transport answers [answer] and that stores [ping]. *)
Definition world_with (answer : Outcome Response) : World :=
  {| clock := 1000;
     issued := 0;
     net := answer;
     net_text := Returned "unavailable";
     tasks := [ping];
     logs := [];
     log_fault := None;
     update_fault := None;
     printed := [] |}.

Definition http_500 : Response :=
  {| ok := false; status := 500; statusText := "Internal Server Error" |}.

Definition http_200 : Response :=
  {| ok := true; status := 200; statusText := "OK" |}.

Definition storage_error : Thrown := JsError "D1_ERROR: database is locked".

(** A stored log of [ping] with the given status and execution time. *)
Definition logged (s : RunStatus) (t : Date) : NotificationService.StoredLog :=
  {| NotificationService.entry :=
       TaskService.ExecutionLogModel_create "log" "task-fail-1" s 100 None
         (match s with
          | failure => Some "Test error"
          | success => None
          end)
         {| er_success := RunStatus_eqb s success; er_responseTime := 100;
            er_statusCode := None; er_error := None; er_timestamp := t |};
     NotificationService.execution_time := t |}.

(** Histories, in the order the rows were written. *)
Definition two_failures : list NotificationService.StoredLog :=
  [logged failure 1000; logged failure 2000].

Definition three_failures : list NotificationService.StoredLog :=
  [logged failure 1000; logged failure 2000; logged failure 3000].

Definition recovered : list NotificationService.StoredLog :=
  [logged failure 1000; logged failure 2000; logged success 3000].

(** Settings with threshold [k] and the given channel switches. *)
Definition settings (k : nat) (push webhook email : bool)
    : NotificationService.NotificationSettings :=
  {| NotificationService.user_id := "other-user-id";
     NotificationService.email_enabled := email;
     NotificationService.email_address := None;
     NotificationService.email_api_key := None;
     NotificationService.webhook_enabled := webhook;
     NotificationService.webhook_url := None;
     NotificationService.notifyx_enabled := push;
     NotificationService.notifyx_api_key := Some "test-api-key-1234567890";
     NotificationService.failure_threshold := k |}.

(** A transport for alerts on which every delivery succeeds. *)
Definition delivered (c : NotificationService.Channel) : bool := true.

End Memory.

(* ===================================================================== *)
(** ** Above the core: the rest of the task service and the routes *)
(* ===================================================================== *)

(** The code of this part calls the core programs above and, besides,
    collaborators of its own: the authentication service, the request
    body, the task model and three more storage operations.  Its programs
    are trees of the same kind, one level up: a node is a whole core
    program, or one of the further calls. *)

(** ['admin' | 'user'] *)
Inductive Role : Type :=
| role_admin
| role_user.

Record User : Type := {
  u_id : string;
  u_username : string;
  u_role : Role
}.

(** What the routes read of a [Request]: two query parameters of its URL.
    The body and the credentials are read through calls. *)
Record Request : Type := {
  query_type : option string;
  query_enabled : option string
}.

(** The body of a create request, read as the route declares it; a property
    the JSON object does not carry is [None]. *)
Record TaskData : Type := {
  td_name : option string;
  td_type : option TaskType;
  td_schedule : option string;
  td_config : option Config;
  td_enabled : option bool
}.

(** The object handed to [TaskModel.create]. *)
Record TaskDraft : Type := {
  d_id : string;
  d_name : option string;
  d_type : option TaskType;
  d_schedule : option string;
  d_config : option Config;
  d_created_by : string;
  d_enabled : bool
}.

(** The body of a login or register request. *)
Record Credentials : Type := {
  c_username : option string;
  c_password : option string;
  c_role : option Role
}.

(** [{ success, token?, user?, error? }] of the authentication service. *)
Record AuthResult : Type := {
  auth_success : bool;
  auth_token : option string;
  auth_user : option User;
  auth_error : option string
}.

(** The [filter] argument of [getAllTasks]. *)
Record TaskFilter : Type := {
  f_type : option string;
  f_enabled : option bool;
  f_created_by : option string
}.

Record Statistics : Type := {
  totalExecutions : nat;
  successCount : nat;
  failureCount : nat;
  averageResponseTime : Z;
  lastExecution : option Date
}.

(** Further awaited calls: each returns or throws. *)
Inductive AppCmd : Type -> Type :=
| AuthService_authenticateRequest (request : Request) : AppCmd (option User)
| AuthService_authenticate (username password : option string)
    : AppCmd AuthResult
| AuthService_register (username password : option string)
    (role : option Role) : AppCmd AuthResult
| AuthService_extractTokenFromRequest (request : Request)
    : AppCmd (option string)
| AuthService_refreshToken (token : option string) : AppCmd (option string)
| request_json_task (request : Request) : AppCmd TaskData
| request_json_patch (request : Request) : AppCmd TaskPatch
| request_json_credentials (request : Request) : AppCmd Credentials
| TaskModel_create (draft : TaskDraft) : AppCmd Task
| DatabaseUtils_createTask (task : Task) : AppCmd (DbResult Task)
| DatabaseUtils_getAllTasks (filter : option TaskFilter)
    : AppCmd (DbResult (list Task))
| DatabaseUtils_getExecutionLogsByTaskId (taskId : string) (limit : Z)
    : AppCmd (DbResult (list NotificationService.StoredLog)).

Inductive AppEvent : Type :=
| InCore (ev : Event)
| EvApp {X : Type} (c : AppCmd X) (o : Outcome X).

Inductive App (A : Type) : Type :=
| Done (a : A)
| Fail (e : Thrown)
| Core {X : Type} (p : Prog X) (k : Outcome X -> App A)
| Call {X : Type} (c : AppCmd X) (k : Outcome X -> App A).
Arguments Done {A} a.
Arguments Fail {A} e.
Arguments Core {A X} p k.
Arguments Call {A X} c k.

Fixpoint abind {A B : Type} (p : App A) (f : A -> App B) : App B :=
  match p with
  | Done a => f a
  | Fail e => Fail e
  | Core q k => Core q (fun o => abind (k o) f)
  | Call c k => Call c (fun o => abind (k o) f)
  end.

(** [try { p } catch (error) { h error }] *)
Fixpoint app_try_catch {A : Type} (p : App A) (h : Thrown -> App A) : App A :=
  match p with
  | Done a => Done a
  | Fail e => h e
  | Core q k => Core q (fun o => app_try_catch (k o) h)
  | Call c k => Call c (fun o => app_try_catch (k o) h)
  end.

#[export] Instance Monad_App : Monad App :=
  {| ret := @Done; bind := @abind |}.

#[export] Instance Exc_App : MonadExc Thrown App :=
  {| raise := @Fail; catch := @app_try_catch |}.

Definition settled {X : Type} (o : Outcome X) : App X :=
  match o with
  | Returned x => Done x
  | Raised e => Fail e
  end.

(** [await p] for a program of the core. *)
Definition core {X : Type} (p : Prog X) : App X := Core p settled.

(** [await c] for a further call. *)
Definition call {X : Type} (c : AppCmd X) : App X := Call c settled.

(** The environment of this layer: the one of the core, and answers to the
    further calls. *)
Record AppHandler (W : Type) : Type := {
  below : Handler W;
  on_app : forall X, AppCmd X -> W -> Outcome X * W
}.
Arguments below {W} _.
Arguments on_app {W} _ {X} _ _.

Record AppRun (W A : Type) : Type := {
  app_outcome : Outcome A;
  app_world : W;
  app_trace : list AppEvent
}.
Arguments app_outcome {W A} _.
Arguments app_world {W A} _.
Arguments app_trace {W A} _.

Definition app_after {W A : Type} (evs : list AppEvent) (r : AppRun W A)
    : AppRun W A :=
  {| app_outcome := app_outcome r; app_world := app_world r;
     app_trace := evs ++ app_trace r |}.

Fixpoint run_app {W A : Type} (h : AppHandler W) (p : App A) (w : W)
    : AppRun W A :=
  match p with
  | Done a => {| app_outcome := Returned a; app_world := w; app_trace := [] |}
  | Fail e => {| app_outcome := Raised e; app_world := w; app_trace := [] |}
  | Core q k =>
      let r := run (below h) q w in
      app_after (map InCore (trace r)) (run_app h (k (outcome r)) (world r))
  | Call c k =>
      let (o, w') := on_app h c w in
      app_after [EvApp c o] (run_app h (k o) w')
  end.

(** The events of the core inside a trace of this layer. *)
Definition core_event (ev : AppEvent) : option Event :=
  match ev with
  | InCore e => Some e
  | EvApp _ _ => None
  end.

Definition core_events (tr : list AppEvent) : list Event :=
  pick core_event tr.

(** The further calls a run made, in order. *)
Inductive AppCall : Type :=
| Authenticated (request : Request)
| LoggedIn (username password : option string)
| Registered (username password : option string) (role : option Role)
| TokenExtracted (request : Request)
| TokenRefreshed (token : option string)
| BodyRead (request : Request)
| ModelCreated (draft : TaskDraft)
| TaskStored (task : Task)
| TasksListed (filter : option TaskFilter)
| LogsQueried (taskId : string) (limit : Z).

Definition app_call (ev : AppEvent) : option AppCall :=
  match ev with
  | InCore _ => None
  | EvApp c _ =>
      Some match c with
           | AuthService_authenticateRequest request => Authenticated request
           | AuthService_authenticate username password =>
               LoggedIn username password
           | AuthService_register username password role =>
               Registered username password role
           | AuthService_extractTokenFromRequest request =>
               TokenExtracted request
           | AuthService_refreshToken token => TokenRefreshed token
           | request_json_task request => BodyRead request
           | request_json_patch request => BodyRead request
           | request_json_credentials request => BodyRead request
           | TaskModel_create draft => ModelCreated draft
           | DatabaseUtils_createTask task => TaskStored task
           | DatabaseUtils_getAllTasks filter => TasksListed filter
           | DatabaseUtils_getExecutionLogsByTaskId taskId limit =>
               LogsQueried taskId limit
           end
  end.

Definition app_calls (tr : list AppEvent) : list AppCall :=
  pick app_call tr.

(** [a || d] where [d] is a string literal. *)
Definition or_default (a : option string) (d : string) : string :=
  match or_else a (Some d) with
  | Some s => s
  | None => d
  end.

(** [a === s] for an optional string and a literal. *)
Definition is_string (a : option string) (s : string) : bool :=
  match a with
  | Some v => String.eqb v s
  | None => false
  end.

(* ===================================================================== *)
(** ** [server/services/task.service.ts], continued *)
(* ===================================================================== *)

Module TaskQueries.

(** A storage result handed on as it is. *)
Definition handed_on {A : Type} (result : DbResult A) : ServiceResult A :=
  {| sr_success := db_success result;
     sr_data := db_data result;
     sr_error := db_error result |}.

Definition createTask (taskData : TaskData) (userId : string)
    : App (ServiceResult Task) :=
  catch
    (id <- core TaskService.generateId ;;
     task <- call (TaskModel_create
       {| d_id := id;
          d_name := td_name taskData;
          d_type := td_type taskData;
          d_schedule := td_schedule taskData;
          d_config := td_config taskData;
          d_created_by := userId;
          d_enabled := match td_enabled taskData with
                       | Some b => b
                       | None => true
                       end |}) ;;
     result <- call (DatabaseUtils_createTask task) ;;
     if negb (db_success result)
     then ret (TaskService.refused (db_error result))
     else ret (TaskService.done (db_data result)))
    (fun error =>
       ret (TaskService.refused
              (Some ("创建任务失败: " ++ errorMessage error)%string))).

Definition getTask (taskId : string) : App (ServiceResult Task) :=
  catch
    (result <- core (await (DatabaseUtils_getTaskById taskId)) ;;
     ret (handed_on result))
    (fun error =>
       ret (TaskService.refused
              (Some ("获取任务失败: " ++ errorMessage error)%string))).

Definition listTasks (filter : option TaskFilter)
    : App (ServiceResult (list Task)) :=
  catch
    (result <- call (DatabaseUtils_getAllTasks filter) ;;
     ret (handed_on result))
    (fun error =>
       ret (TaskService.refused
              (Some ("获取任务列表失败: " ++ errorMessage error)%string))).

(** [logs.filter(log => log.status === s).length] *)
Definition count_status (s : RunStatus)
    (logs : list NotificationService.StoredLog) : nat :=
  List.length
    (filter (fun log => RunStatus_eqb (NotificationService.stored_status log) s)
       logs).

(** The response times that are neither [undefined] nor [null]. *)
Fixpoint responseTimes (logs : list NotificationService.StoredLog) : list Z :=
  match logs with
  | [] => []
  | log :: rest =>
      match log_response_time (NotificationService.entry log) with
      | Some t => t :: responseTimes rest
      | None => responseTimes rest
      end
  end.

(** [times.reduce((sum, time) => sum + time, 0)].  JavaScript adds the
    samples as doubles; that is this sum, exactly, as long as no sample is
    negative and the sum does not exceed 2^53. *)
Definition total (times : list Z) : Z := fold_left Z.add times 0.

Section Statistics.

(** [Math.round(sum / count)] on JavaScript numbers, for [count > 0]. *)
Variable Math_round_quotient : Z -> nat -> Z.

Definition getTaskStatistics (taskId : string)
    : App (ServiceResult Statistics) :=
  catch
    (logsResult <- call (DatabaseUtils_getExecutionLogsByTaskId taskId 1000) ;;
     match (if negb (db_success logsResult) then None else db_data logsResult)
     with
     | None => ret (TaskService.refused (Some "获取执行日志失败"))
     | Some logs =>
         let times := responseTimes logs in
         ret (TaskService.done (Some
           {| totalExecutions := List.length logs;
              successCount := count_status success logs;
              failureCount := count_status failure logs;
              averageResponseTime :=
                match times with
                | [] => 0
                | _ => Math_round_quotient (total times) (List.length times)
                end;
              lastExecution :=
                match logs with
                | [] => None
                | newest :: _ =>
                    Some (NotificationService.execution_time newest)
                end |}))
     end)
    (fun error =>
       ret (TaskService.refused
              (Some ("获取任务统计失败: " ++ errorMessage error)%string))).

End Statistics.

(** The quotient of two integers rounded to the nearest integer, halves
    upwards: what [Math.round(sum / count)] gives on integers whose sum is
    below 2^52. *)
Definition rounded_quotient (sum : Z) (count : nat) : Z :=
  (2 * sum + Z.of_nat count) / (2 * Z.of_nat count).

End TaskQueries.

(* ===================================================================== *)
(** ** [server/routes] *)
(* ===================================================================== *)

(** The [data] of a JSON reply. *)
Inductive Payload : Type :=
| task_data (task : option Task)
| tasks_data (tasks : option (list Task))
| statistics_data (statistics : option Statistics)
| session_data (token : option string) (user : option User)
| token_data (token : option string)
| user_data (user : User).

(** The replies of the routes, as the calls to [ResponseUtils] that make
    them. *)
Inductive Reply : Type :=
| json_data (data : Payload) (status : Z)
| json_message (message : string) (status : Z)
| error_reply (message : string) (status : Z)
| unauthorized (message : option string)
| notFound (message : string)
| serverError (message : string).

Module TaskRoutes.

(** [!body.name || !body.type || !body.schedule || !body.config] *)
Definition lacks_required (body : TaskData) : bool :=
  negb (truthy (td_name body))
  || is_none (td_type body)
  || negb (truthy (td_schedule body))
  || is_none (td_config body).

Definition create (request : Request) : App Reply :=
  catch
    (user <- call (AuthService_authenticateRequest request) ;;
     match user with
     | None => ret (unauthorized (Some "未授权"))
     | Some user =>
         body <- call (request_json_task request) ;;
         if lacks_required body
         then ret (error_reply "缺少必填字段" 400)
         else
           result <- TaskQueries.createTask body (u_id user) ;;
           if negb (sr_success result)
           then ret (error_reply (or_default (sr_error result) "创建任务失败") 400)
           else ret (json_data (task_data (sr_data result)) 201)
     end)
    (fun _ => ret (serverError "创建任务失败")).

(** The filter built from the query: [type] when it is a non-empty string,
    [enabled] when the parameter is present, true only for ['true']. *)
Definition query_filter (request : Request) : TaskFilter :=
  {| f_type := if truthy (query_type request) then query_type request else None;
     f_enabled := match query_enabled request with
                  | Some v => Some (String.eqb v "true")
                  | None => None
                  end;
     f_created_by := None |}.

Definition get (request : Request) (taskId : string) : App Reply :=
  catch
    (user <- call (AuthService_authenticateRequest request) ;;
     match user with
     | None => ret (unauthorized (Some "未授权"))
     | Some _ =>
         result <- TaskQueries.getTask taskId ;;
         if negb (sr_success result)
         then ret (serverError (or_default (sr_error result) "获取任务失败"))
         else
           match sr_data result with
           | None => ret (notFound "任务不存在")
           | Some task => ret (json_data (task_data (Some task)) 200)
           end
     end)
    (fun _ => ret (serverError "获取任务失败")).

(** [result.error === '任务不存在' ? 404 : 400] *)
Definition failure_status (error : option string) : Z :=
  if is_string error "任务不存在" then 404 else 400.

Definition update (request : Request) (taskId : string) : App Reply :=
  catch
    (user <- call (AuthService_authenticateRequest request) ;;
     match user with
     | None => ret (unauthorized (Some "未授权"))
     | Some user =>
         body <- call (request_json_patch request) ;;
         result <- core (TaskService.updateTask taskId body (u_id user)) ;;
         if negb (sr_success result)
         then ret (error_reply (or_default (sr_error result) "更新任务失败")
                     (failure_status (sr_error result)))
         else ret (json_data (task_data (sr_data result)) 200)
     end)
    (fun _ => ret (serverError "更新任务失败")).

Definition delete (request : Request) (taskId : string) : App Reply :=
  catch
    (user <- call (AuthService_authenticateRequest request) ;;
     match user with
     | None => ret (unauthorized (Some "未授权"))
     | Some user =>
         result <- core (TaskService.deleteTask taskId (u_id user)) ;;
         if negb (sr_success result)
         then ret (error_reply (or_default (sr_error result) "删除任务失败")
                     (failure_status (sr_error result)))
         else ret (json_message "任务已删除" 200)
     end)
    (fun _ => ret (serverError "删除任务失败")).

Definition toggle (request : Request) (taskId : string) : App Reply :=
  catch
    (user <- call (AuthService_authenticateRequest request) ;;
     match user with
     | None => ret (unauthorized (Some "未授权"))
     | Some user =>
         result <- core (TaskService.toggleTaskStatus taskId (u_id user)) ;;
         if negb (sr_success result)
         then ret (error_reply (or_default (sr_error result) "切换任务状态失败")
                     (failure_status (sr_error result)))
         else ret (json_data (task_data (sr_data result)) 200)
     end)
    (fun _ => ret (serverError "切换任务状态失败")).

Definition statistics (Math_round_quotient : Z -> nat -> Z)
    (request : Request) (taskId : string) : App Reply :=
  catch
    (user <- call (AuthService_authenticateRequest request) ;;
     match user with
     | None => ret (unauthorized (Some "未授权"))
     | Some _ =>
         result <- TaskQueries.getTaskStatistics Math_round_quotient taskId ;;
         if negb (sr_success result)
         then ret (serverError (or_default (sr_error result) "获取任务统计失败"))
         else ret (json_data (statistics_data (sr_data result)) 200)
     end)
    (fun _ => ret (serverError "获取任务统计失败")).

Definition list (request : Request) : App Reply :=
  catch
    (user <- call (AuthService_authenticateRequest request) ;;
     match user with
     | None => ret (unauthorized (Some "未授权"))
     | Some _ =>
         result <- TaskQueries.listTasks (Some (query_filter request)) ;;
         if negb (sr_success result)
         then ret (serverError (or_default (sr_error result) "获取任务列表失败"))
         else ret (json_data (tasks_data (sr_data result)) 200)
     end)
    (fun _ => ret (serverError "获取任务列表失败")).

End TaskRoutes.

Module AuthRoutes.

(** [!body.username || !body.password] *)
Definition lacks_credentials (body : Credentials) : bool :=
  negb (truthy (c_username body)) || negb (truthy (c_password body)).

Definition login (request : Request) : App Reply :=
  catch
    (body <- call (request_json_credentials request) ;;
     if lacks_credentials body
     then ret (error_reply "用户名和密码不能为空" 400)
     else
       result <- call (AuthService_authenticate (c_username body)
                         (c_password body)) ;;
       if negb (auth_success result)
       then ret (unauthorized (auth_error result))
       else ret (json_data (session_data (auth_token result)
                              (auth_user result)) 200))
    (fun _ => ret (serverError "登录请求处理失败")).

Definition register (request : Request) : App Reply :=
  catch
    (body <- call (request_json_credentials request) ;;
     if lacks_credentials body
     then ret (error_reply "用户名和密码不能为空" 400)
     else
       result <- call (AuthService_register (c_username body)
                         (c_password body) (c_role body)) ;;
       if negb (auth_success result)
       then ret (error_reply (or_default (auth_error result) "注册失败") 400)
       else ret (json_data (session_data (auth_token result)
                              (auth_user result)) 201))
    (fun _ => ret (serverError "注册请求处理失败")).

Definition refresh (request : Request) : App Reply :=
  catch
    (token <- call (AuthService_extractTokenFromRequest request) ;;
     if negb (truthy token)
     then ret (unauthorized (Some "缺少认证令牌"))
     else
       newToken <- call (AuthService_refreshToken token) ;;
       if negb (truthy newToken)
       then ret (unauthorized (Some "令牌刷新失败"))
       else ret (json_data (token_data newToken) 200))
    (fun _ => ret (serverError "令牌刷新请求处理失败")).

Definition me (request : Request) : App Reply :=
  catch
    (user <- call (AuthService_authenticateRequest request) ;;
     match user with
     | None => ret (unauthorized (Some "未授权"))
     | Some user => ret (json_data (user_data user) 200)
     end)
    (fun _ => ret (serverError "获取用户信息失败")).

End AuthRoutes.

(** The task routes side by side. *)
Inductive TaskRoute : Type :=
| route_create
| route_list
| route_get
| route_update
| route_delete
| route_toggle
| route_statistics.

Definition serve (Math_round_quotient : Z -> nat -> Z) (route : TaskRoute)
    (request : Request) (taskId : string) : App Reply :=
  match route with
  | route_create => TaskRoutes.create request
  | route_list => TaskRoutes.list request
  | route_get => TaskRoutes.get request taskId
  | route_update => TaskRoutes.update request taskId
  | route_delete => TaskRoutes.delete request taskId
  | route_toggle => TaskRoutes.toggle request taskId
  | route_statistics =>
      TaskRoutes.statistics Math_round_quotient request taskId
  end.

(** What a route says when something in it throws. *)
Definition route_failure (route : TaskRoute) : string :=
  match route with
  | route_create => "创建任务失败"
  | route_list => "获取任务列表失败"
  | route_get => "获取任务失败"
  | route_update => "更新任务失败"
  | route_delete => "删除任务失败"
  | route_toggle => "切换任务状态失败"
  | route_statistics => "获取任务统计失败"
  end.

(** The authentication routes side by side. *)
Inductive AuthRoute : Type :=
| route_login
| route_register
| route_refresh
| route_me.

Definition serve_auth (route : AuthRoute) (request : Request) : App Reply :=
  match route with
  | route_login => AuthRoutes.login request
  | route_register => AuthRoutes.register request
  | route_refresh => AuthRoutes.refresh request
  | route_me => AuthRoutes.me request
  end.

Definition auth_route_failure (route : AuthRoute) : string :=
  match route with
  | route_login => "登录请求处理失败"
  | route_register => "注册请求处理失败"
  | route_refresh => "令牌刷新请求处理失败"
  | route_me => "获取用户信息失败"
  end.

(** The three routes that change a task. *)
Inductive ChangeRoute : Type :=
| change_update
| change_delete
| change_toggle.

Definition change_route (c : ChangeRoute) : TaskRoute :=
  match c with
  | change_update => route_update
  | change_delete => route_delete
  | change_toggle => route_toggle
  end.

(** The permission error of the service operation behind each. *)
Definition permission_error (c : ChangeRoute) : string :=
  match c with
  | change_update => "无权限更新此任务"
  | change_delete => "无权限删除此任务"
  | change_toggle => "无权限修改此任务"
  end.

(** The world in which the service operation starts, given the world left
    by the authentication: only the update route reads the body first. *)
Definition service_world {W : Type} (h : AppHandler W) (c : ChangeRoute)
    (request : Request) (w : W) : W :=
  match c with
  | change_update => snd (on_app h (request_json_patch request) w)
  | change_delete => w
  | change_toggle => w
  end.

(** The body was read, where the route reads one. *)
Definition body_was_read {W : Type} (h : AppHandler W) (c : ChangeRoute)
    (request : Request) (w : W) : Prop :=
  match c with
  | change_update =>
      exists body, fst (on_app h (request_json_patch request) w) = Returned body
  | change_delete => True
  | change_toggle => True
  end.

(* ===================================================================== *)
(** ** More to read from a trace *)
(* ===================================================================== *)

(** What [response.text()] answered. *)
Definition text_answer (ev : Event) : option (Outcome string) :=
  match ev with
  | EvExt c o =>
      match c in ExtCmd X return Outcome X -> option (Outcome string) with
      | Response_text _ => fun o => Some o
      | _ => fun _ => None
      end o
  | EvSys _ _ => None
  end.

Definition text_answers (tr : list Event) : list (Outcome string) :=
  pick text_answer tr.

(** The delays [AbortSignal.timeout] was asked for. *)
Definition timeout_asked (ev : Event) : option Z :=
  match ev with
  | EvExt c _ =>
      match c with
      | AbortSignal_timeout ms => Some ms
      | _ => None
      end
  | EvSys _ _ => None
  end.

Definition timeouts (tr : list Event) : list Z :=
  pick timeout_asked tr.

(** The readings of [Date.now()]. *)
Definition clock_reading (ev : Event) : option Z :=
  match ev with
  | EvSys c x =>
      match c in SysCmd X return X -> option Z with
      | Date_now => fun t => Some t
      | _ => fun _ => None
      end x
  | EvExt _ _ => None
  end.

Definition clock_readings (tr : list Event) : list Z :=
  pick clock_reading tr.

(** The ids [crypto.randomUUID()] gave out. *)
Definition issued_id (ev : Event) : option string :=
  match ev with
  | EvSys c x =>
      match c in SysCmd X return X -> option string with
      | crypto_randomUUID => fun s => Some s
      | _ => fun _ => None
      end x
  | EvExt _ _ => None
  end.

Definition issued_ids (tr : list Event) : list string :=
  pick issued_id tr.

(** What storage answered to each task update or delete. *)
Inductive ChangeAnswer : Type :=
| Updated (result : Outcome (DbResult Task))
| Deleted (result : Outcome (DbResult unit)).

Definition change_answer (ev : Event) : option ChangeAnswer :=
  match ev with
  | EvExt c o =>
      match c in ExtCmd X return Outcome X -> option ChangeAnswer with
      | DatabaseUtils_updateTask _ _ => fun o => Some (Updated o)
      | DatabaseUtils_deleteTask _ => fun o => Some (Deleted o)
      | _ => fun _ => None
      end o
  | EvSys _ _ => None
  end.

Definition change_answers (tr : list Event) : list ChangeAnswer :=
  pick change_answer tr.

(** What the task model and storage answered to the calls of
    [createTask]. *)
Inductive CreationAnswer : Type :=
| Modelled (result : Outcome Task)
| Stored (result : Outcome (DbResult Task)).

Definition creation_answer (ev : AppEvent) : option CreationAnswer :=
  match ev with
  | EvApp c o =>
      match c in AppCmd X return Outcome X -> option CreationAnswer with
      | TaskModel_create _ => fun o => Some (Modelled o)
      | DatabaseUtils_createTask _ => fun o => Some (Stored o)
      | _ => fun _ => None
      end o
  | InCore _ => None
  end.

Definition creation_answers (tr : list AppEvent) : list CreationAnswer :=
  pick creation_answer tr.

(** What the first call of a run threw, if it is a call of this layer and
    it threw. *)
Definition thrown_first (tr : list AppEvent) : option Thrown :=
  match tr with
  | EvApp _ o :: _ => thrown_by o
  | _ => None
  end.

(* ===================================================================== *)
(** ** The migration of the execution logs *)
(* ===================================================================== *)

(** The migration that adds [log_type] to [execution_logs] and makes
    [task_id] nullable.  Before it, system errors and audit entries were
    kept under the task ids ['system_error'] and ['audit_log']. *)
Module LogMigration.

(** A row of the table before the migration; [task_id] is not null. *)
Record OldRow : Type := {
  old_id : string;
  old_task_id : string;
  old_execution_time : option Date;
  old_status : RunStatus;
  old_response_time : option Z;
  old_status_code : option Z;
  old_error_message : option string;
  old_details : option string
}.

(** A row of [execution_logs_new]. *)
Record NewRow : Type := {
  new_id : string;
  new_task_id : option string;
  new_log_type : LogType;
  new_execution_time : option Date;
  new_status : RunStatus;
  new_response_time : option Z;
  new_status_code : option Z;
  new_error_message : option string;
  new_details : option string
}.

(** [SELECT id, <task_id>, <log_type>, execution_time, status, ... ] *)
Definition moved (task_id : option string) (log_type : LogType) (r : OldRow)
    : NewRow :=
  {| new_id := old_id r;
     new_task_id := task_id;
     new_log_type := log_type;
     new_execution_time := old_execution_time r;
     new_status := old_status r;
     new_response_time := old_response_time r;
     new_status_code := old_status_code r;
     new_error_message := old_error_message r;
     new_details := old_details r |}.

(** [task_id NOT IN ('system_error', 'audit_log')] *)
Definition is_task_log (r : OldRow) : bool :=
  negb (String.eqb (old_task_id r) "system_error"
        || String.eqb (old_task_id r) "audit_log").

Definition is_system_log (r : OldRow) : bool :=
  String.eqb (old_task_id r) "system_error".

Definition is_audit_log (r : OldRow) : bool :=
  String.eqb (old_task_id r) "audit_log".

(** The three [INSERT INTO execution_logs_new ... SELECT] statements, in
    order; the new table then takes the place of the old one. *)
Definition migrate (rows : list OldRow) : list NewRow :=
  map (fun r => moved (Some (old_task_id r)) log_execution r)
    (filter is_task_log rows)
  ++ map (moved None log_system) (filter is_system_log rows)
  ++ map (moved None log_audit) (filter is_audit_log rows).

(** [FOREIGN KEY (task_id) REFERENCES tasks(id)] on the new table, for a
    row the first [INSERT] selects: the task it names has to be in
    [tasks], whose ids are given. *)
Definition names_a_task (task_ids : list string) (r : OldRow) : bool :=
  existsb (String.eqb (old_task_id r)) task_ids.

(** The migration as a database that enforces foreign keys runs it: when a
    task log names a task that is not there, the first [INSERT] fails, the
    migration stops and there is no new table.  The other two [INSERT]s
    store no task id and cannot fail this way. *)
Definition apply_migration (task_ids : list string) (rows : list OldRow)
    : option (list NewRow) :=
  if forallb (names_a_task task_ids) (filter is_task_log rows)
  then Some (migrate rows)
  else None.

(** What a row holds besides its task id and type. *)
Definition old_content (r : OldRow)
    : string * option Date * RunStatus * option Z * option Z
      * option string * option string :=
  (old_id r, old_execution_time r, old_status r, old_response_time r,
   old_status_code r, old_error_message r, old_details r).

Definition new_content (r : NewRow)
    : string * option Date * RunStatus * option Z * option Z
      * option string * option string :=
  (new_id r, new_execution_time r, new_status r, new_response_time r,
   new_status_code r, new_error_message r, new_details r).

(** A table with a task log, a system error and an audit entry. *)
Definition old_row (id task_id : string) (status : RunStatus) : OldRow :=
  {| old_id := id; old_task_id := task_id; old_execution_time := Some 1000;
     old_status := status; old_response_time := None;
     old_status_code := None; old_error_message := None;
     old_details := None |}.

Definition old_table : list OldRow :=
  [old_row "log-1" "task-fail-1" success;
   old_row "log-2" "system_error" failure;
   old_row "log-3" "audit_log" success;
   old_row "log-4" "task-fail-1" failure].

End LogMigration.

(* ===================================================================== *)
(** ** An environment for the routes *)
(* ===================================================================== *)

(** The in-memory world with what the routes need besides: who the request
    authenticates as, what its body parses to, what the authentication
    service answers, and the stored execution logs. *)
Module Site.

Record World : Type := {
  store : Memory.World;
  session : option User;
  body_task : Outcome TaskData;
  body_patch : Outcome TaskPatch;
  body_credentials : Outcome Credentials;
  auth_answer : AuthResult;
  bearer : option string;
  refreshed : option string;
  rows : list NotificationService.StoredLog
}.

Definition with_store (m : Memory.World) (w : World) : World :=
  {| store := m; session := session w; body_task := body_task w;
     body_patch := body_patch w; body_credentials := body_credentials w;
     auth_answer := auth_answer w; bearer := bearer w;
     refreshed := refreshed w; rows := rows w |}.

Definition answer_sys (X : Type) (c : SysCmd X) (w : World) : X * World :=
  let (x, m) := Memory.answer_sys X c (store w) in (x, with_store m w).

Definition answer_ext (X : Type) (c : ExtCmd X) (w : World)
    : Outcome X * World :=
  let (o, m) := Memory.answer_ext X c (store w) in (o, with_store m w).

(** The task model: a task when every field is there. *)
Definition modelled (d : TaskDraft) : Outcome Task :=
  match d_name d, d_type d, d_schedule d, d_config d with
  | Some n, Some t, Some s, Some c =>
      Returned {| id := d_id d; name := n; type := t; schedule := s;
                  config := c; enabled := d_enabled d;
                  created_by := d_created_by d;
                  last_executed := None; last_status := None |}
  | _, _, _, _ => Raised (JsError "任务数据无效")
  end.

Definition type_name (t : TaskType) : string :=
  match t with
  | keepalive => "keepalive"
  | notification => "notification"
  end.

Definition passes (f : option TaskFilter) (t : Task) : bool :=
  match f with
  | None => true
  | Some f =>
      match f_type f with
      | Some n => String.eqb (type_name (type t)) n
      | None => true
      end
      && match f_enabled f with
         | Some b => Bool.eqb (enabled t) b
         | None => true
         end
      && match f_created_by f with
         | Some u => String.eqb (created_by t) u
         | None => true
         end
  end.

Definition answer_app (X : Type) (c : AppCmd X) (w : World)
    : Outcome X * World :=
  match c in AppCmd X return Outcome X * World with
  | AuthService_authenticateRequest _ => (Returned (session w), w)
  | AuthService_authenticate _ _ => (Returned (auth_answer w), w)
  | AuthService_register _ _ _ => (Returned (auth_answer w), w)
  | AuthService_extractTokenFromRequest _ => (Returned (bearer w), w)
  | AuthService_refreshToken _ => (Returned (refreshed w), w)
  | request_json_task _ => (body_task w, w)
  | request_json_patch _ => (body_patch w, w)
  | request_json_credentials _ => (body_credentials w, w)
  | TaskModel_create draft => (modelled draft, w)
  | DatabaseUtils_createTask task =>
      (Returned (Memory.found_row (Some task)),
       with_store (Memory.with_tasks (Memory.tasks (store w) ++ [task])
                     (store w)) w)
  | DatabaseUtils_getAllTasks f =>
      (Returned (Memory.found_row
                   (Some (filter (passes f) (Memory.tasks (store w))))), w)
  | DatabaseUtils_getExecutionLogsByTaskId taskId limit =>
      (Returned (Memory.found_row
                   (Some (NotificationService.getExecutionLogsByTaskId
                            (rows w) taskId (Z.to_nat limit)))), w)
  end.

Definition handler : AppHandler World :=
  {| below := {| on_sys := answer_sys; on_ext := answer_ext |};
     on_app := answer_app |}.

Definition visitor : User :=
  {| u_id := "user-e2e-1"; u_username := "e2euser"; u_role := role_user |}.

Definition owner : User :=
  {| u_id := "other-user-id"; u_username := "otheruser"; u_role := role_user |}.

Definition rename : TaskPatch :=
  {| p_name := Some "pong"; p_type := None; p_schedule := None;
     p_config := None; p_enabled := None; p_last_executed := None;
     p_last_status := None |}.

Definition new_task : TaskData :=
  {| td_name := Some "health";
     td_type := Some keepalive;
     td_schedule := Some "*/5 * * * *";
     td_config := Some (config Memory.ping);
     td_enabled := None |}.

(** A notification task with a channel of its own. *)
Definition reminder : Task :=
  {| id := "task-notify-1";
     name := "reminder";
     type := notification;
     schedule := "0 9 * * *";
     config := {| cfg_url := None;
                  cfg_method := None;
                  cfg_headers := None;
                  cfg_body := None;
                  cfg_timeout := None;
                  cfg_message := Some "Test notification";
                  cfg_title := Some "";
                  cfg_priority := None;
                  cfg_notifyxConfig :=
                    Some {| nx_apiKey := Some "test-key";
                            nx_channelId := None;
                            nx_title := Some "Test";
                            nx_recipients := None |} |};
     enabled := true;
     created_by := "other-user-id";
     last_executed := None;
     last_status := None |}.

(** The same task without a channel. *)
Definition reminder_without_channel : Task :=
  {| id := "task-notify-2";
     name := "reminder";
     type := notification;
     schedule := "0 9 * * *";
     config := {| cfg_url := None;
                  cfg_method := None;
                  cfg_headers := None;
                  cfg_body := None;
                  cfg_timeout := None;
                  cfg_message := Some "Test notification";
                  cfg_title := None;
                  cfg_priority := None;
                  cfg_notifyxConfig := None |};
     enabled := true;
     created_by := "other-user-id";
     last_executed := None;
     last_status := None |}.

Definition plain_request : Request :=
  {| query_type := None; query_enabled := None |}.

(** A site that stores [ping], seen by [who]. *)
Definition seen_by (who : option User) : World :=
  {| store := Memory.world_with (Returned Memory.http_200);
     session := who;
     body_task := Returned new_task;
     body_patch := Returned rename;
     body_credentials :=
       Returned {| c_username := Some "e2euser"; c_password := None;
                   c_role := None |};
     auth_answer := {| auth_success := false; auth_token := None;
                       auth_user := None;
                       auth_error := Some "用户名或密码错误" |};
     bearer := None;
     refreshed := None;
     rows := Memory.recovered |}.

(** [GET /api/tasks?enabled=1] *)
Definition enabled_1 : Request :=
  {| query_type := None; query_enabled := Some "1" |}.

(** The site, with a login request whose password the service refuses. *)
Definition knocking : World :=
  {| store := Memory.world_with (Returned Memory.http_200);
     session := None;
     body_task := Returned new_task;
     body_patch := Returned rename;
     body_credentials :=
       Returned {| c_username := Some "e2euser"; c_password := Some "guess";
                   c_role := None |};
     auth_answer := {| auth_success := false; auth_token := None;
                       auth_user := None;
                       auth_error := Some "用户名或密码错误" |};
     bearer := None;
     refreshed := None;
     rows := [] |}.

(** A body with an empty name. *)
Definition unnamed_task : TaskData :=
  {| td_name := Some "";
     td_type := Some keepalive;
     td_schedule := Some "*/5 * * * *";
     td_config := Some (config Memory.ping);
     td_enabled := None |}.

(** The site, with a create request that carries [unnamed_task]. *)
Definition nameless (who : option User) : World :=
  {| store := Memory.world_with (Returned Memory.http_200);
     session := who;
     body_task := Returned unnamed_task;
     body_patch := Returned rename;
     body_credentials :=
       Returned {| c_username := None; c_password := None; c_role := None |};
     auth_answer := {| auth_success := false; auth_token := None;
                       auth_user := None; auth_error := None |};
     bearer := None;
     refreshed := None;
     rows := [] |}.

(** Three logs of a slow task, one of them without a response time. *)
Definition sample (t : Date) (response_time : option Z)
    : NotificationService.StoredLog :=
  {| NotificationService.entry :=
       {| log_id := "log";
          log_task_id := Some "task-slow-1";
          log_type := log_execution;
          log_status := match response_time with
                        | Some _ => success
                        | None => failure
                        end;
          log_response_time := response_time;
          log_status_code := None;
          log_error_message := None;
          log_details := None |};
     NotificationService.execution_time := t |}.

Definition samples : list NotificationService.StoredLog :=
  [sample 1000 (Some 80); sample 2000 None; sample 3000 (Some 121)].

Definition sampled : World :=
  {| store := Memory.world_with (Returned Memory.http_200);
     session := None;
     body_task := Returned new_task;
     body_patch := Returned rename;
     body_credentials :=
       Returned {| c_username := None; c_password := None; c_role := None |};
     auth_answer := {| auth_success := false; auth_token := None;
                       auth_user := None; auth_error := None |};
     bearer := None;
     refreshed := None;
     rows := samples |}.

End Site.

(* ===================================================================== *)
(** ** Laws of running *)
(* ===================================================================== *)

Lemma pick_app {A B : Type} (f : A -> option B) (l1 l2 : list A) :
  pick f (l1 ++ l2) = pick f l1 ++ pick f l2.
Proof.
  induction l1 as [|a l1 IH]; simpl; [reflexivity|].
  destruct (f a); simpl; rewrite IH; reflexivity.
Qed.

Section Running.

Context {W : Type} (h : Handler W).

(** Running [p] and then [f] is running [p], and [f] from where it left. *)
Lemma run_bind {A B : Type} (p : Prog A) (f : A -> Prog B) (w : W) :
  run h (pbind p f) w = and_then (run h p w) (fun a => run h (f a)).
Proof.
  revert w; induction p as [a|e|X c k IH|X c k IH]; intros w; simpl.
  - unfold and_then; simpl. destruct (run h (f a) w); reflexivity.
  - reflexivity.
  - destruct (on_sys h c w) as [x w']. rewrite IH.
    unfold and_then, after; simpl.
    destruct (run h (k x) w') as [[a'|e'] w'' tr]; reflexivity.
  - destruct (on_ext h c w) as [o w']. rewrite IH.
    unfold and_then, after; simpl.
    destruct (run h (k o) w') as [[a'|e'] w'' tr]; reflexivity.
Qed.

(** Running [try { p } catch (e) { hd e }] is running [p], and the handler
    from where [p] threw. *)
Lemma run_catch {A : Type} (p : Prog A) (hd : Thrown -> Prog A) (w : W) :
  run h (try_catch p hd) w = or_catch (run h p w) (fun e => run h (hd e)).
Proof.
  revert w; induction p as [a|e|X c k IH|X c k IH]; intros w; simpl.
  - reflexivity.
  - unfold or_catch; simpl. destruct (run h (hd e) w); reflexivity.
  - destruct (on_sys h c w) as [x w']. rewrite IH.
    unfold or_catch, after; simpl.
    destruct (run h (k x) w') as [[a'|e'] w'' tr]; reflexivity.
  - destruct (on_ext h c w) as [o w']. rewrite IH.
    unfold or_catch, after; simpl.
    destruct (run h (k o) w') as [[a'|e'] w'' tr]; reflexivity.
Qed.

End Running.

(* ===================================================================== *)
(** ** Properties of the executors *)
(* ===================================================================== *)

Import TaskService.

(** Case analysis over everything the environment can answer during a run. *)
Ltac answer :=
  match goal with
  | |- context [on_sys ?h ?c ?w] =>
      let x := fresh "x" in
      let w' := fresh "w" in
      destruct (on_sys h c w) as [x w']
  | |- context [on_ext ?h ?c ?w] =>
      let w' := fresh "w" in
      destruct (on_ext h c w) as [[?|?] w']
  | |- context [match cfg_notifyxConfig ?c with _ => _ end] =>
      destruct (cfg_notifyxConfig c)
  | |- context [if negb (ok ?r) then _ else _] =>
      destruct (ok r) eqn:?
  end.

Ltac run_cases := repeat (answer; cbn).

(** Reading equations between the lists a trace was projected to. *)
Ltac settle :=
  intros;
  repeat match goal with
         | H : exists _, _ |- _ => destruct H
         | H : _ /\ _ |- _ => destruct H
         | H : _ :: _ = _ :: _ |- _ => injection H as H; intros
         | H : Returned _ = Returned _ |- _ => injection H as H
         | H : Raised _ = Raised _ |- _ => injection H as H
         | H : (_, _) = (_, _) |- _ => injection H as H; intros
         end;
  subst; try discriminate; try congruence; eauto.

Ltac open_executor :=
  unfold execution, execute, executeKeepaliveTask, executeNotificationTask,
    execution_failed, logExecution, generateId.

(** Keepalive runs whose storage updates return.  Such a run succeeds
    exactly when the transport returned a response whose [ok] flag is set;
    the status code of the response is carried into the result (so HTTP
    500, which is not [ok], gives success=false and statusCode=500); an
    error thrown by the transport is caught and the result is a failure
    carrying the error's message; nothing is thrown out of the executor.
    The condition on the updates is needed: an update that throws changes
    the outcome of the run. *)
Theorem keepalive_classification {W : Type} (h : Handler W) (w : W)
    (task : Task) :
  updates_returned (trace (execution h w KeepaliveExecutor task)) = true ->
  exists result,
    outcome (execution h w KeepaliveExecutor task) = Returned result /\
    (er_success result = true <->
       exists response,
         transport_answers (trace (execution h w KeepaliveExecutor task))
           = [Returned response] /\
         ok response = true) /\
    (forall response,
       transport_answers (trace (execution h w KeepaliveExecutor task))
         = [Returned response] ->
       er_success result = ok response /\
       er_statusCode result = Some (status response)) /\
    (forall error,
       transport_answers (trace (execution h w KeepaliveExecutor task))
         = [Raised error] ->
       er_success result = false /\
       er_error result = Some (errorMessage error)).
Proof.
  open_executor.
  destruct (type task); cbn; run_cases.
  all: intros H; try discriminate H.
  all: eexists; split; [reflexivity|]; cbn.
  all: repeat split; settle.
Qed.

(** The HTTP 500 scenario, run against the in-memory environment. *)
Lemma keepalive_http_500 :
  updates_returned
    (trace (execution Memory.handler (Memory.world_with (Returned Memory.http_500))
              KeepaliveExecutor Memory.ping)) = true /\
  exists result,
    outcome (execution Memory.handler (Memory.world_with (Returned Memory.http_500))
               KeepaliveExecutor Memory.ping) = Returned result /\
    er_success result = false /\
    er_statusCode result = Some 500.
Proof.
  split; [reflexivity|].
  destruct (keepalive_classification Memory.handler
              (Memory.world_with (Returned Memory.http_500)) Memory.ping
              eq_refl) as [result [Hout [_ [Hresp _]]]].
  exists result. split; [exact Hout|].
  apply (Hresp Memory.http_500). reflexivity.
Defined.

(** The request of a keepalive run: the configured URL, with the configured
    method and headers, the body only for POST and PUT, and an abort signal
    for the configured timeout (30 s by default).  No request is sent when
    the signal cannot be made. *)
Lemma keepalive_request {W : Type} (h : Handler W) (w : W) (task : Task) :
  type task = keepalive ->
  requests (trace (execution h w KeepaliveExecutor task))
    = match fst (on_ext h
                   (AbortSignal_timeout
                      (num_or (cfg_timeout (config task)) 30000))
                   (snd (on_sys h Date_now w))) with
      | Returned signal =>
          [(cfg_url (config task),
            {| ri_method := cfg_method (config task);
               ri_headers := match cfg_headers (config task) with
                             | Some hs => hs
                             | None => []
                             end;
               ri_body :=
                 if truthy (cfg_body (config task))
                    && carries_body (cfg_method (config task))
                 then option_map RawBody (cfg_body (config task))
                 else None;
               ri_signal := signal |})]
      | Raised _ => []
      end.
Proof.
  intros Hty. open_executor. rewrite Hty; cbn.
  run_cases; reflexivity.
Qed.

(** C5. Every run of either executor asks storage to update the task, also
    when the request failed or an exception was caught.  Every such update
    names the task and changes two fields only: [last_executed], set to
    the ISO string of the clock reading taken for this update, and
    [last_status].  When the run returns a result, the last update carries
    [last_status] "success" if the result's [success] flag is true and
    "failure" otherwise. *)
Theorem last_run_always_recorded {W : Type} (h : Handler W) (w : W)
    (x : Executor) (task : Task) :
  exists earlier u,
    stamped_updates None (trace (execution h w x task)) = earlier ++ [u] /\
    Forall
      (fun u' =>
         exists (d : Date) (s : RunStatus),
           u' = (Some d, id task,
                 {| p_name := None; p_type := None; p_schedule := None;
                    p_config := None; p_enabled := None;
                    p_last_executed := Some (ISO d);
                    p_last_status := Some s |}))
      (earlier ++ [u]) /\
    (forall result,
       outcome (execution h w x task) = Returned result ->
       exists d : Date,
         u = (Some d, id task,
              {| p_name := None; p_type := None; p_schedule := None;
                 p_config := None; p_enabled := None;
                 p_last_executed := Some (ISO d);
                 p_last_status :=
                   Some (if er_success result then success else failure) |})).
Proof.
  open_executor.
  destruct x; destruct (type task); cbn; run_cases.
  all: first
    [ eexists [], _; split; [reflexivity|]
    | eexists [_], _; split; [reflexivity|] ].
  all: split;
    [ repeat constructor; eexists; eexists; reflexivity
    | intros result Hr; try discriminate Hr;
      injection Hr as <-; cbn;
      repeat match goal with
             | Hok : ok _ = _ |- _ => rewrite Hok
             end;
      eexists; reflexivity ].
Qed.

(** The DNS failure of the end-to-end tests: the failed run is stamped on
    the task. *)
Lemma dns_failure_is_stamped :
  exists earlier u,
    stamped_updates None
      (trace (execution Memory.handler
                (Memory.world_with (Raised (JsError "getaddrinfo ENOTFOUND")))
                KeepaliveExecutor Memory.ping))
      = earlier ++ [u] /\
    Forall
      (fun u' =>
         exists (d : Date) (s : RunStatus),
           u' = (Some d, id Memory.ping,
                 {| p_name := None; p_type := None; p_schedule := None;
                    p_config := None; p_enabled := None;
                    p_last_executed := Some (ISO d);
                    p_last_status := Some s |}))
      (earlier ++ [u]) /\
    (forall result,
       outcome (execution Memory.handler
                  (Memory.world_with (Raised (JsError "getaddrinfo ENOTFOUND")))
                  KeepaliveExecutor Memory.ping) = Returned result ->
       exists d : Date,
         u = (Some d, id Memory.ping,
              {| p_name := None; p_type := None; p_schedule := None;
                 p_config := None; p_enabled := None;
                 p_last_executed := Some (ISO d);
                 p_last_status :=
                   Some (if er_success result then success else failure) |})).
Proof.
  exact (last_run_always_recorded Memory.handler
           (Memory.world_with (Raised (JsError "getaddrinfo ENOTFOUND")))
           KeepaliveExecutor Memory.ping).
Defined.

(** The same run, evaluated: one update, of the time it was made at and
    the status "failure". *)
Example dns_failure_stamp :
  stamped_updates None
    (trace (execution Memory.handler
              (Memory.world_with (Raised (JsError "getaddrinfo ENOTFOUND")))
              KeepaliveExecutor Memory.ping))
    = [(Some 1003, "task-fail-1",
        {| p_name := None; p_type := None; p_schedule := None;
           p_config := None; p_enabled := None;
           p_last_executed := Some (ISO 1003);
           p_last_status := Some failure |})].
Proof. reflexivity. Qed.

(** What [logExecution] does, whatever storage answers: it asks for one log
    write built from the result, reports a thrown write on the console, and
    returns. *)
Lemma logExecution_run {W : Type} (h : Handler W) (w : W) (taskId : string)
    (result : ExecutionResult) :
  outcome (run h (logExecution taskId result) w) = Returned tt /\
  (exists logId,
     storage_calls (trace (run h (logExecution taskId result) w))
       = [LogWrite (ExecutionLogModel_create logId taskId
                      (status_of (er_success result))
                      (er_responseTime result) (er_statusCode result)
                      (er_error result) result)]) /\
  console (trace (run h (logExecution taskId result) w))
    = map (pair "记录执行日志失败:")
        (thrown_values
           (log_write_failures (trace (run h (logExecution taskId result) w)))).
Proof.
  unfold logExecution, generateId; cbn; run_cases.
  all: repeat match goal with u : unit |- _ => destruct u end.
  all: repeat split; eexists; reflexivity.
Qed.

(** C6. In every run of either executor the log write comes first and a
    task update follows it, whatever the write answered; log writes and
    updates alternate in that order throughout.  A log write that throws is
    caught inside [logExecution], which reports it on the console and
    returns; so whenever an executor does throw, it is a task update that
    threw, never a log write. *)
Theorem log_write_precedes_update {W : Type} (h : Handler W) (w : W)
    (x : Executor) (task : Task) :
  (forall (w0 : W) (result : ExecutionResult),
     outcome (run h (logExecution (id task) result) w0) = Returned tt) /\
  (exists log patch rest,
     storage_calls (trace (execution h w x task))
       = LogWrite log :: TaskUpdate (id task) patch :: rest) /\
  log_then_update (id task) (storage_calls (trace (execution h w x task))) /\
  console (trace (execution h w x task))
    = map (pair "记录执行日志失败:")
        (thrown_values (log_write_failures (trace (execution h w x task)))) /\
  (forall e,
     outcome (execution h w x task) = Raised e ->
     updates_returned (trace (execution h w x task)) = false).
Proof.
  split; [intros w0 result; apply logExecution_run|].
  open_executor.
  destruct x; destruct (type task); cbn; run_cases.
  all: repeat split; settle.
  all: eexists; eexists; eexists; reflexivity.
Qed.

(** A store that rejects every log write: the run still returns and the
    task is still updated. *)
Lemma rejected_log_write_is_survived :
  log_write_failures
    (trace (execution Memory.handler
              (Memory.with_log_fault (Some Memory.storage_error)
                 (Memory.world_with (Returned Memory.http_200)))
              KeepaliveExecutor Memory.ping))
    = [Some Memory.storage_error] /\
  (exists log patch rest,
     storage_calls
       (trace (execution Memory.handler
                 (Memory.with_log_fault (Some Memory.storage_error)
                    (Memory.world_with (Returned Memory.http_200)))
                 KeepaliveExecutor Memory.ping))
       = LogWrite log :: TaskUpdate (id Memory.ping) patch :: rest) /\
  console
    (trace (execution Memory.handler
              (Memory.with_log_fault (Some Memory.storage_error)
                 (Memory.world_with (Returned Memory.http_200)))
              KeepaliveExecutor Memory.ping))
    = [("记录执行日志失败:", Memory.storage_error)].
Proof.
  split; [reflexivity|].
  destruct (log_write_precedes_update Memory.handler
              (Memory.with_log_fault (Some Memory.storage_error)
                 (Memory.world_with (Returned Memory.http_200)))
              KeepaliveExecutor Memory.ping)
    as [_ [Hcalls [_ [Hconsole _]]]].
  split; [exact Hcalls|exact Hconsole].
Defined.

(** C4. When a run returns a result with success=false and error "X", the
    last two storage calls of the run are the write of an execution log for
    this task with status "failure" and error_message "X", holding the
    result, and an update of this task that sets [last_status] to
    "failure" (and [last_executed] to a time, and nothing else). *)
Theorem failure_is_recorded {W : Type} (h : Handler W) (w : W)
    (x : Executor) (task : Task) (result : ExecutionResult) (X : string) :
  outcome (execution h w x task) = Returned result ->
  er_success result = false ->
  er_error result = Some X ->
  exists earlier log d,
    storage_calls (trace (execution h w x task))
      = earlier ++
        [LogWrite log;
         TaskUpdate (id task)
           {| p_name := None; p_type := None; p_schedule := None;
              p_config := None; p_enabled := None;
              p_last_executed := Some (ISO d);
              p_last_status := Some failure |}] /\
    log_type log = log_execution /\
    log_task_id log = Some (id task) /\
    log_status log = failure /\
    log_error_message log = Some X /\
    log_details log = Some result.
Proof.
  open_executor.
  destruct x; destruct (type task); cbn; run_cases.
  all: intros Hout Hfail Herr; try discriminate Hout.
  all: injection Hout as <-; cbn in Hfail, Herr; try discriminate Hfail.
  all: first
    [ eexists [], _, _; split; [reflexivity|]
    | eexists [_; _], _, _; split; [reflexivity|] ].
  all: cbn; repeat split; assumption.
Qed.

(** The DNS failure of the end-to-end tests. *)
Lemma dns_failure_is_recorded :
  exists earlier log d,
    storage_calls
      (trace (execution Memory.handler
                (Memory.world_with (Raised (JsError "getaddrinfo ENOTFOUND")))
                KeepaliveExecutor Memory.ping))
      = earlier ++
        [LogWrite log;
         TaskUpdate (id Memory.ping)
           {| p_name := None; p_type := None; p_schedule := None;
              p_config := None; p_enabled := None;
              p_last_executed := Some (ISO d);
              p_last_status := Some failure |}] /\
    log_type log = log_execution /\
    log_task_id log = Some (id Memory.ping) /\
    log_status log = failure /\
    log_error_message log = Some "getaddrinfo ENOTFOUND" /\
    log_details log
      = Some {| er_success := false; er_responseTime := 1;
                er_statusCode := None;
                er_error := Some "getaddrinfo ENOTFOUND";
                er_timestamp := 1002 |}.
Proof.
  exact (failure_is_recorded Memory.handler
           (Memory.world_with (Raised (JsError "getaddrinfo ENOTFOUND")))
           KeepaliveExecutor Memory.ping
           {| er_success := false; er_responseTime := 1;
              er_statusCode := None;
              er_error := Some "getaddrinfo ENOTFOUND";
              er_timestamp := 1002 |}
           "getaddrinfo ENOTFOUND" eq_refl eq_refl eq_refl).
Defined.

(** A task of another type, in runs whose storage update returns.  The
    executor sends no request and returns a failure result whose error is
    its type-mismatch message; the run is recorded as a failed execution (a
    "failure" log holding the result, then a "failure" update of the
    task); nothing is thrown.  The condition on the update is needed: an
    update that throws is thrown on by the executor. *)
Theorem type_mismatch_is_recorded {W : Type} (h : Handler W) (w : W)
    (x : Executor) (task : Task) :
  type task <> expects x ->
  updates_returned (trace (execution h w x task)) = true ->
  exists result log d,
    outcome (execution h w x task) = Returned result /\
    er_success result = false /\
    er_error result = Some (mismatch_message x) /\
    requests (trace (execution h w x task)) = [] /\
    storage_calls (trace (execution h w x task))
      = [LogWrite log; TaskUpdate (id task) (last_run d failure)] /\
    log_status log = failure /\
    log_details log = Some result.
Proof.
  open_executor.
  destruct x; destruct (type task); cbn; intros Hty; try congruence.
  all: run_cases; intros Hup; try discriminate Hup.
  all: eexists; eexists; eexists; repeat split.
Qed.

(** A keepalive task handed to the notification executor. *)
Lemma keepalive_task_in_notification_executor :
  type Memory.ping <> expects NotificationExecutor /\
  updates_returned
    (trace (execution Memory.handler (Memory.world_with (Returned Memory.http_200))
              NotificationExecutor Memory.ping)) = true /\
  exists result log d,
    outcome (execution Memory.handler
               (Memory.world_with (Returned Memory.http_200))
               NotificationExecutor Memory.ping) = Returned result /\
    er_success result = false /\
    er_error result = Some (mismatch_message NotificationExecutor) /\
    requests (trace (execution Memory.handler
                       (Memory.world_with (Returned Memory.http_200))
                       NotificationExecutor Memory.ping)) = [] /\
    storage_calls (trace (execution Memory.handler
                            (Memory.world_with (Returned Memory.http_200))
                            NotificationExecutor Memory.ping))
      = [LogWrite log; TaskUpdate (id Memory.ping) (last_run d failure)] /\
    log_status log = failure /\
    log_details log = Some result.
Proof.
  assert (Hty : type Memory.ping <> expects NotificationExecutor)
    by (simpl; discriminate).
  split; [exact Hty|].
  split; [reflexivity|].
  exact (type_mismatch_is_recorded Memory.handler
           (Memory.world_with (Returned Memory.http_200))
           NotificationExecutor Memory.ping Hty eq_refl).
Defined.

(** Why the storage contract matters to the classification: when the
    update that follows an answered request throws, the catch block takes
    over, and the run is logged a second time and returned as a failure
    that carries the storage error and no status code. *)
Lemma thrown_update_is_run_failure {W : Type} (h : Handler W) (w : W)
    (task : Task) (response : Response) (e : Thrown) :
  transport_answers (trace (execution h w KeepaliveExecutor task))
    = [Returned response] ->
  update_failures (trace (execution h w KeepaliveExecutor task))
    = [Some e; None] ->
  exists result log1 patch1 log2 d,
    outcome (execution h w KeepaliveExecutor task) = Returned result /\
    er_success result = false /\
    er_statusCode result = None /\
    er_error result = Some (errorMessage e) /\
    storage_calls (trace (execution h w KeepaliveExecutor task))
      = [LogWrite log1; TaskUpdate (id task) patch1;
         LogWrite log2; TaskUpdate (id task) (last_run d failure)] /\
    log_status log1 = status_of (ok response) /\
    log_status log2 = failure.
Proof.
  open_executor.
  destruct (type task); cbn; run_cases.
  all: intros Hnet Hupd; try discriminate Hnet; try discriminate Hupd.
  all: injection Hnet as <-; injection Hupd as <-.
  all: repeat eexists; cbn; try reflexivity.
  all: match goal with
       | Hok : ok _ = _ |- _ => rewrite Hok; reflexivity
       end.
Qed.

(** C3. The classification does not survive a storage fault, because the
    task update is awaited inside the [try] and again, unguarded, inside
    the [catch].  Run in memory with a store whose next update throws:
    after an answered request whose [ok] flag is set (HTTP 200) the run is
    returned as a failure without status code, whose error is the storage
    error, and is logged twice, as a success and then as a failure; after
    a DNS failure no result is produced at all, the storage error is
    thrown out of the executor. *)
Lemma storage_fault_breaks_the_classification :
  (transport_answers
     (trace (execution Memory.handler
               (Memory.with_update_fault (Some Memory.storage_error)
                  (Memory.world_with (Returned Memory.http_200)))
               KeepaliveExecutor Memory.ping))
     = [Returned Memory.http_200] /\
   ok Memory.http_200 = true /\
   outcome (execution Memory.handler
              (Memory.with_update_fault (Some Memory.storage_error)
                 (Memory.world_with (Returned Memory.http_200)))
              KeepaliveExecutor Memory.ping)
     = Returned {| er_success := false; er_responseTime := 4;
                   er_statusCode := None;
                   er_error := Some "D1_ERROR: database is locked";
                   er_timestamp := 1005 |} /\
   map log_status
     (Memory.logs
        (world (execution Memory.handler
                  (Memory.with_update_fault (Some Memory.storage_error)
                     (Memory.world_with (Returned Memory.http_200)))
                  KeepaliveExecutor Memory.ping)))
     = [success; failure]) /\
  (transport_answers
     (trace (execution Memory.handler
               (Memory.with_update_fault (Some Memory.storage_error)
                  (Memory.world_with
                     (Raised (JsError "getaddrinfo ENOTFOUND"))))
               KeepaliveExecutor Memory.ping))
     = [Raised (JsError "getaddrinfo ENOTFOUND")] /\
   outcome (execution Memory.handler
              (Memory.with_update_fault (Some Memory.storage_error)
                 (Memory.world_with
                    (Raised (JsError "getaddrinfo ENOTFOUND"))))
              KeepaliveExecutor Memory.ping)
     = Raised Memory.storage_error).
Proof. repeat split. Qed.

(** C7. A type mismatch is not always returned as a failure: the update
    that records it is awaited unguarded inside the [catch].  Run in
    memory with a store whose next update throws, each executor, handed a
    task of the other type, sends no request, writes the "failure" log and
    then throws the storage error to its caller. *)
Lemma storage_fault_escapes_on_type_mismatch :
  (type Memory.ping <> expects NotificationExecutor /\
   outcome (execution Memory.handler
              (Memory.with_update_fault (Some Memory.storage_error)
                 (Memory.world_with (Returned Memory.http_200)))
              NotificationExecutor Memory.ping)
     = Raised Memory.storage_error /\
   requests
     (trace (execution Memory.handler
               (Memory.with_update_fault (Some Memory.storage_error)
                  (Memory.world_with (Returned Memory.http_200)))
               NotificationExecutor Memory.ping)) = [] /\
   map log_status
     (Memory.logs
        (world (execution Memory.handler
                  (Memory.with_update_fault (Some Memory.storage_error)
                     (Memory.world_with (Returned Memory.http_200)))
                  NotificationExecutor Memory.ping)))
     = [failure]) /\
  (type Site.reminder <> expects KeepaliveExecutor /\
   outcome (execution Memory.handler
              (Memory.with_update_fault (Some Memory.storage_error)
                 (Memory.world_with (Returned Memory.http_200)))
              KeepaliveExecutor Site.reminder)
     = Raised Memory.storage_error /\
   requests
     (trace (execution Memory.handler
               (Memory.with_update_fault (Some Memory.storage_error)
                  (Memory.world_with (Returned Memory.http_200)))
               KeepaliveExecutor Site.reminder)) = [] /\
   map log_status
     (Memory.logs
        (world (execution Memory.handler
                  (Memory.with_update_fault (Some Memory.storage_error)
                     (Memory.world_with (Returned Memory.http_200)))
                  KeepaliveExecutor Site.reminder)))
     = [failure]).
Proof. repeat split; discriminate. Qed.

(* ===================================================================== *)
(** ** Properties of task management *)
(* ===================================================================== *)

Ltac open_management :=
  unfold updateTask, deleteTask, toggleTaskStatus.

(** C10. When storage holds the task and the caller is not its creator,
    [updateTask], [deleteTask] and [toggleTaskStatus] each return
    success=false with their permission error; the only storage call of the
    run is the read of the task, and the world is as that read left it. *)
Theorem only_creator_may_change {W : Type} (h : Handler W) (w : W)
    (taskId : string) (updateData : TaskPatch) (userId : string)
    (existingResult : DbResult Task) (existing : Task) :
  fst (on_ext h (DatabaseUtils_getTaskById taskId) w) = Returned existingResult ->
  found existingResult = Some existing ->
  created_by existing <> userId ->
  (outcome (run h (updateTask taskId updateData userId) w)
     = Returned (refused (Some "无权限更新此任务")) /\
   storage_calls (trace (run h (updateTask taskId updateData userId) w))
     = [TaskRead taskId] /\
   world (run h (updateTask taskId updateData userId) w)
     = snd (on_ext h (DatabaseUtils_getTaskById taskId) w)) /\
  (outcome (run h (deleteTask taskId userId) w)
     = Returned (refused (Some "无权限删除此任务")) /\
   storage_calls (trace (run h (deleteTask taskId userId) w))
     = [TaskRead taskId] /\
   world (run h (deleteTask taskId userId) w)
     = snd (on_ext h (DatabaseUtils_getTaskById taskId) w)) /\
  (outcome (run h (toggleTaskStatus taskId userId) w)
     = Returned (refused (Some "无权限修改此任务")) /\
   storage_calls (trace (run h (toggleTaskStatus taskId userId) w))
     = [TaskRead taskId] /\
   world (run h (toggleTaskStatus taskId userId) w)
     = snd (on_ext h (DatabaseUtils_getTaskById taskId) w)).
Proof.
  intros Hread Hfound Hother.
  apply String.eqb_neq in Hother.
  open_management; cbn.
  destruct (on_ext h (DatabaseUtils_getTaskById taskId) w) as [o w'].
  cbn in Hread; subst o; cbn.
  rewrite Hfound; cbn. rewrite Hother; cbn.
  repeat split.
Qed.

(** Another user's task, as in the end-to-end tests: nothing changes. *)
Lemma other_users_task_is_refused :
  (outcome (run Memory.handler
              (updateTask "task-fail-1" no_change "user-e2e-1")
              (Memory.world_with (Returned Memory.http_200)))
     = Returned (refused (Some "无权限更新此任务")) /\
   storage_calls (trace (run Memory.handler
                           (updateTask "task-fail-1" no_change "user-e2e-1")
                           (Memory.world_with (Returned Memory.http_200))))
     = [TaskRead "task-fail-1"] /\
   world (run Memory.handler
            (updateTask "task-fail-1" no_change "user-e2e-1")
            (Memory.world_with (Returned Memory.http_200)))
     = Memory.world_with (Returned Memory.http_200)) /\
  (outcome (run Memory.handler (deleteTask "task-fail-1" "user-e2e-1")
              (Memory.world_with (Returned Memory.http_200)))
     = Returned (refused (Some "无权限删除此任务")) /\
   storage_calls (trace (run Memory.handler
                           (deleteTask "task-fail-1" "user-e2e-1")
                           (Memory.world_with (Returned Memory.http_200))))
     = [TaskRead "task-fail-1"] /\
   world (run Memory.handler (deleteTask "task-fail-1" "user-e2e-1")
            (Memory.world_with (Returned Memory.http_200)))
     = Memory.world_with (Returned Memory.http_200)) /\
  (outcome (run Memory.handler (toggleTaskStatus "task-fail-1" "user-e2e-1")
              (Memory.world_with (Returned Memory.http_200)))
     = Returned (refused (Some "无权限修改此任务")) /\
   storage_calls (trace (run Memory.handler
                           (toggleTaskStatus "task-fail-1" "user-e2e-1")
                           (Memory.world_with (Returned Memory.http_200))))
     = [TaskRead "task-fail-1"] /\
   world (run Memory.handler (toggleTaskStatus "task-fail-1" "user-e2e-1")
            (Memory.world_with (Returned Memory.http_200)))
     = Memory.world_with (Returned Memory.http_200)).
Proof.
  apply (only_creator_may_change Memory.handler
           (Memory.world_with (Returned Memory.http_200))
           "task-fail-1" no_change "user-e2e-1"
           (Memory.found_row (Some Memory.ping)) Memory.ping).
  - reflexivity.
  - reflexivity.
  - simpl; discriminate.
Defined.

(** The converse: a run of a management operation that asks storage to
    change or delete a task has read that task first and found the caller
    to be its creator. *)
Lemma change_needs_creator {W : Type} (h : Handler W) (w : W)
    (taskId : string) (updateData : TaskPatch) (userId : string) :
  existsb changes_task
    (storage_calls (trace (run h (updateTask taskId updateData userId) w))
     ++ storage_calls (trace (run h (deleteTask taskId userId) w))
     ++ storage_calls (trace (run h (toggleTaskStatus taskId userId) w)))
    = true ->
  exists existingResult existing,
    fst (on_ext h (DatabaseUtils_getTaskById taskId) w) = Returned existingResult /\
    found existingResult = Some existing /\
    created_by existing = userId.
Proof.
  open_management; cbn.
  destruct (on_ext h (DatabaseUtils_getTaskById taskId) w) as [[res|e] w'];
    cbn; [|discriminate].
  destruct (found res) as [existing|] eqn:Hfound; cbn; [|discriminate].
  destruct (String.eqb (created_by existing) userId) eqn:Hsame; cbn;
    [|discriminate].
  intros _. exists res, existing.
  apply String.eqb_eq in Hsame. auto.
Qed.

(* ===================================================================== *)
(** ** Properties of the alert decisions *)
(* ===================================================================== *)

Import NotificationService.

Lemma insert_newest_first_perm (x : StoredLog) (l : list StoredLog) :
  Permutation (x :: l) (insert_newest_first x l).
Proof.
  induction l as [|y l IH]; simpl; [reflexivity|].
  destruct (execution_time y <? execution_time x); [reflexivity|].
  rewrite perm_swap. apply perm_skip, IH.
Qed.

(** Ordering by time keeps exactly the rows it was given. *)
Lemma newest_first_perm (l : list StoredLog) :
  Permutation l (newest_first l).
Proof.
  induction l as [|x l IH]; simpl; [reflexivity|].
  rewrite <- insert_newest_first_perm. apply perm_skip, IH.
Qed.

Lemma insert_newest_first_sorted (x : StoredLog) (l : list StoredLog) :
  StronglySorted not_older l ->
  StronglySorted not_older (insert_newest_first x l).
Proof.
  induction 1 as [|y l Hs IH Hall]; simpl.
  - repeat constructor.
  - destruct (execution_time y <? execution_time x) eqn:Hlt.
    + apply Z.ltb_lt in Hlt.
      constructor; [constructor; assumption|].
      constructor; [unfold not_older; lia|].
      eapply Forall_impl; [|exact Hall].
      unfold not_older; intros; lia.
    + apply Z.ltb_ge in Hlt.
      constructor; [exact IH|].
      eapply Permutation_Forall; [apply insert_newest_first_perm|].
      constructor; [exact Hlt|exact Hall].
Qed.

(** Every row is followed only by rows that are not newer. *)
Lemma newest_first_sorted (l : list StoredLog) :
  StronglySorted not_older (newest_first l).
Proof.
  induction l as [|x l IH]; simpl; [constructor|].
  apply insert_newest_first_sorted, IH.
Qed.

(** The history of a task holds the logs of that task, all of them. *)
Lemma history_logs (store : list StoredLog) (taskId : string) (l : StoredLog) :
  In l (history store taskId) <-> In l store /\ of_task taskId l = true.
Proof.
  unfold history. rewrite <- filter_In. split; intros H.
  - eapply Permutation_in; [symmetry; apply newest_first_perm|exact H].
  - eapply Permutation_in; [apply newest_first_perm|exact H].
Qed.

(** Scanning only the first [k] logs counts up to [k] of the streak. *)
Lemma consecutiveFailures_firstn (k : nat) (logs : list StoredLog) :
  consecutiveFailures (firstn k logs) = Nat.min k (consecutiveFailures logs).
Proof.
  revert k; induction logs as [|l rest IH]; intros [|k]; simpl; try reflexivity.
  destruct (stored_status l); simpl; [reflexivity|].
  rewrite IH. reflexivity.
Qed.

(** A success at position [i] bounds the streak by [i]. *)
Lemma consecutiveFailures_success (logs : list StoredLog) (i : nat)
    (l : StoredLog) :
  nth_error logs i = Some l ->
  stored_status l = success ->
  (consecutiveFailures logs <= i)%nat.
Proof.
  revert i; induction logs as [|l0 rest IH]; intros [|i]; simpl;
    try discriminate.
  - intros [= ->] ->. lia.
  - intros Hn Hs. destruct (stored_status l0); [lia|].
    apply le_n_S. eapply IH; eassumption.
Qed.

(** The first [n] logs of a streak of at least [n] are failures. *)
Lemma consecutiveFailures_failures (logs : list StoredLog) (n i : nat)
    (l : StoredLog) :
  (n <= consecutiveFailures logs)%nat ->
  (i < n)%nat ->
  nth_error logs i = Some l ->
  stored_status l = failure.
Proof.
  revert n i; induction logs as [|l0 rest IH]; intros n [|i]; simpl;
    try discriminate.
  - intros Hn Hi [= <-]. destruct (stored_status l0); [lia|reflexivity].
  - intros Hn Hi Hl. destruct (stored_status l0) eqn:H0; [lia|].
    apply (IH (pred n) i); [lia|lia|exact Hl].
Qed.

Lemma shouldAlertOnFailure_streak (store : list StoredLog) (taskId : string)
    (k : nat) :
  shouldAlertOnFailure store taskId k = true <->
  (k <= consecutiveFailures (history store taskId))%nat.
Proof.
  unfold shouldAlertOnFailure, getExecutionLogsByTaskId.
  rewrite consecutiveFailures_firstn, Nat.leb_le. lia.
Qed.

(** C1. With the user's threshold [k >= 1], [sendFailureAlert] attempts a
    delivery on every enabled channel when the consecutive-failure count of
    the task's history, newest first, is at least [k], and attempts none
    otherwise; it fires exactly when the newest [k] logs exist and are all
    failures, and one success among the newest [k] logs suppresses it. *)
Theorem failure_alert_fires_at_threshold (default_threshold : nat)
    (s : NotificationSettings) (store : list StoredLog)
    (deliver : Channel -> bool) (task : Task) (k : nat) :
  failure_threshold s = k ->
  (1 <= k)%nat ->
  (shouldAlertOnFailure store (id task) k = true <->
   (k <= consecutiveFailures (history store (id task)))%nat) /\
  (shouldAlertOnFailure store (id task) k = true <->
   (k <= List.length (history store (id task)))%nat /\
   forall i l, (i < k)%nat -> nth_error (history store (id task)) i = Some l ->
               stored_status l = failure) /\
  attempts (sendFailureAlert default_threshold (Some s) store deliver task)
    = (if shouldAlertOnFailure store (id task) k
       then map (fun c => (c, deliver c)) (enabled_channels s)
       else []) /\
  (forall i l,
     (i < k)%nat ->
     nth_error (history store (id task)) i = Some l ->
     stored_status l = success ->
     shouldAlertOnFailure store (id task) k = false /\
     sendFailureAlert default_threshold (Some s) store deliver task = skipped).
Proof.
  intros Hk Hpos.
  assert (Hsend :
    attempts (sendFailureAlert default_threshold (Some s) store deliver task)
    = (if shouldAlertOnFailure store (id task) k
       then map (fun c => (c, deliver c)) (enabled_channels s)
       else [])).
  { unfold sendFailureAlert. rewrite Hk.
    destruct (shouldAlertOnFailure store (id task) k); [|reflexivity].
    unfold fan_out. destruct (enabled_channels s); reflexivity. }
  split; [apply shouldAlertOnFailure_streak|].
  split; [|split; [exact Hsend|]].
  - rewrite shouldAlertOnFailure_streak. split.
    + intros Hge. split.
      * clear - Hge. revert Hge. generalize (history store (id task)).
        intros logs; revert k; induction logs as [|l0 rest IH]; intros k;
          simpl; [lia|].
        destruct (stored_status l0); [lia|].
        destruct k; [lia|]. intros H. apply le_n_S, IH. lia.
      * intros i l Hi Hl.
        eapply consecutiveFailures_failures; eassumption.
    + intros [Hlen Hall]. clear Hsend Hk Hpos.
      revert Hlen Hall. generalize (history store (id task)).
      intros logs; revert k; induction logs as [|l0 rest IH]; intros k;
        simpl; [lia|].
      intros Hlen Hall. destruct k; [lia|].
      rewrite (Hall O l0) by (simpl; auto; lia).
      apply le_n_S, IH; [lia|].
      intros i l Hi Hl. apply (Hall (S i) l); [lia|exact Hl].
  - intros i l Hi Hl Hs.
    assert (Hno : shouldAlertOnFailure store (id task) k = false).
    { destruct (shouldAlertOnFailure store (id task) k) eqn:Hfire;
        [|reflexivity].
      apply shouldAlertOnFailure_streak in Hfire.
      pose proof (consecutiveFailures_success _ _ _ Hl Hs). lia. }
    split; [exact Hno|].
    unfold sendFailureAlert. rewrite Hk, Hno. reflexivity.
Qed.

(** The scenario of the design: threshold 3.  Two consecutive failures do
    not alert; the third does, on the enabled channel. *)
Lemma third_failure_alerts :
  failure_threshold (Memory.settings 3 true false false) = 3%nat /\
  (1 <= 3)%nat /\
  attempts (sendFailureAlert 3 (Some (Memory.settings 3 true false false))
              Memory.three_failures Memory.delivered Memory.ping)
    = [(NotifyX, true)] /\
  attempts (sendFailureAlert 3 (Some (Memory.settings 3 true false false))
              Memory.two_failures Memory.delivered Memory.ping)
    = [].
Proof.
  assert (Hpos : (1 <= 3)%nat) by lia.
  split; [reflexivity|]. split; [exact Hpos|].
  destruct (failure_alert_fires_at_threshold 3
              (Memory.settings 3 true false false) Memory.three_failures
              Memory.delivered Memory.ping 3 eq_refl Hpos)
    as [_ [_ [Hthree _]]].
  destruct (failure_alert_fires_at_threshold 3
              (Memory.settings 3 true false false) Memory.two_failures
              Memory.delivered Memory.ping 3 eq_refl Hpos)
    as [_ [_ [Htwo _]]].
  split; [exact Hthree|exact Htwo].
Defined.

(** A success after the failures silences the alert. *)
Example success_resets_the_streak :
  shouldAlertOnFailure Memory.recovered "task-fail-1" 2 = false /\
  consecutiveFailures (history Memory.recovered "task-fail-1") = 0%nat.
Proof. split; reflexivity. Qed.

(** C2. [shouldSendRecoveryAlert] returns true exactly when the task has at
    least two logs and, in its history ordered by execution time
    descending, the newest log is a success and the one before it a
    failure.  With fewer than two logs, or when the two newest have the
    same status, it returns false. *)
Theorem recovery_alert_rule (store : list StoredLog) (taskId : string) :
  (shouldSendRecoveryAlert store taskId = true <->
   (2 <= List.length (filter (of_task taskId) store))%nat /\
   exists newest previous older,
     history store taskId = newest :: previous :: older /\
     execution_time previous <= execution_time newest /\
     Forall (fun l => execution_time l <= execution_time previous) older /\
     stored_status newest = success /\
     stored_status previous = failure) /\
  ((List.length (filter (of_task taskId) store) < 2)%nat ->
   shouldSendRecoveryAlert store taskId = false) /\
  (forall newest previous older,
     history store taskId = newest :: previous :: older ->
     stored_status newest = stored_status previous ->
     shouldSendRecoveryAlert store taskId = false).
Proof.
  assert (Hlen : List.length (history store taskId)
                 = List.length (filter (of_task taskId) store)).
  { symmetry. apply Permutation_length, newest_first_perm. }
  pose proof (newest_first_sorted (filter (of_task taskId) store)) as Hsorted.
  fold (history store taskId) in Hsorted.
  unfold shouldSendRecoveryAlert, getExecutionLogsByTaskId.
  rewrite <- Hlen.
  destruct (history store taskId) as [|newest [|previous older]]; simpl.
  - repeat split; intros; try discriminate; try reflexivity.
    destruct H as [H _]; simpl in H; lia.
  - repeat split; intros; try discriminate; try reflexivity.
    destruct H as [H _]; simpl in H; lia.
  - inversion Hsorted as [|? ? Hrest Hnewest]; subst.
    inversion Hrest as [|? ? _ Hprevious]; subst.
    inversion Hnewest as [|? ? Hfirst _]; subst.
    repeat split.
    + lia.
    + apply andb_true_iff in H as [Hn Hp].
      exists newest, previous, older. repeat split; try assumption.
      * destruct (stored_status newest); [reflexivity|discriminate].
      * destruct (stored_status previous); [discriminate|reflexivity].
    + intros [_ [n [p [o [[= <- <- <-] [_ [_ [-> ->]]]]]]]]. reflexivity.
    + intros H; simpl in H; lia.
    + intros n p o [= <- <- <-] ->.
      destruct (stored_status previous); reflexivity.
Qed.

(** A success right after a failure is a recovery; two failures are not. *)
Lemma recovery_after_failure :
  shouldSendRecoveryAlert Memory.recovered "task-fail-1" = true /\
  shouldSendRecoveryAlert Memory.two_failures "task-fail-1" = false.
Proof.
  destruct (recovery_alert_rule Memory.recovered "task-fail-1")
    as [[_ Hfire] _].
  destruct (recovery_alert_rule Memory.two_failures "task-fail-1")
    as [_ [_ Hsame]].
  split.
  - apply Hfire. split; [simpl; lia|].
    exists (Memory.logged success 3000), (Memory.logged failure 2000),
           [Memory.logged failure 1000].
    repeat split; try reflexivity; try (simpl; lia).
    repeat constructor; simpl; lia.
  - apply (Hsame (Memory.logged failure 2000) (Memory.logged failure 1000) []);
      reflexivity.
Defined.

(** C8. With email, webhook and push all disabled, [sendFailureAlert]
    succeeds and attempts no delivery, whatever the history of the task;
    the same holds when the user has no settings at all. *)
Theorem no_channel_is_success (default_threshold : nat)
    (s : NotificationSettings) (store : list StoredLog)
    (deliver : Channel -> bool) (task : Task) :
  email_enabled s = false ->
  webhook_enabled s = false ->
  notifyx_enabled s = false ->
  alert_success
    (sendFailureAlert default_threshold (Some s) store deliver task) = true /\
  attempts
    (sendFailureAlert default_threshold (Some s) store deliver task) = [] /\
  sendFailureAlert default_threshold None store deliver task = skipped.
Proof.
  intros He Hw Hn. unfold sendFailureAlert, fan_out, enabled_channels.
  rewrite He, Hw, Hn; simpl.
  destruct (shouldAlertOnFailure store (id task) (failure_threshold s));
    destruct (shouldAlertOnFailure store (id task) default_threshold);
    repeat split.
Qed.


(** No channel enabled, threshold reached: skipped as a success. *)
Lemma no_channel_enabled_is_skipped :
  alert_success
    (sendFailureAlert 3 (Some (Memory.settings 1 false false false))
       Memory.three_failures Memory.delivered Memory.ping) = true /\
  attempts
    (sendFailureAlert 3 (Some (Memory.settings 1 false false false))
       Memory.three_failures Memory.delivered Memory.ping) = [] /\
  sendFailureAlert 3 None Memory.three_failures Memory.delivered Memory.ping
    = skipped.
Proof.
  exact (no_channel_is_success 3 (Memory.settings 1 false false false)
           Memory.three_failures Memory.delivered Memory.ping
           eq_refl eq_refl eq_refl).
Defined.
(* ===================================================================== *)
(** ** The evaluator on the scenarios of the design *)
(* ===================================================================== *)

(** The scenario of the design: [*/5 * * * *], never executed, at a minute
    that is a multiple of five (2025-11-03T08:35:00Z). *)
Example every_five_minutes_due (unit_length : CronService.IntervalUnit -> Z)
    (tolerance : Z) :
  CronService.due unit_length tolerance
    (CronService.CronRule CronService.every_five_minutes) None 1762158900000
    = true.
Proof. reflexivity. Qed.

(** A minute later the same rule is not due, and neither is it due a
    second time within the minute it ran in. *)
Example every_five_minutes_not_due (unit_length : CronService.IntervalUnit -> Z)
    (tolerance : Z) :
  CronService.due unit_length tolerance
    (CronService.CronRule CronService.every_five_minutes) None 1762158960000
    = false /\
  CronService.due unit_length tolerance
    (CronService.CronRule CronService.every_five_minutes)
    (Some 1762158901000) 1762158930000
    = false.
Proof. split; reflexivity. Qed.

(* ===================================================================== *)
(** ** More about the executors *)
(* ===================================================================== *)

(** What a keepalive run asks of the transport: one abort signal, for the
    configured timeout or for 30 s when none (or zero) is configured, and
    then at most one request, to the configured URL with the configured
    method and with the configured headers or none. *)
Theorem keepalive_request_is_configured {W : Type} (h : Handler W) (w : W)
    (task : Task) :
  type task = keepalive ->
  timeouts (trace (execution h w KeepaliveExecutor task))
    = [num_or (cfg_timeout (config task)) 30000] /\
  (cfg_timeout (config task) = None \/ cfg_timeout (config task) = Some 0 ->
   timeouts (trace (execution h w KeepaliveExecutor task)) = [30000]) /\
  (List.length (requests (trace (execution h w KeepaliveExecutor task)))
   <= 1)%nat /\
  forall url init,
    In (url, init) (requests (trace (execution h w KeepaliveExecutor task))) ->
    url = cfg_url (config task) /\
    ri_method init = cfg_method (config task) /\
    ri_headers init = match cfg_headers (config task) with
                      | Some hs => hs
                      | None => []
                      end /\
    (cfg_headers (config task) = None -> ri_headers init = []).
Proof.
  intros Hty. open_executor. rewrite Hty; cbn.
  run_cases.
  all: split; [reflexivity|].
  all: split; [intros [-> | ->]; reflexivity|].
  all: split; [simpl; lia|].
  all: intros url init Hin; simpl in Hin; try tauto.
  all: destruct Hin as [[= <- <-]|[]]; cbn.
  all: repeat split; intros ->; reflexivity.
Qed.

(** The in-memory keepalive task: a 30 s signal and one GET. *)
Lemma ping_request_is_configured :
  timeouts (trace (execution Memory.handler
                     (Memory.world_with (Returned Memory.http_200))
                     KeepaliveExecutor Memory.ping)) = [30000] /\
  requests (trace (execution Memory.handler
                     (Memory.world_with (Returned Memory.http_200))
                     KeepaliveExecutor Memory.ping))
    = [(Some "https://api.example.com/health",
        {| ri_method := Some "GET"; ri_headers := []; ri_body := None;
           ri_signal := {| signal_ms := 30000 |} |})].
Proof.
  destruct (keepalive_request_is_configured Memory.handler
              (Memory.world_with (Returned Memory.http_200)) Memory.ping
              eq_refl) as [Htime _].
  split; [exact Htime|reflexivity].
Defined.

(** A keepalive request carries a body only when one is configured and the
    method is POST or PUT: every other run sends none. *)
Lemma keepalive_body_only_for_post_and_put {W : Type} (h : Handler W) (w : W)
    (task : Task) :
  type task = keepalive ->
  cfg_method (config task) <> Some "POST" ->
  cfg_method (config task) <> Some "PUT" ->
  forall url init,
    In (url, init) (requests (trace (execution h w KeepaliveExecutor task))) ->
    ri_body init = None.
Proof.
  intros Hty Hpost Hput url init.
  rewrite (keepalive_request h w task Hty).
  assert (Hno : carries_body (cfg_method (config task)) = false).
  { unfold carries_body. destruct (cfg_method (config task)) as [m|];
      [|reflexivity].
    destruct (String.eqb m "POST") eqn:H1;
      [apply String.eqb_eq in H1; subst; congruence|].
    destruct (String.eqb m "PUT") eqn:H2;
      [apply String.eqb_eq in H2; subst; congruence|].
    reflexivity. }
  rewrite Hno, andb_false_r.
  destruct (fst _); simpl; [|tauto].
  intros [[= <- <-]|[]]. reflexivity.
Qed.

Lemma ping_sends_no_body :
  type Memory.ping = keepalive /\
  cfg_method (config Memory.ping) <> Some "POST"%string /\
  cfg_method (config Memory.ping) <> Some "PUT"%string /\
  Forall (fun request => ri_body (snd request) = None)
    (requests (trace (execution Memory.handler
                        (Memory.world_with (Returned Memory.http_200))
                        KeepaliveExecutor Memory.ping))).
Proof.
  assert (Hpost : cfg_method (config Memory.ping) <> Some "POST"%string)
    by (simpl; discriminate).
  assert (Hput : cfg_method (config Memory.ping) <> Some "PUT"%string)
    by (simpl; discriminate).
  split; [reflexivity|]. split; [exact Hpost|]. split; [exact Hput|].
  apply Forall_forall. intros [url init] Hin.
  exact (keepalive_body_only_for_post_and_put Memory.handler
           (Memory.world_with (Returned Memory.http_200)) Memory.ping
           eq_refl Hpost Hput url init Hin).
Defined.

(** The request of a notification run: at most one, a POST to the NotifyX
    endpoint with the key as bearer token, under a 30 s abort signal.  The
    title sent is the task's, else the channel's, else the default, and
    never empty; the priority defaults to "normal". *)
Lemma notification_request {W : Type} (h : Handler W) (w : W) (task : Task)
    (notifyxConfig : NotifyXConfig) :
  type task = notification ->
  cfg_notifyxConfig (config task) = Some notifyxConfig ->
  timeouts (trace (execution h w NotificationExecutor task)) = [30000] /\
  (List.length (requests (trace (execution h w NotificationExecutor task)))
   <= 1)%nat /\
  forall url init,
     In (url, init)
        (requests (trace (execution h w NotificationExecutor task))) ->
     url = Some "https://api.notifyx.cn/v1/send" /\
     ri_method init = Some "POST" /\
     ri_headers init
       = [("Content-Type", "application/json");
          ("Authorization",
           ("Bearer " ++ show_string (nx_apiKey notifyxConfig))%string)] /\
     exists payload,
       ri_body init = Some (JsonBody payload) /\
       pl_message payload = cfg_message (config task) /\
       pl_channel_id payload = nx_channelId notifyxConfig /\
       pl_recipients payload = nx_recipients notifyxConfig /\
       truthy (pl_title payload) = true /\
       truthy (pl_priority payload) = true /\
       (truthy (cfg_title (config task)) = true ->
        pl_title payload = cfg_title (config task)) /\
       (truthy (cfg_title (config task)) = false ->
        truthy (nx_title notifyxConfig) = true ->
        pl_title payload = nx_title notifyxConfig) /\
       (truthy (cfg_title (config task)) = false ->
        truthy (nx_title notifyxConfig) = false ->
        pl_title payload = Some "定时通知") /\
       (truthy (cfg_priority (config task)) = false ->
        pl_priority payload = Some "normal").
Proof.
  intros Hty Hnx. open_executor. rewrite Hty, Hnx; cbn.
  run_cases.
  all: split; [reflexivity|]; split; [simpl; lia|].
  all: intros url init Hin; simpl in Hin; try tauto.
  all: destruct Hin as [[= <- <-]|[]]; cbn.
  all: repeat split.
  all: eexists; repeat split; unfold or_else;
    destruct (truthy (cfg_title (config task))) eqn:Ht;
    destruct (truthy (nx_title notifyxConfig)) eqn:Hn;
    destruct (truthy (cfg_priority (config task))) eqn:Hp;
    cbn; try rewrite Ht; try rewrite Hn; try rewrite Hp;
    intros; try reflexivity; try discriminate; try assumption.
Qed.

(** A task whose own title is empty is sent under the title of its
    channel. *)
Lemma reminder_request :
  requests (trace (execution Memory.handler
                     (Memory.world_with (Returned Memory.http_200))
                     NotificationExecutor Site.reminder))
    = [(Some "https://api.notifyx.cn/v1/send",
        {| ri_method := Some "POST";
           ri_headers := [("Content-Type", "application/json");
                          ("Authorization", "Bearer test-key")];
           ri_body := Some (JsonBody
             {| pl_channel_id := None; pl_title := Some "Test";
                pl_message := Some "Test notification";
                pl_priority := Some "normal"; pl_recipients := None |});
           ri_signal := {| signal_ms := 30000 |} |})] /\
  timeouts (trace (execution Memory.handler
                     (Memory.world_with (Returned Memory.http_200))
                     NotificationExecutor Site.reminder)) = [30000].
Proof.
  destruct (notification_request Memory.handler
              (Memory.world_with (Returned Memory.http_200)) Site.reminder
              {| nx_apiKey := Some "test-key"; nx_channelId := None;
                 nx_title := Some "Test"; nx_recipients := None |}
              eq_refl eq_refl) as [Htime _].
  split; [reflexivity|exact Htime].
Defined.

(** How a notification run is classified, in a run whose storage updates
    return.  An [ok] response gives success with its status code and no
    error.  A response that is not [ok] gives a failure with its status
    code, and the error quotes the status and the response text; when
    reading that text throws, the failure has no status code and carries
    the thrown message instead.  A thrown request gives a failure with the
    thrown message. *)
Theorem notification_classification {W : Type} (h : Handler W) (w : W)
    (task : Task) :
  updates_returned (trace (execution h w NotificationExecutor task)) = true ->
  exists result,
    outcome (execution h w NotificationExecutor task) = Returned result /\
    (er_success result = true <->
       exists response,
         transport_answers (trace (execution h w NotificationExecutor task))
           = [Returned response] /\
         ok response = true) /\
    (forall response,
       transport_answers (trace (execution h w NotificationExecutor task))
         = [Returned response] ->
       ok response = true ->
       er_statusCode result = Some (status response) /\
       er_error result = None /\
       text_answers (trace (execution h w NotificationExecutor task)) = []) /\
    (forall response text,
       transport_answers (trace (execution h w NotificationExecutor task))
         = [Returned response] ->
       text_answers (trace (execution h w NotificationExecutor task))
         = [Returned text] ->
       er_statusCode result = Some (status response) /\
       er_error result
         = Some ("通知发送失败: HTTP " ++ show_number (status response)
                 ++ " - " ++ text)%string) /\
    (forall e,
       text_answers (trace (execution h w NotificationExecutor task))
         = [Raised e] ->
       er_success result = false /\
       er_statusCode result = None /\
       er_error result = Some (errorMessage e)) /\
    (forall e,
       transport_answers (trace (execution h w NotificationExecutor task))
         = [Raised e] ->
       er_success result = false /\
       er_statusCode result = None /\
       er_error result = Some (errorMessage e)).
Proof.
  open_executor.
  destruct (type task); cbn; run_cases.
  all: intros H; try discriminate H.
  all: eexists; split; [reflexivity|]; cbn.
  all: repeat split; settle.
Qed.

(** A service that answers 500 with a text, run in memory. *)
Lemma notification_http_500 :
  exists result,
    outcome (execution Memory.handler
               (Memory.world_with (Returned Memory.http_500))
               NotificationExecutor Site.reminder) = Returned result /\
    er_statusCode result = Some 500 /\
    er_error result = Some "通知发送失败: HTTP 500 - unavailable".
Proof.
  destruct (notification_classification Memory.handler
              (Memory.world_with (Returned Memory.http_500)) Site.reminder
              eq_refl) as [result [Hout [_ [_ [Htext _]]]]].
  exists result. split; [exact Hout|].
  exact (Htext Memory.http_500 "unavailable" eq_refl eq_refl).
Defined.

(** A notification task without [notifyxConfig] sends nothing: reading the
    key of the missing channel throws, and the run is recorded and returned
    as a failure with that error. *)
Theorem notification_without_channel {W : Type} (h : Handler W) (w : W)
    (task : Task) :
  type task = notification ->
  cfg_notifyxConfig (config task) = None ->
  requests (trace (execution h w NotificationExecutor task)) = [] /\
  timeouts (trace (execution h w NotificationExecutor task)) = [] /\
  (exists log d,
     storage_calls (trace (execution h w NotificationExecutor task))
       = [LogWrite log; TaskUpdate (id task) (last_run d failure)] /\
     log_status log = failure /\
     log_error_message log = Some (errorMessage (undefined_read "apiKey"))) /\
  (forall result,
     outcome (execution h w NotificationExecutor task) = Returned result ->
     er_success result = false /\
     er_statusCode result = None /\
     er_error result = Some (errorMessage (undefined_read "apiKey"))).
Proof.
  intros Hty Hnx. open_executor. rewrite Hty, Hnx; cbn.
  run_cases.
  all: repeat split; settle.
  all: eexists; eexists; repeat split.
Qed.

Lemma reminder_without_channel_fails :
  requests (trace (execution Memory.handler
                     (Memory.world_with (Returned Memory.http_200))
                     NotificationExecutor Site.reminder_without_channel)) = [] /\
  outcome (execution Memory.handler
             (Memory.world_with (Returned Memory.http_200))
             NotificationExecutor Site.reminder_without_channel)
    = Returned {| er_success := false; er_responseTime := 1;
                  er_statusCode := None;
                  er_error := Some
                    "Cannot read properties of undefined (reading 'apiKey')";
                  er_timestamp := 1002 |}.
Proof.
  destruct (notification_without_channel Memory.handler
              (Memory.world_with (Returned Memory.http_200))
              Site.reminder_without_channel eq_refl eq_refl)
    as [Hreq _].
  split; [exact Hreq|reflexivity].
Defined.

(** The response time of a returned result is the span between the first
    and the last reading of [Date.now()] in the run, on the success path
    and on the failure paths alike. *)
Theorem response_time_is_measured {W : Type} (h : Handler W) (w : W)
    (x : Executor) (task : Task) (result : ExecutionResult) :
  outcome (execution h w x task) = Returned result ->
  exists started between finished,
    clock_readings (trace (execution h w x task))
      = started :: between ++ [finished] /\
    er_responseTime result = finished - started.
Proof.
  open_executor.
  destruct x; destruct (type task); cbn; run_cases.
  all: intros Hout; try discriminate Hout; injection Hout as <-.
  all: first
    [ eexists _, [], _; split; reflexivity
    | eexists _, [_], _; split; reflexivity ].
Qed.

Lemma ping_response_time :
  exists started between finished,
    clock_readings
      (trace (execution Memory.handler
                (Memory.world_with (Returned Memory.http_200))
                KeepaliveExecutor Memory.ping))
      = started :: between ++ [finished] /\
    1 = finished - started.
Proof.
  exact (response_time_is_measured Memory.handler
           (Memory.world_with (Returned Memory.http_200))
           KeepaliveExecutor Memory.ping
           {| er_success := true; er_responseTime := 1;
              er_statusCode := Some 200; er_error := None;
              er_timestamp := 1002 |} eq_refl).
Defined.

(** Nothing is retried: a run sends at most one request, and when its
    storage updates return it writes exactly one log and one update. *)
Theorem a_run_is_one_attempt {W : Type} (h : Handler W) (w : W)
    (x : Executor) (task : Task) :
  (List.length (requests (trace (execution h w x task))) <= 1)%nat /\
  (List.length (transport_answers (trace (execution h w x task))) <= 1)%nat /\
  (updates_returned (trace (execution h w x task)) = true ->
   exists log patch,
     storage_calls (trace (execution h w x task))
       = [LogWrite log; TaskUpdate (id task) patch]).
Proof.
  open_executor.
  destruct x; destruct (type task); cbn; run_cases.
  all: repeat split; try (simpl; lia).
  all: intros H; try discriminate H.
  all: eexists; eexists; reflexivity.
Qed.

(** An executor throws exactly when its last task update threw, and then
    it throws what the update threw. *)
Theorem executor_throws_what_the_update_threw {W : Type} (h : Handler W)
    (w : W) (x : Executor) (task : Task) (e : Thrown) :
  outcome (execution h w x task) = Raised e <->
  last (update_failures (trace (execution h w x task))) None = Some e.
Proof.
  open_executor.
  destruct x; destruct (type task); cbn; run_cases.
  all: split; intros H; try discriminate H.
  all: injection H as <-; reflexivity.
Qed.

(** The storage fault of the in-memory world, hit after an [ok] response:
    the run comes back as a failure. *)
Lemma storage_fault_after_ok_response :
  exists result log1 patch1 log2 d,
    outcome (execution Memory.handler
               (Memory.with_update_fault (Some Memory.storage_error)
                  (Memory.world_with (Returned Memory.http_200)))
               KeepaliveExecutor Memory.ping) = Returned result /\
    er_success result = false /\
    er_statusCode result = None /\
    er_error result = Some "D1_ERROR: database is locked" /\
    storage_calls
      (trace (execution Memory.handler
                (Memory.with_update_fault (Some Memory.storage_error)
                   (Memory.world_with (Returned Memory.http_200)))
                KeepaliveExecutor Memory.ping))
      = [LogWrite log1; TaskUpdate (id Memory.ping) patch1;
         LogWrite log2; TaskUpdate (id Memory.ping) (last_run d failure)] /\
    log_status log1 = status_of (ok Memory.http_200) /\
    log_status log2 = failure.
Proof.
  exact (thrown_update_is_run_failure Memory.handler
           (Memory.with_update_fault (Some Memory.storage_error)
              (Memory.world_with (Returned Memory.http_200)))
           Memory.ping Memory.http_200 Memory.storage_error
           eq_refl eq_refl).
Defined.

(* ===================================================================== *)
(** ** More about task management *)
(* ===================================================================== *)

(** When the read of the task fails or finds nothing, [updateTask],
    [deleteTask] and [toggleTaskStatus] each report "任务不存在" and make no
    further storage call. *)
Theorem missing_task_is_reported {W : Type} (h : Handler W) (w : W)
    (taskId : string) (updateData : TaskPatch) (userId : string)
    (existingResult : DbResult Task) :
  fst (on_ext h (DatabaseUtils_getTaskById taskId) w) = Returned existingResult ->
  db_success existingResult = false \/ db_data existingResult = None ->
  (outcome (run h (updateTask taskId updateData userId) w)
     = Returned (refused (Some "任务不存在")) /\
   storage_calls (trace (run h (updateTask taskId updateData userId) w))
     = [TaskRead taskId]) /\
  (outcome (run h (deleteTask taskId userId) w)
     = Returned (refused (Some "任务不存在")) /\
   storage_calls (trace (run h (deleteTask taskId userId) w))
     = [TaskRead taskId]) /\
  (outcome (run h (toggleTaskStatus taskId userId) w)
     = Returned (refused (Some "任务不存在")) /\
   storage_calls (trace (run h (toggleTaskStatus taskId userId) w))
     = [TaskRead taskId]).
Proof.
  intros Hread Hmissing.
  assert (Hfound : found existingResult = None).
  { unfold found. destruct Hmissing as [-> | ->]; [reflexivity|].
    destruct (db_success existingResult); reflexivity. }
  open_management; cbn.
  destruct (on_ext h (DatabaseUtils_getTaskById taskId) w) as [o w'].
  cbn in Hread; subst o; cbn.
  rewrite Hfound; cbn. repeat split.
Qed.

(** A task id that storage does not know. *)
Lemma unknown_task_is_reported :
  (outcome (run Memory.handler (updateTask "no-such-task" no_change "user-e2e-1")
              (Memory.world_with (Returned Memory.http_200)))
     = Returned (refused (Some "任务不存在")) /\
   storage_calls (trace (run Memory.handler
                           (updateTask "no-such-task" no_change "user-e2e-1")
                           (Memory.world_with (Returned Memory.http_200))))
     = [TaskRead "no-such-task"]) /\
  (outcome (run Memory.handler (deleteTask "no-such-task" "user-e2e-1")
              (Memory.world_with (Returned Memory.http_200)))
     = Returned (refused (Some "任务不存在")) /\
   storage_calls (trace (run Memory.handler
                           (deleteTask "no-such-task" "user-e2e-1")
                           (Memory.world_with (Returned Memory.http_200))))
     = [TaskRead "no-such-task"]) /\
  (outcome (run Memory.handler (toggleTaskStatus "no-such-task" "user-e2e-1")
              (Memory.world_with (Returned Memory.http_200)))
     = Returned (refused (Some "任务不存在")) /\
   storage_calls (trace (run Memory.handler
                           (toggleTaskStatus "no-such-task" "user-e2e-1")
                           (Memory.world_with (Returned Memory.http_200))))
     = [TaskRead "no-such-task"]).
Proof.
  apply (missing_task_is_reported Memory.handler
           (Memory.world_with (Returned Memory.http_200))
           "no-such-task" no_change "user-e2e-1"
           (Memory.found_row None)).
  - reflexivity.
  - right; reflexivity.
Defined.

(** The management operations never throw.  Whatever storage does, each
    returns a result; when a storage call throws, the result is a failure
    whose error is the operation's prefix followed by the thrown message;
    and a result is a success only when the change itself was answered with
    success. *)
Theorem management_never_throws {W : Type} (h : Handler W) (w : W)
    (taskId : string) (updateData : TaskPatch) (userId : string) :
  (exists result,
     outcome (run h (updateTask taskId updateData userId) w) = Returned result /\
     (forall e,
        fst (on_ext h (DatabaseUtils_getTaskById taskId) w) = Raised e ->
        result = refused (Some ("更新任务失败: " ++ errorMessage e)%string)) /\
     (forall e,
        change_answers (trace (run h (updateTask taskId updateData userId) w))
          = [Updated (Raised e)] ->
        result = refused (Some ("更新任务失败: " ++ errorMessage e)%string)) /\
     (sr_success result = true ->
      exists answer,
        change_answers (trace (run h (updateTask taskId updateData userId) w))
          = [Updated (Returned answer)] /\
        db_success answer = true /\
        sr_data result = db_data answer)) /\
  (exists result,
     outcome (run h (deleteTask taskId userId) w) = Returned result /\
     (forall e,
        fst (on_ext h (DatabaseUtils_getTaskById taskId) w) = Raised e ->
        result = refused (Some ("删除任务失败: " ++ errorMessage e)%string)) /\
     (forall e,
        change_answers (trace (run h (deleteTask taskId userId) w))
          = [Deleted (Raised e)] ->
        result = refused (Some ("删除任务失败: " ++ errorMessage e)%string)) /\
     (sr_success result = true ->
      exists answer,
        change_answers (trace (run h (deleteTask taskId userId) w))
          = [Deleted (Returned answer)] /\
        db_success answer = true)) /\
  (exists result,
     outcome (run h (toggleTaskStatus taskId userId) w) = Returned result /\
     (forall e,
        fst (on_ext h (DatabaseUtils_getTaskById taskId) w) = Raised e ->
        result = refused (Some ("切换任务状态失败: " ++ errorMessage e)%string)) /\
     (forall e,
        change_answers (trace (run h (toggleTaskStatus taskId userId) w))
          = [Updated (Raised e)] ->
        result = refused (Some ("切换任务状态失败: " ++ errorMessage e)%string)) /\
     (sr_success result = true ->
      exists answer,
        change_answers (trace (run h (toggleTaskStatus taskId userId) w))
          = [Updated (Returned answer)] /\
        db_success answer = true /\
        sr_data result = db_data answer)).
Proof.
  open_management; cbn.
  destruct (on_ext h (DatabaseUtils_getTaskById taskId) w) as [[res|e0] w'];
    cbn.
  - destruct (found res) as [existing|]; cbn.
    + destruct (String.eqb (created_by existing) userId); cbn.
      * run_cases.
        all: repeat match goal with
               | |- context [negb (db_success ?a)] =>
                   destruct (db_success a) eqn:?; cbn
               end.
        all: repeat split.
        all: eexists; (split; [reflexivity|]).
        all: repeat split; settle.
      * repeat split; eexists; (split; [reflexivity|]);
          repeat split; settle.
    + repeat split; eexists; (split; [reflexivity|]); repeat split; settle.
  - repeat split; eexists; (split; [reflexivity|]); repeat split; settle.
Qed.

(** For the creator of the task the change goes to storage as asked:
    [updateTask] sends the update data as it got it, [deleteTask] deletes,
    [toggleTaskStatus] sets [enabled] to the opposite of the stored flag and
    nothing else; each makes exactly that one call after the read, and
    hands back what storage answered: its data on success, its error on
    failure. *)
Theorem creator_change_is_forwarded {W : Type} (h : Handler W) (w : W)
    (taskId : string) (updateData : TaskPatch) (userId : string)
    (existingResult : DbResult Task) (existing : Task) :
  fst (on_ext h (DatabaseUtils_getTaskById taskId) w) = Returned existingResult ->
  found existingResult = Some existing ->
  created_by existing = userId ->
  (storage_calls (trace (run h (updateTask taskId updateData userId) w))
     = [TaskRead taskId; TaskUpdate taskId updateData] /\
   forall answer,
     change_answers (trace (run h (updateTask taskId updateData userId) w))
       = [Updated (Returned answer)] ->
     outcome (run h (updateTask taskId updateData userId) w)
       = Returned (if db_success answer
                   then done (db_data answer)
                   else refused (db_error answer))) /\
  (storage_calls (trace (run h (deleteTask taskId userId) w))
     = [TaskRead taskId; TaskDelete taskId] /\
   forall answer,
     change_answers (trace (run h (deleteTask taskId userId) w))
       = [Deleted (Returned answer)] ->
     outcome (run h (deleteTask taskId userId) w)
       = Returned (if db_success answer
                   then done None
                   else refused (db_error answer))) /\
  (storage_calls (trace (run h (toggleTaskStatus taskId userId) w))
     = [TaskRead taskId;
        TaskUpdate taskId
          {| p_name := None; p_type := None; p_schedule := None;
             p_config := None; p_enabled := Some (negb (enabled existing));
             p_last_executed := None; p_last_status := None |}] /\
   forall answer,
     change_answers (trace (run h (toggleTaskStatus taskId userId) w))
       = [Updated (Returned answer)] ->
     outcome (run h (toggleTaskStatus taskId userId) w)
       = Returned (if db_success answer
                   then done (db_data answer)
                   else refused (db_error answer))).
Proof.
  intros Hread Hfound Hsame.
  apply String.eqb_eq in Hsame.
  open_management; cbn.
  destruct (on_ext h (DatabaseUtils_getTaskById taskId) w) as [o w'].
  cbn in Hread; subst o; cbn.
  rewrite Hfound; cbn. rewrite Hsame; cbn.
  run_cases.
  all: repeat match goal with
         | |- context [negb (db_success ?a)] =>
             destruct (db_success a) eqn:?; cbn
         end.
  all: repeat split; intros answer Hanswer; try discriminate Hanswer.
  all: injection Hanswer as <-.
  all: match goal with
       | Hok : db_success _ = _ |- _ => rewrite Hok
       end; reflexivity.
Qed.

(** The creator of [ping] renames it, disables it and deletes another
    copy, in memory. *)
Lemma creator_changes_ping :
  (storage_calls (trace (run Memory.handler
                           (updateTask "task-fail-1" Site.rename "other-user-id")
                           (Memory.world_with (Returned Memory.http_200))))
     = [TaskRead "task-fail-1"; TaskUpdate "task-fail-1" Site.rename]) /\
  map name
    (Memory.tasks
       (world (run Memory.handler
                 (updateTask "task-fail-1" Site.rename "other-user-id")
                 (Memory.world_with (Returned Memory.http_200)))))
    = ["pong"] /\
  map enabled
    (Memory.tasks
       (world (run Memory.handler
                 (toggleTaskStatus "task-fail-1" "other-user-id")
                 (Memory.world_with (Returned Memory.http_200)))))
    = [false] /\
  Memory.tasks
    (world (run Memory.handler (deleteTask "task-fail-1" "other-user-id")
              (Memory.world_with (Returned Memory.http_200))))
    = [].
Proof.
  destruct (creator_change_is_forwarded Memory.handler
              (Memory.world_with (Returned Memory.http_200))
              "task-fail-1" Site.rename "other-user-id"
              (Memory.found_row (Some Memory.ping)) Memory.ping
              eq_refl eq_refl eq_refl) as [[Hcalls _] _].
  split; [exact Hcalls|]. repeat split.
Defined.

(** A change that reached storage came from the creator. *)
Lemma ping_changed_by_its_creator :
  exists existingResult existing,
    fst (on_ext Memory.handler (DatabaseUtils_getTaskById "task-fail-1")
           (Memory.world_with (Returned Memory.http_200)))
      = Returned existingResult /\
    found existingResult = Some existing /\
    created_by existing = "other-user-id".
Proof.
  exact (change_needs_creator Memory.handler
           (Memory.world_with (Returned Memory.http_200))
           "task-fail-1" Site.rename "other-user-id" eq_refl).
Defined.

(* ===================================================================== *)
(** ** The rest of the task service *)
(* ===================================================================== *)

(** Case analysis over the answers to the calls of this layer. *)
Ltac app_answer :=
  match goal with
  | |- context [on_app ?h ?c ?w] =>
      let w' := fresh "w" in
      destruct (on_app h c w) as [[?|?] w']
  | |- context [on_sys ?h ?c ?w] =>
      let x := fresh "x" in
      let w' := fresh "w" in
      destruct (on_sys h c w) as [x w']
  | |- context [on_ext ?h ?c ?w] =>
      let w' := fresh "w" in
      destruct (on_ext h c w) as [[?|?] w']
  end.

Ltac app_cases := repeat (app_answer; cbn).

(** [createTask] never throws.  It asks the model for a task that has a
    fresh id, the fields of the request, the caller as creator and
    [enabled] true unless the request says otherwise; it stores exactly the
    task the model returned; it hands back the data of a successful store,
    the error of a failed one, and "创建任务失败: ..." with the message of
    whatever the model or storage threw. *)
Theorem createTask_run {W : Type} (h : AppHandler W) (w : W)
    (taskData : TaskData) (userId : string) :
  exists newId result,
    issued_ids (core_events
                  (app_trace (run_app h (TaskQueries.createTask taskData userId) w)))
      = [newId] /\
    app_outcome (run_app h (TaskQueries.createTask taskData userId) w)
      = Returned result /\
    hd_error (app_calls
                (app_trace (run_app h (TaskQueries.createTask taskData userId) w)))
      = Some (ModelCreated
                {| d_id := newId;
                   d_name := td_name taskData;
                   d_type := td_type taskData;
                   d_schedule := td_schedule taskData;
                   d_config := td_config taskData;
                   d_created_by := userId;
                   d_enabled := match td_enabled taskData with
                                | Some b => b
                                | None => true
                                end |}) /\
    (forall task,
       In (TaskStored task)
          (app_calls
             (app_trace (run_app h (TaskQueries.createTask taskData userId) w))) ->
       hd_error
         (creation_answers
            (app_trace (run_app h (TaskQueries.createTask taskData userId) w)))
         = Some (Modelled (Returned task))) /\
    (forall task answer,
       creation_answers
         (app_trace (run_app h (TaskQueries.createTask taskData userId) w))
         = [Modelled (Returned task); Stored (Returned answer)] ->
       result = if db_success answer
                then done (db_data answer)
                else refused (db_error answer)) /\
    (forall e,
       In (Modelled (Raised e))
          (creation_answers
             (app_trace (run_app h (TaskQueries.createTask taskData userId) w)))
       \/ In (Stored (Raised e))
            (creation_answers
               (app_trace (run_app h (TaskQueries.createTask taskData userId) w))) ->
       result = refused (Some ("创建任务失败: " ++ errorMessage e)%string)).
Proof.
  unfold TaskQueries.createTask, generateId; cbn.
  app_cases.
  all: repeat match goal with
         | |- context [negb (db_success ?a)] =>
             destruct (db_success a) eqn:?; cbn
         end.
  all: eexists; eexists; (split; [reflexivity|]).
  all: (split; [reflexivity|]); (split; [reflexivity|]).
  all: split; [cbn; intros task Hin|split; [cbn; intros task answer Heq|cbn; intros e' Hin]].
  all: repeat match goal with
         | H : _ \/ _ |- _ => destruct H
         | H : False |- _ => destruct H
         | H : _ :: _ = _ :: _ |- _ => injection H as H; intros
         | H : TaskStored _ = TaskStored _ |- _ => injection H as H
         | H : Modelled _ = Modelled _ |- _ => injection H as H
         | H : Stored _ = Stored _ |- _ => injection H as H
         | H : Returned _ = Returned _ |- _ => injection H as H
         | H : Raised _ = Raised _ |- _ => injection H as H
         end; subst; try discriminate; try reflexivity.
  all: match goal with
       | Hok : db_success _ = _ |- _ => rewrite Hok; reflexivity
       end.
Qed.

(** A task created on the site by the visitor: it is theirs, and enabled. *)
Example visitor_creates_a_task :
  map (fun t => (name t, created_by t, enabled t))
    (Memory.tasks
       (Site.store
          (app_world (run_app Site.handler
                        (TaskQueries.createTask Site.new_task "user-e2e-1")
                        (Site.seen_by (Some Site.visitor))))))
    = [("ping", "other-user-id", true); ("health", "user-e2e-1", true)].
Proof. reflexivity. Qed.

(** [getTask] and [listTasks] never throw and make one storage call, a
    read.  They hand on the answer of storage as it is (a success without
    data stays a success), and turn a thrown error into a failure with
    their message. *)
Theorem lookups_hand_on {W : Type} (h : AppHandler W) (w : W)
    (taskId : string) (filter : option TaskFilter) :
  (exists result,
     app_outcome (run_app h (TaskQueries.getTask taskId) w) = Returned result /\
     storage_calls
       (core_events (app_trace (run_app h (TaskQueries.getTask taskId) w)))
       = [TaskRead taskId] /\
     app_calls (app_trace (run_app h (TaskQueries.getTask taskId) w)) = [] /\
     result
       = match fst (on_ext (below h) (DatabaseUtils_getTaskById taskId) w) with
         | Returned answer => TaskQueries.handed_on answer
         | Raised e =>
             refused (Some ("获取任务失败: " ++ errorMessage e)%string)
         end) /\
  (exists result,
     app_outcome (run_app h (TaskQueries.listTasks filter) w) = Returned result /\
     core_events (app_trace (run_app h (TaskQueries.listTasks filter) w)) = [] /\
     app_calls (app_trace (run_app h (TaskQueries.listTasks filter) w))
       = [TasksListed filter] /\
     result
       = match fst (on_app h (DatabaseUtils_getAllTasks filter) w) with
         | Returned answer => TaskQueries.handed_on answer
         | Raised e =>
             refused (Some ("获取任务列表失败: " ++ errorMessage e)%string)
         end).
Proof.
  unfold TaskQueries.getTask, TaskQueries.listTasks; cbn.
  app_cases.
  all: split; eexists; repeat split.
Qed.

Lemma count_status_split (logs : list StoredLog) :
  (TaskQueries.count_status success logs
   + TaskQueries.count_status failure logs)%nat = List.length logs.
Proof.
  unfold TaskQueries.count_status.
  induction logs as [|l logs IH]; simpl; [reflexivity|].
  destruct (stored_status l); simpl; lia.
Qed.

Lemma responseTimes_length (logs : list StoredLog) :
  (List.length (TaskQueries.responseTimes logs) <= List.length logs)%nat.
Proof.
  induction logs as [|l logs IH]; simpl; [lia|].
  destruct (log_response_time (entry l)); simpl; lia.
Qed.

(** The statistics of a history.  Every log counts once, as a success or
    as a failure, so the two counts add up to the total; the last execution
    is the time of the first log storage returned, and absent for an empty
    history; the average is 0 when no log has a response time.  Storage is
    asked once, for the 1000 newest logs of the task, and nothing else is
    called. *)
Theorem statistics_of_a_history {W : Type} (h : AppHandler W) (w : W)
    (Math_round_quotient : Z -> nat -> Z) (taskId : string)
    (answer : DbResult (list StoredLog)) (logs : list StoredLog) :
  fst (on_app h (DatabaseUtils_getExecutionLogsByTaskId taskId 1000) w)
    = Returned answer ->
  db_success answer = true ->
  db_data answer = Some logs ->
  exists stats,
    app_outcome (run_app h
                   (TaskQueries.getTaskStatistics Math_round_quotient taskId) w)
      = Returned (done (Some stats)) /\
    app_calls (app_trace (run_app h
                 (TaskQueries.getTaskStatistics Math_round_quotient taskId) w))
      = [LogsQueried taskId 1000] /\
    core_events (app_trace (run_app h
                   (TaskQueries.getTaskStatistics Math_round_quotient taskId) w))
      = [] /\
    totalExecutions stats = List.length logs /\
    (successCount stats + failureCount stats)%nat = totalExecutions stats /\
    lastExecution stats = option_map execution_time (hd_error logs) /\
    (logs = [] ->
     stats = {| totalExecutions := 0; successCount := 0; failureCount := 0;
                averageResponseTime := 0; lastExecution := None |}) /\
    (TaskQueries.responseTimes logs = [] -> averageResponseTime stats = 0) /\
    (TaskQueries.responseTimes logs <> [] ->
     averageResponseTime stats
       = Math_round_quotient (TaskQueries.total (TaskQueries.responseTimes logs))
           (List.length (TaskQueries.responseTimes logs))).
Proof.
  intros Hanswer Hok Hdata.
  unfold TaskQueries.getTaskStatistics; cbn.
  destruct (on_app h (DatabaseUtils_getExecutionLogsByTaskId taskId 1000) w)
    as [o w'].
  cbn in Hanswer; subst o; cbn.
  rewrite Hok, Hdata; cbn.
  eexists; split; [reflexivity|]. cbn.
  repeat split.
  - apply count_status_split.
  - destruct logs; reflexivity.
  - intros ->. reflexivity.
  - intros ->. reflexivity.
  - intros Hne. destruct (TaskQueries.responseTimes logs);
      [congruence|reflexivity].
Qed.

(** The statistics of [ping] on the site: three runs, two of them failed,
    the newest at 3000. *)
Lemma statistics_of_ping :
  exists stats,
    app_outcome (run_app Site.handler
                   (TaskQueries.getTaskStatistics TaskQueries.rounded_quotient
                      "task-fail-1")
                   (Site.seen_by None))
      = Returned (done (Some stats)) /\
    totalExecutions stats = 3%nat /\
    successCount stats = 1%nat /\
    failureCount stats = 2%nat /\
    averageResponseTime stats = 100 /\
    lastExecution stats = Some 3000.
Proof.
  destruct (statistics_of_a_history Site.handler (Site.seen_by None)
              TaskQueries.rounded_quotient "task-fail-1"
              (Memory.found_row
                 (Some (getExecutionLogsByTaskId Memory.recovered
                          "task-fail-1" 1000)))
              (getExecutionLogsByTaskId Memory.recovered "task-fail-1" 1000)
              eq_refl eq_refl eq_refl)
    as [stats [Hout _]].
  exists stats. split; [exact Hout|].
  cbn in Hout. injection Hout as <-. repeat split.
Defined.

(** [getTaskStatistics] never throws, and asks storage once.  When storage
    answers without success or without data the result is the failure
    "获取执行日志失败"; when it throws, the failure carries the thrown
    message. *)
Theorem statistics_failures {W : Type} (h : AppHandler W) (w : W)
    (Math_round_quotient : Z -> nat -> Z) (taskId : string) :
  exists result,
    app_outcome (run_app h
                   (TaskQueries.getTaskStatistics Math_round_quotient taskId) w)
      = Returned result /\
    app_calls (app_trace (run_app h
                 (TaskQueries.getTaskStatistics Math_round_quotient taskId) w))
      = [LogsQueried taskId 1000] /\
    (forall answer,
       fst (on_app h (DatabaseUtils_getExecutionLogsByTaskId taskId 1000) w)
         = Returned answer ->
       db_success answer = false \/ db_data answer = None ->
       result = refused (Some "获取执行日志失败")) /\
    (forall e,
       fst (on_app h (DatabaseUtils_getExecutionLogsByTaskId taskId 1000) w)
         = Raised e ->
       result
         = refused (Some ("获取任务统计失败: " ++ errorMessage e)%string)).
Proof.
  unfold TaskQueries.getTaskStatistics; cbn.
  destruct (on_app h (DatabaseUtils_getExecutionLogsByTaskId taskId 1000) w)
    as [[answer|e] w']; cbn.
  - destruct (db_success answer) eqn:Hok; cbn.
    + destruct (db_data answer) as [logs|] eqn:Hdata; cbn.
      * eexists; repeat split; settle.
        destruct H0; congruence.
      * eexists; repeat split; settle.
    + eexists; repeat split; settle.
  - eexists; repeat split; settle.
Qed.

Lemma total_from (times : list Z) (start : Z) :
  fold_left Z.add times start = start + TaskQueries.total times.
Proof.
  unfold TaskQueries.total.
  revert start; induction times as [|t times IH]; intros start; simpl;
    [lia|].
  rewrite IH, (IH t). lia.
Qed.

(** The sum of samples that lie between two bounds. *)
Lemma total_bounds (times : list Z) (lo hi : Z) :
  (forall t, In t times -> lo <= t <= hi) ->
  Z.of_nat (List.length times) * lo <= TaskQueries.total times
    <= Z.of_nat (List.length times) * hi.
Proof.
  induction times as [|t times IH]; intros Hall.
  - unfold TaskQueries.total; simpl; lia.
  - unfold TaskQueries.total; simpl fold_left. rewrite total_from.
    assert (Ht : lo <= t <= hi) by (apply Hall; left; reflexivity).
    assert (Hrest : Z.of_nat (List.length times) * lo
                    <= TaskQueries.total times
                    <= Z.of_nat (List.length times) * hi).
    { apply IH. intros t' Hin. apply Hall. right; exact Hin. }
    simpl List.length. rewrite Nat2Z.inj_succ. lia.
Qed.

(** Rounding a quotient to the nearest integer keeps it within integer
    bounds of the quotient. *)
Lemma rounded_quotient_within (sum : Z) (n : nat) (lo hi : Z) :
  (0 < n)%nat ->
  Z.of_nat n * lo <= sum <= Z.of_nat n * hi ->
  lo <= TaskQueries.rounded_quotient sum n <= hi.
Proof.
  intros Hn [Hlo Hhi]. unfold TaskQueries.rounded_quotient.
  assert (Hpos : 0 < 2 * Z.of_nat n) by lia.
  split.
  - apply Z.div_le_lower_bound; [exact Hpos|]. lia.
  - apply Z.lt_succ_r, Z.div_lt_upper_bound; [exact Hpos|]. lia.
Qed.

(** The average response time lies between the smallest and the largest
    response time of the logs that have one; logs without a response time
    do not pull it towards zero.  This is for samples that are not
    negative and whose sum does not exceed 2^53, where the sum of the
    doubles is the sum of the integers, and for any rounding that on this
    range keeps a quotient within its integer bounds, as rounding to the
    nearest integer does. *)
Theorem average_within_samples {W : Type} (h : AppHandler W) (w : W)
    (Math_round_quotient : Z -> nat -> Z) (taskId : string)
    (answer : DbResult (list StoredLog)) (logs : list StoredLog)
    (lo hi : Z) :
  (forall sum n a b,
     (0 < n)%nat ->
     0 <= a ->
     sum <= 2 ^ 53 ->
     Z.of_nat n * a <= sum <= Z.of_nat n * b ->
     a <= Math_round_quotient sum n <= b) ->
  fst (on_app h (DatabaseUtils_getExecutionLogsByTaskId taskId 1000) w)
    = Returned answer ->
  db_success answer = true ->
  db_data answer = Some logs ->
  TaskQueries.responseTimes logs <> [] ->
  (forall t, In t (TaskQueries.responseTimes logs) -> lo <= t <= hi) ->
  0 <= lo ->
  TaskQueries.total (TaskQueries.responseTimes logs) <= 2 ^ 53 ->
  exists stats,
    app_outcome (run_app h
                   (TaskQueries.getTaskStatistics Math_round_quotient taskId) w)
      = Returned (done (Some stats)) /\
    lo <= averageResponseTime stats <= hi.
Proof.
  intros Hround Hanswer Hok Hdata Hsome Hall Hlo Hsum.
  unfold TaskQueries.getTaskStatistics; cbn.
  destruct (on_app h (DatabaseUtils_getExecutionLogsByTaskId taskId 1000) w)
    as [o w'].
  cbn in Hanswer; subst o; cbn.
  rewrite Hok, Hdata; cbn.
  eexists; split; [reflexivity|]. cbn.
  destruct (TaskQueries.responseTimes logs) as [|t times] eqn:Htimes;
    [congruence|].
  apply Hround; [simpl; lia|exact Hlo|exact Hsum|].
  apply total_bounds, Hall.
Qed.

(** Samples of 80 and 121 ms beside a log without response time: the
    average, 101 after rounding, lies between them. *)
Lemma average_of_two_samples :
  exists stats,
    app_outcome
      (run_app Site.handler
         (TaskQueries.getTaskStatistics TaskQueries.rounded_quotient
            "task-slow-1")
         Site.sampled)
      = Returned (done (Some stats)) /\
    80 <= averageResponseTime stats <= 121.
Proof.
  apply (average_within_samples Site.handler Site.sampled
           TaskQueries.rounded_quotient "task-slow-1"
           (Memory.found_row
              (Some (getExecutionLogsByTaskId Site.samples "task-slow-1" 1000)))
           (getExecutionLogsByTaskId Site.samples "task-slow-1" 1000)
           80 121).
  - intros sum n a b Hn _ _ Hbounds.
    exact (rounded_quotient_within sum n a b Hn Hbounds).
  - reflexivity.
  - reflexivity.
  - reflexivity.
  - simpl; discriminate.
  - simpl. intros t [<-|[<-|[]]]; lia.
  - lia.
  - vm_compute. discriminate.
Defined.

Example average_of_two_samples_is_101 :
  option_map averageResponseTime
    (match app_outcome
             (run_app Site.handler
                (TaskQueries.getTaskStatistics TaskQueries.rounded_quotient
                   "task-slow-1")
                Site.sampled) with
     | Returned result => sr_data result
     | Raised _ => None
     end)
    = Some 101.
Proof. reflexivity. Qed.

(* ===================================================================== *)
(** ** The routes *)
(* ===================================================================== *)

(** A program guarded by a [catch] that answers never throws. *)
Lemma guarded_app_returns {W A : Type} (h : AppHandler W) (p : App A)
    (answer : Thrown -> A) (w : W) :
  exists a,
    app_outcome (run_app h (app_try_catch p (fun e => Done (answer e))) w)
      = Returned a.
Proof.
  revert w; induction p as [a|e|X q k IH|X c k IH]; intros w; simpl.
  - exists a; reflexivity.
  - exists (answer e); reflexivity.
  - apply IH.
  - destruct (on_app h c w) as [o w']. apply IH.
Qed.

Ltac open_routes :=
  unfold serve, serve_auth, TaskRoutes.create, TaskRoutes.list,
    TaskRoutes.get, TaskRoutes.update, TaskRoutes.delete, TaskRoutes.toggle,
    TaskRoutes.statistics, AuthRoutes.login, AuthRoutes.register,
    AuthRoutes.refresh, AuthRoutes.me.

(** No route throws: each of the seven task routes and the four
    authentication routes answers with a reply in every environment.  When
    the first call of the route throws (the authentication, the reading of
    the body, the extraction of the token), the reply is the server error
    of the route. *)
Theorem routes_always_reply {W : Type} (h : AppHandler W) (w : W)
    (Math_round_quotient : Z -> nat -> Z) (request : Request)
    (taskId : string) :
  (forall route,
     exists reply,
       app_outcome (run_app h
                      (serve Math_round_quotient route request taskId) w)
         = Returned reply /\
       (forall e,
          thrown_first
            (app_trace (run_app h
                          (serve Math_round_quotient route request taskId) w))
            = Some e ->
          reply = serverError (route_failure route))) /\
  (forall route,
     exists reply,
       app_outcome (run_app h (serve_auth route request) w) = Returned reply /\
       (forall e,
          thrown_first (app_trace (run_app h (serve_auth route request) w))
            = Some e ->
          reply = serverError (auth_route_failure route))).
Proof.
  split; intros route.
  - assert (Hret : exists reply,
               app_outcome (run_app h
                              (serve Math_round_quotient route request taskId) w)
                 = Returned reply)
      by (destruct route; open_routes; apply guarded_app_returns).
    destruct Hret as [reply Hreply]. exists reply. split; [exact Hreply|].
    intros e. revert Hreply.
    destruct route; open_routes; cbn;
      destruct (on_app h (AuthService_authenticateRequest request) w)
        as [[who|e0] w1]; cbn; intros Hreply Hfirst;
      try discriminate Hfirst;
      injection Hreply as <-; reflexivity.
  - assert (Hret : exists reply,
               app_outcome (run_app h (serve_auth route request) w)
                 = Returned reply)
      by (destruct route; open_routes; apply guarded_app_returns).
    destruct Hret as [reply Hreply]. exists reply. split; [exact Hreply|].
    intros e. revert Hreply.
    destruct route; open_routes; cbn;
      match goal with
      | |- context [on_app ?h0 ?c ?w0] =>
          destruct (on_app h0 c w0) as [[first|e0] w1]
      end; cbn; intros Hreply Hfirst;
      try discriminate Hfirst;
      injection Hreply as <-; reflexivity.
Qed.

(** A request that does not authenticate is turned away by every task
    route and by [me] with "未授权": the run consists of the authentication
    call alone, so no body is read and neither service nor storage is
    touched. *)
Theorem unauthenticated_is_turned_away {W : Type} (h : AppHandler W)
    (w w' : W) (Math_round_quotient : Z -> nat -> Z) (request : Request)
    (taskId : string) :
  on_app h (AuthService_authenticateRequest request) w = (Returned None, w') ->
  (forall route,
     run_app h (serve Math_round_quotient route request taskId) w
       = {| app_outcome := Returned (unauthorized (Some "未授权"));
            app_world := w';
            app_trace := [EvApp (AuthService_authenticateRequest request)
                            (Returned None)] |}) /\
  run_app h (AuthRoutes.me request) w
    = {| app_outcome := Returned (unauthorized (Some "未授权"));
         app_world := w';
         app_trace := [EvApp (AuthService_authenticateRequest request)
                         (Returned None)] |}.
Proof.
  intros Hauth.
  split; [intros route; destruct route|]; open_routes; cbn;
    rewrite Hauth; reflexivity.
Qed.

(** Nobody is signed in on the site: the update route changes nothing. *)
Lemma anonymous_update_is_turned_away :
  run_app Site.handler (TaskRoutes.update Site.plain_request "task-fail-1")
    (Site.seen_by None)
    = {| app_outcome := Returned (unauthorized (Some "未授权"));
         app_world := Site.seen_by None;
         app_trace :=
           [EvApp (AuthService_authenticateRequest Site.plain_request)
              (Returned None)] |}.
Proof.
  destruct (unauthenticated_is_turned_away Site.handler (Site.seen_by None)
              (Site.seen_by None) TaskQueries.rounded_quotient
              Site.plain_request "task-fail-1" eq_refl) as [Hroutes _].
  exact (Hroutes route_update).
Defined.

(** A create request whose body lacks a name, a type, a schedule or a
    config is answered with 400 "缺少必填字段"; the run is the
    authentication and the reading of the body, and the task service is
    not called. *)
Theorem incomplete_task_is_rejected {W : Type} (h : AppHandler W)
    (w w1 w2 : W) (request : Request) (who : User) (body : TaskData) :
  on_app h (AuthService_authenticateRequest request) w
    = (Returned (Some who), w1) ->
  on_app h (request_json_task request) w1 = (Returned body, w2) ->
  td_name body = None \/ td_name body = Some ""%string \/
  td_type body = None \/
  td_schedule body = None \/ td_schedule body = Some ""%string \/
  td_config body = None ->
  run_app h (TaskRoutes.create request) w
    = {| app_outcome := Returned (error_reply "缺少必填字段" 400);
         app_world := w2;
         app_trace := [EvApp (AuthService_authenticateRequest request)
                         (Returned (Some who));
                       EvApp (request_json_task request) (Returned body)] |}.
Proof.
  intros Hauth Hbody Hlacks.
  assert (Hl : TaskRoutes.lacks_required body = true).
  { unfold TaskRoutes.lacks_required.
    destruct Hlacks as [H|[H|[H|[H|[H|H]]]]]; rewrite H; simpl;
      rewrite ?orb_true_r; reflexivity. }
  open_routes; cbn. rewrite Hauth; cbn. rewrite Hbody; cbn.
  rewrite Hl. reflexivity.
Qed.

(** A complete body passes the check and reaches the task service with
    the caller as creator. *)
Theorem complete_task_reaches_the_service {W : Type} (h : AppHandler W)
    (w w1 w2 : W) (request : Request) (who : User) (body : TaskData) :
  on_app h (AuthService_authenticateRequest request) w
    = (Returned (Some who), w1) ->
  on_app h (request_json_task request) w1 = (Returned body, w2) ->
  truthy (td_name body) = true ->
  td_type body <> None ->
  truthy (td_schedule body) = true ->
  td_config body <> None ->
  exists newId rest,
    app_calls (app_trace (run_app h (TaskRoutes.create request) w))
      = Authenticated request :: BodyRead request
        :: ModelCreated
             {| d_id := newId;
                d_name := td_name body;
                d_type := td_type body;
                d_schedule := td_schedule body;
                d_config := td_config body;
                d_created_by := u_id who;
                d_enabled := match td_enabled body with
                             | Some b => b
                             | None => true
                             end |}
        :: rest /\
    (forall task answer,
       creation_answers (app_trace (run_app h (TaskRoutes.create request) w))
         = [Modelled (Returned task); Stored (Returned answer)] ->
       app_outcome (run_app h (TaskRoutes.create request) w)
         = Returned (if db_success answer
                     then json_data (task_data (db_data answer)) 201
                     else error_reply
                            (or_default (db_error answer) "创建任务失败") 400)).
Proof.
  intros Hauth Hbody Hname Htype Hschedule Hconfig.
  assert (Hl : TaskRoutes.lacks_required body = false).
  { unfold TaskRoutes.lacks_required. rewrite Hname, Hschedule.
    destruct (td_type body); [|congruence].
    destruct (td_config body); [|congruence]. reflexivity. }
  open_routes; unfold TaskQueries.createTask, generateId; cbn.
  rewrite Hauth; cbn. rewrite Hbody; cbn. rewrite Hl; cbn.
  app_cases.
  all: repeat match goal with
         | |- context [negb (db_success ?a)] =>
             destruct (db_success a) eqn:?; cbn
         end.
  all: eexists; eexists; (split; [reflexivity|]).
  all: cbn; intros task answer Heq; try discriminate Heq.
  all: injection Heq as <- <-.
  all: match goal with
       | Hok : db_success _ = _ |- _ => rewrite Hok
       end; reflexivity.
Qed.

(** The visitor creates a task on the site and gets it back with 201. *)
Lemma visitor_is_answered_201 :
  exists task,
    app_outcome (run_app Site.handler (TaskRoutes.create Site.plain_request)
                   (Site.seen_by (Some Site.visitor)))
      = Returned (json_data (task_data (Some task)) 201) /\
    created_by task = "user-e2e-1" /\
    enabled task = true.
Proof.
  assert (Htype : td_type Site.new_task <> None) by (simpl; discriminate).
  assert (Hconfig : td_config Site.new_task <> None) by (simpl; discriminate).
  destruct (complete_task_reaches_the_service Site.handler
              (Site.seen_by (Some Site.visitor))
              (Site.seen_by (Some Site.visitor))
              (Site.seen_by (Some Site.visitor))
              Site.plain_request Site.visitor Site.new_task
              eq_refl eq_refl eq_refl Htype eq_refl Hconfig)
    as [newId [rest [_ Hreply]]].
  specialize (Hreply _ _ eq_refl). cbn in Hreply.
  eexists. split; [exact Hreply|]. split; reflexivity.
Defined.

Lemma nameless_task_is_rejected :
  app_outcome
    (run_app Site.handler (TaskRoutes.create Site.plain_request)
       (Site.nameless (Some Site.visitor)))
    = Returned (error_reply "缺少必填字段" 400) /\
  Memory.tasks
    (Site.store
       (app_world (run_app Site.handler
                     (TaskRoutes.create Site.plain_request)
                     (Site.nameless (Some Site.visitor)))))
    = [Memory.ping].
Proof.
  rewrite (incomplete_task_is_rejected Site.handler
             (Site.nameless (Some Site.visitor))
             (Site.nameless (Some Site.visitor))
             (Site.nameless (Some Site.visitor))
             Site.plain_request Site.visitor Site.unnamed_task
             eq_refl eq_refl (or_intror (or_introl eq_refl))).
  split; reflexivity.
Defined.

(** The routes that change a task, called by someone who is not its
    creator: each answers 400 with the permission error of its operation,
    and the only storage call of the run is the read of the task. *)
Theorem change_by_another_user_is_400 {W : Type} (h : AppHandler W)
    (w w1 : W) (Math_round_quotient : Z -> nat -> Z) (c : ChangeRoute)
    (request : Request) (taskId : string) (who : User)
    (existingResult : DbResult Task) (existing : Task) :
  on_app h (AuthService_authenticateRequest request) w
    = (Returned (Some who), w1) ->
  body_was_read h c request w1 ->
  fst (on_ext (below h) (DatabaseUtils_getTaskById taskId)
         (service_world h c request w1)) = Returned existingResult ->
  found existingResult = Some existing ->
  created_by existing <> u_id who ->
  app_outcome (run_app h
                 (serve Math_round_quotient (change_route c) request taskId) w)
    = Returned (error_reply (permission_error c) 400) /\
  storage_calls
    (core_events
       (app_trace (run_app h
                     (serve Math_round_quotient (change_route c) request taskId)
                     w)))
    = [TaskRead taskId].
Proof.
  intros Hauth Hbody Hread Hfound Hother.
  apply String.eqb_neq in Hother.
  destruct c; open_routes; open_management; cbn in *; rewrite Hauth; cbn.
  - destruct Hbody as [body Hbody].
    destruct (on_app h (request_json_patch request) w1) as [o w2].
    cbn in Hbody, Hread; subst o; cbn.
    destruct (on_ext (below h) (DatabaseUtils_getTaskById taskId) w2)
      as [o w3].
    cbn in Hread; subst o; cbn.
    rewrite Hfound; cbn. rewrite Hother; cbn. split; reflexivity.
  - destruct (on_ext (below h) (DatabaseUtils_getTaskById taskId) w1)
      as [o w3].
    cbn in Hread; subst o; cbn.
    rewrite Hfound; cbn. rewrite Hother; cbn. split; reflexivity.
  - destruct (on_ext (below h) (DatabaseUtils_getTaskById taskId) w1)
      as [o w3].
    cbn in Hread; subst o; cbn.
    rewrite Hfound; cbn. rewrite Hother; cbn. split; reflexivity.
Qed.

(** The visitor tries to delete [ping], which is not theirs. *)
Lemma visitor_may_not_delete_ping :
  app_outcome (run_app Site.handler
                 (TaskRoutes.delete Site.plain_request "task-fail-1")
                 (Site.seen_by (Some Site.visitor)))
    = Returned (error_reply "无权限删除此任务" 400) /\
  storage_calls
    (core_events
       (app_trace (run_app Site.handler
                     (TaskRoutes.delete Site.plain_request "task-fail-1")
                     (Site.seen_by (Some Site.visitor)))))
    = [TaskRead "task-fail-1"].
Proof.
  apply (change_by_another_user_is_400 Site.handler
           (Site.seen_by (Some Site.visitor))
           (Site.seen_by (Some Site.visitor))
           TaskQueries.rounded_quotient change_delete
           Site.plain_request "task-fail-1" Site.visitor
           (Memory.found_row (Some Memory.ping)) Memory.ping).
  - reflexivity.
  - exact I.
  - reflexivity.
  - reflexivity.
  - simpl; discriminate.
Defined.

(** The same routes on a task that storage does not have: each answers
    404 "任务不存在", again after the read alone. *)
Theorem change_of_missing_task_is_404 {W : Type} (h : AppHandler W)
    (w w1 : W) (Math_round_quotient : Z -> nat -> Z) (c : ChangeRoute)
    (request : Request) (taskId : string) (who : User)
    (existingResult : DbResult Task) :
  on_app h (AuthService_authenticateRequest request) w
    = (Returned (Some who), w1) ->
  body_was_read h c request w1 ->
  fst (on_ext (below h) (DatabaseUtils_getTaskById taskId)
         (service_world h c request w1)) = Returned existingResult ->
  found existingResult = None ->
  app_outcome (run_app h
                 (serve Math_round_quotient (change_route c) request taskId) w)
    = Returned (error_reply "任务不存在" 404) /\
  storage_calls
    (core_events
       (app_trace (run_app h
                     (serve Math_round_quotient (change_route c) request taskId)
                     w)))
    = [TaskRead taskId].
Proof.
  intros Hauth Hbody Hread Hfound.
  destruct c; open_routes; open_management; cbn in *; rewrite Hauth; cbn.
  - destruct Hbody as [body Hbody].
    destruct (on_app h (request_json_patch request) w1) as [o w2].
    cbn in Hbody, Hread; subst o; cbn.
    destruct (on_ext (below h) (DatabaseUtils_getTaskById taskId) w2)
      as [o w3].
    cbn in Hread; subst o; cbn.
    rewrite Hfound; cbn. split; reflexivity.
  - destruct (on_ext (below h) (DatabaseUtils_getTaskById taskId) w1)
      as [o w3].
    cbn in Hread; subst o; cbn.
    rewrite Hfound; cbn. split; reflexivity.
  - destruct (on_ext (below h) (DatabaseUtils_getTaskById taskId) w1)
      as [o w3].
    cbn in Hread; subst o; cbn.
    rewrite Hfound; cbn. split; reflexivity.
Qed.

Lemma update_of_unknown_task_is_404 :
  app_outcome (run_app Site.handler
                 (TaskRoutes.update Site.plain_request "no-such-task")
                 (Site.seen_by (Some Site.visitor)))
    = Returned (error_reply "任务不存在" 404) /\
  storage_calls
    (core_events
       (app_trace (run_app Site.handler
                     (TaskRoutes.update Site.plain_request "no-such-task")
                     (Site.seen_by (Some Site.visitor)))))
    = [TaskRead "no-such-task"].
Proof.
  apply (change_of_missing_task_is_404 Site.handler
           (Site.seen_by (Some Site.visitor))
           (Site.seen_by (Some Site.visitor))
           TaskQueries.rounded_quotient change_update
           Site.plain_request "no-such-task" Site.visitor
           (Memory.found_row None)).
  - reflexivity.
  - exists Site.rename; reflexivity.
  - reflexivity.
  - reflexivity.
Defined.

(** The [get] route looks no further than the authentication: whoever is
    signed in is given the task that storage returns, whoever created it.
    A successful answer without a task is a 404, a failed one a server
    error with the error of storage. *)
Theorem get_route_replies {W : Type} (h : AppHandler W) (w w1 : W)
    (request : Request) (taskId : string) (who : User)
    (answer : DbResult Task) :
  on_app h (AuthService_authenticateRequest request) w
    = (Returned (Some who), w1) ->
  fst (on_ext (below h) (DatabaseUtils_getTaskById taskId) w1)
    = Returned answer ->
  app_outcome (run_app h (TaskRoutes.get request taskId) w)
    = Returned
        (if db_success answer
         then match db_data answer with
              | Some task => json_data (task_data (Some task)) 200
              | None => notFound "任务不存在"
              end
         else serverError (or_default (db_error answer) "获取任务失败")) /\
  storage_calls
    (core_events (app_trace (run_app h (TaskRoutes.get request taskId) w)))
    = [TaskRead taskId].
Proof.
  intros Hauth Hread.
  open_routes; unfold TaskQueries.getTask; cbn. rewrite Hauth; cbn.
  destruct (on_ext (below h) (DatabaseUtils_getTaskById taskId) w1) as [o w2].
  cbn in Hread; subst o; cbn.
  destruct (db_success answer); cbn; [|split; reflexivity].
  destruct (db_data answer); cbn; split; reflexivity.
Qed.

(** The visitor reads [ping], a task of another user. *)
Lemma visitor_reads_ping :
  app_outcome (run_app Site.handler
                 (TaskRoutes.get Site.plain_request "task-fail-1")
                 (Site.seen_by (Some Site.visitor)))
    = Returned (json_data (task_data (Some Memory.ping)) 200) /\
  created_by Memory.ping <> u_id Site.visitor.
Proof.
  destruct (get_route_replies Site.handler
              (Site.seen_by (Some Site.visitor))
              (Site.seen_by (Some Site.visitor))
              Site.plain_request "task-fail-1" Site.visitor
              (Memory.found_row (Some Memory.ping)) eq_refl eq_refl)
    as [Hreply _].
  split; [exact Hreply|simpl; discriminate].
Defined.

(** The [list] route asks storage for the tasks that match the query and
    never restricts them to the caller's own.  The [type] parameter
    filters when it is not empty; the [enabled] parameter filters whenever
    it is present, for enabled tasks only when it is exactly "true". *)
Theorem list_route_filter {W : Type} (h : AppHandler W) (w w1 : W)
    (request : Request) (who : User) :
  on_app h (AuthService_authenticateRequest request) w
    = (Returned (Some who), w1) ->
  exists filter,
    app_calls (app_trace (run_app h (TaskRoutes.list request) w))
      = [Authenticated request; TasksListed (Some filter)] /\
    core_events (app_trace (run_app h (TaskRoutes.list request) w)) = [] /\
    f_created_by filter = None /\
    (f_type filter = None <->
     query_type request = None \/ query_type request = Some ""%string) /\
    (forall t, f_type filter = Some t -> query_type request = Some t) /\
    (f_enabled filter = None <-> query_enabled request = None) /\
    (f_enabled filter = Some true <-> query_enabled request = Some "true"%string) /\
    (forall answer,
       fst (on_app h (DatabaseUtils_getAllTasks (Some filter)) w1)
         = Returned answer ->
       app_outcome (run_app h (TaskRoutes.list request) w)
         = Returned
             (if db_success answer
              then json_data (tasks_data (db_data answer)) 200
              else serverError
                     (or_default (db_error answer) "获取任务列表失败"))).
Proof.
  intros Hauth.
  exists (TaskRoutes.query_filter request).
  open_routes; unfold TaskQueries.listTasks; cbn. rewrite Hauth; cbn.
  destruct (on_app h (DatabaseUtils_getAllTasks
                        (Some (TaskRoutes.query_filter request))) w1)
    as [[answer|e] w2]; cbn.
  all: repeat match goal with
         | |- context [negb (db_success ?a)] =>
             destruct (db_success a) eqn:?; cbn
         end.
  all: split; [reflexivity|]; split; [reflexivity|]; split; [reflexivity|].
  all: unfold TaskRoutes.query_filter; cbn.
  all: destruct (query_type request) as [[|c s]|];
    destruct (query_enabled request) as [v|]; cbn.
  all: repeat split; intros;
    repeat match goal with
           | H : _ \/ _ |- _ => destruct H
           | H : Some _ = Some _ |- _ => injection H as H
           | H : Returned _ = Returned _ |- _ => injection H as H
           end; subst; try discriminate; try congruence; auto.
  all: try (f_equal; apply String.eqb_eq; assumption).
  all: try (f_equal; apply String.eqb_refl).
  all: try match goal with
           | Hok : db_success _ = _ |- _ => rewrite Hok; reflexivity
           end.
Qed.

(** On the site the visitor lists tasks with [?enabled=1]: the filter asks
    for disabled tasks, of any creator. *)
Lemma visitor_lists_tasks :
  exists filter,
    app_calls (app_trace (run_app Site.handler
                            (TaskRoutes.list Site.enabled_1)
                            (Site.seen_by (Some Site.visitor))))
      = [Authenticated Site.enabled_1; TasksListed (Some filter)] /\
    f_created_by filter = None /\
    f_enabled filter = Some false.
Proof.
  destruct (list_route_filter Site.handler
              (Site.seen_by (Some Site.visitor))
              (Site.seen_by (Some Site.visitor))
              Site.enabled_1 Site.visitor eq_refl)
    as [filter [Hcalls [_ [Hany _]]]].
  exists filter. split; [exact Hcalls|]. split; [exact Hany|].
  cbn in Hcalls. injection Hcalls as <-. reflexivity.
Defined.

(** [login] and [register] check the body before anything else: without a
    user name or without a password (absent or empty) the reply is 400
    "用户名和密码不能为空", and the authentication service is not called. *)
Theorem credentials_are_required {W : Type} (h : AppHandler W) (w w1 : W)
    (request : Request) (body : Credentials) :
  on_app h (request_json_credentials request) w = (Returned body, w1) ->
  c_username body = None \/ c_username body = Some ""%string \/
  c_password body = None \/ c_password body = Some ""%string ->
  run_app h (AuthRoutes.login request) w
    = {| app_outcome := Returned (error_reply "用户名和密码不能为空" 400);
         app_world := w1;
         app_trace := [EvApp (request_json_credentials request)
                         (Returned body)] |} /\
  run_app h (AuthRoutes.register request) w
    = {| app_outcome := Returned (error_reply "用户名和密码不能为空" 400);
         app_world := w1;
         app_trace := [EvApp (request_json_credentials request)
                         (Returned body)] |}.
Proof.
  intros Hbody Hlacks.
  assert (Hl : AuthRoutes.lacks_credentials body = true).
  { unfold AuthRoutes.lacks_credentials.
    destruct Hlacks as [H|[H|[H|H]]]; rewrite H; simpl;
      rewrite ?orb_true_r; reflexivity. }
  open_routes; cbn. rewrite Hbody; cbn. rewrite Hl. split; reflexivity.
Qed.

(** A login without password on the site. *)
Lemma login_without_password :
  app_outcome (run_app Site.handler (AuthRoutes.login Site.plain_request)
                 (Site.seen_by None))
    = Returned (error_reply "用户名和密码不能为空" 400) /\
  app_calls (app_trace (run_app Site.handler
                          (AuthRoutes.login Site.plain_request)
                          (Site.seen_by None)))
    = [BodyRead Site.plain_request].
Proof.
  destruct (credentials_are_required Site.handler (Site.seen_by None)
              (Site.seen_by None) Site.plain_request
              {| c_username := Some "e2euser"; c_password := None;
                 c_role := None |}
              eq_refl (or_intror (or_intror (or_introl eq_refl))))
    as [Hlogin _].
  rewrite Hlogin. split; reflexivity.
Defined.

(** With both credentials there, [login] and [register] hand them to the
    authentication service as they are and answer by its result: a failed
    login is "unauthorized" with the service's error, a failed
    registration a 400 with the service's error or "注册失败"; a success is
    answered with the token and the user, 200 for a login and 201 for a
    registration. *)
Theorem credentials_are_answered {W : Type} (h : AppHandler W) (w w1 : W)
    (request : Request) (body : Credentials) :
  on_app h (request_json_credentials request) w = (Returned body, w1) ->
  truthy (c_username body) = true ->
  truthy (c_password body) = true ->
  (app_calls (app_trace (run_app h (AuthRoutes.login request) w))
     = [BodyRead request; LoggedIn (c_username body) (c_password body)] /\
   forall result,
     fst (on_app h (AuthService_authenticate (c_username body)
                      (c_password body)) w1) = Returned result ->
     app_outcome (run_app h (AuthRoutes.login request) w)
       = Returned (if auth_success result
                   then json_data (session_data (auth_token result)
                                     (auth_user result)) 200
                   else unauthorized (auth_error result))) /\
  (app_calls (app_trace (run_app h (AuthRoutes.register request) w))
     = [BodyRead request;
        Registered (c_username body) (c_password body) (c_role body)] /\
   forall result,
     fst (on_app h (AuthService_register (c_username body)
                      (c_password body) (c_role body)) w1) = Returned result ->
     app_outcome (run_app h (AuthRoutes.register request) w)
       = Returned (if auth_success result
                   then json_data (session_data (auth_token result)
                                     (auth_user result)) 201
                   else error_reply
                          (or_default (auth_error result) "注册失败") 400)).
Proof.
  intros Hbody Hname Hpassword.
  assert (Hl : AuthRoutes.lacks_credentials body = false).
  { unfold AuthRoutes.lacks_credentials. rewrite Hname, Hpassword.
    reflexivity. }
  open_routes; cbn. rewrite Hbody; cbn. rewrite Hl; cbn.
  app_cases.
  all: repeat match goal with
         | |- context [negb (auth_success ?a)] =>
             destruct (auth_success a) eqn:?; cbn
         end.
  all: repeat split; intros result Hresult; try discriminate Hresult.
  all: injection Hresult as <-.
  all: match goal with
       | Hok : auth_success _ = _ |- _ => rewrite Hok
       end; reflexivity.
Qed.

(** A login that the service refuses, on the site. *)
Lemma refused_login :
  app_outcome (run_app Site.handler (AuthRoutes.login Site.plain_request)
                 Site.knocking)
    = Returned (unauthorized (Some "用户名或密码错误")).
Proof.
  destruct (credentials_are_answered Site.handler Site.knocking Site.knocking
              Site.plain_request
              {| c_username := Some "e2euser"; c_password := Some "guess";
                 c_role := None |}
              eq_refl eq_refl eq_refl) as [[_ Hlogin] _].
  exact (Hlogin _ eq_refl).
Defined.

(** [refresh] answers "缺少认证令牌" when the request carries no token, and
    then does not call the service; "令牌刷新失败" when the service gives no
    new token; and otherwise 200 with the new token. *)
Theorem refresh_route_replies {W : Type} (h : AppHandler W) (w w1 : W)
    (request : Request) (token : option string) :
  on_app h (AuthService_extractTokenFromRequest request) w
    = (Returned token, w1) ->
  (truthy token = false ->
   run_app h (AuthRoutes.refresh request) w
     = {| app_outcome := Returned (unauthorized (Some "缺少认证令牌"));
          app_world := w1;
          app_trace := [EvApp (AuthService_extractTokenFromRequest request)
                          (Returned token)] |}) /\
  (truthy token = true ->
   app_calls (app_trace (run_app h (AuthRoutes.refresh request) w))
     = [TokenExtracted request; TokenRefreshed token] /\
   forall newToken,
     fst (on_app h (AuthService_refreshToken token) w1) = Returned newToken ->
     app_outcome (run_app h (AuthRoutes.refresh request) w)
       = Returned (if truthy newToken
                   then json_data (token_data newToken) 200
                   else unauthorized (Some "令牌刷新失败"))).
Proof.
  intros Htoken.
  open_routes; cbn. rewrite Htoken; cbn.
  split; intros Ht; rewrite Ht; cbn; [reflexivity|].
  app_cases.
  all: repeat match goal with
         | |- context [negb (truthy ?a)] =>
             destruct (truthy a) eqn:?; cbn
         end.
  all: split; [reflexivity|].
  all: intros newToken Hnew; try discriminate Hnew.
  all: injection Hnew as <-.
  all: match goal with
       | Hok : truthy _ = _ |- _ => rewrite Hok
       end; reflexivity.
Qed.

(** A request without token on the site. *)
Lemma refresh_without_token :
  run_app Site.handler (AuthRoutes.refresh Site.plain_request)
    (Site.seen_by None)
    = {| app_outcome := Returned (unauthorized (Some "缺少认证令牌"));
         app_world := Site.seen_by None;
         app_trace :=
           [EvApp (AuthService_extractTokenFromRequest Site.plain_request)
              (Returned None)] |}.
Proof.
  destruct (refresh_route_replies Site.handler (Site.seen_by None)
              (Site.seen_by None) Site.plain_request None eq_refl)
    as [Hnone _].
  exact (Hnone eq_refl).
Defined.

(* ===================================================================== *)
(** ** The migration of the execution logs *)
(* ===================================================================== *)

(** Every row falls under exactly one of the three [INSERT]s. *)
Lemma one_insert_per_row (r : LogMigration.OldRow) :
  (LogMigration.is_task_log r = true /\
   LogMigration.is_system_log r = false /\
   LogMigration.is_audit_log r = false) \/
  (LogMigration.is_task_log r = false /\
   LogMigration.is_system_log r = true /\
   LogMigration.is_audit_log r = false) \/
  (LogMigration.is_task_log r = false /\
   LogMigration.is_system_log r = false /\
   LogMigration.is_audit_log r = true).
Proof.
  unfold LogMigration.is_task_log, LogMigration.is_system_log,
    LogMigration.is_audit_log.
  destruct (String.eqb (LogMigration.old_task_id r) "system_error") eqn:Hs.
  - apply String.eqb_eq in Hs. rewrite Hs. right; left. repeat split.
  - destruct (String.eqb (LogMigration.old_task_id r) "audit_log");
      [right; right|left]; repeat split.
Qed.

Lemma migrate_cons (r : LogMigration.OldRow) (rows : list LogMigration.OldRow) :
  Permutation
    (map LogMigration.new_content (LogMigration.migrate (r :: rows)))
    (LogMigration.old_content r
     :: map LogMigration.new_content (LogMigration.migrate rows)).
Proof.
  unfold LogMigration.migrate; cbn [filter].
  destruct (one_insert_per_row r) as [[Ht [Hs Ha]]|[[Ht [Hs Ha]]|[Ht [Hs Ha]]]];
    rewrite Ht, Hs, Ha; cbn [map]; rewrite !map_app; cbn [map].
  - reflexivity.
  - symmetry. apply Permutation_middle.
  - symmetry. rewrite !app_assoc. apply Permutation_middle.
Qed.

(** The three [INSERT]s together move every row, once. *)
Lemma migrate_permutes_rows (rows : list LogMigration.OldRow) :
  Permutation (map LogMigration.new_content (LogMigration.migrate rows))
    (map LogMigration.old_content rows).
Proof.
  induction rows as [|r rows IH]; [reflexivity|].
  rewrite migrate_cons. simpl. apply perm_skip, IH.
Qed.

Lemma names_a_task_In (task_ids : list string) (r : LogMigration.OldRow) :
  LogMigration.names_a_task task_ids r = true
  <-> In (LogMigration.old_task_id r) task_ids.
Proof.
  unfold LogMigration.names_a_task. rewrite existsb_exists. split.
  - intros [t [Hin Heq]]. apply String.eqb_eq in Heq. subst t. exact Hin.
  - intros Hin. exists (LogMigration.old_task_id r).
    split; [exact Hin|apply String.eqb_refl].
Qed.

(** The migration of a table with unique ids, on a database that enforces
    the foreign key of the new table.  Either it completes, and then it
    has lost no row and invented none: the new table holds the rows of the
    old one, each once, with id, execution time, status, response time,
    status code, error message and details as they were, its ids are
    unique, and every task log names a task that exists.  Or it fails, and
    then some task log names a task that is not in [tasks] (one that was
    deleted, say). *)
Theorem migration_keeps_every_row (task_ids : list string)
    (rows : list LogMigration.OldRow) :
  NoDup (map LogMigration.old_id rows) ->
  match LogMigration.apply_migration task_ids rows with
  | Some table =>
      table = LogMigration.migrate rows /\
      Permutation (map LogMigration.new_content table)
        (map LogMigration.old_content rows) /\
      List.length table = List.length rows /\
      NoDup (map LogMigration.new_id table) /\
      (forall r,
         In r rows -> LogMigration.is_task_log r = true ->
         In (LogMigration.old_task_id r) task_ids)
  | None =>
      exists r,
        In r rows /\ LogMigration.is_task_log r = true /\
        ~ In (LogMigration.old_task_id r) task_ids
  end.
Proof.
  intros Hnodup. unfold LogMigration.apply_migration.
  destruct (forallb (LogMigration.names_a_task task_ids)
              (filter LogMigration.is_task_log rows)) eqn:Hfk.
  - pose proof (migrate_permutes_rows rows) as Hperm.
    split; [reflexivity|]. split; [exact Hperm|]. split; [|split].
    + apply Permutation_length in Hperm. rewrite !length_map in Hperm.
      exact Hperm.
    + assert (Hids : Permutation
                       (map LogMigration.new_id (LogMigration.migrate rows))
                       (map LogMigration.old_id rows)).
      { apply (Permutation_map
                 (fun c => fst (fst (fst (fst (fst (fst c)))))))
          in Hperm.
        rewrite !map_map in Hperm. exact Hperm. }
      eapply Permutation_NoDup; [symmetry; exact Hids|exact Hnodup].
    + intros r Hin Htask. rewrite forallb_forall in Hfk.
      apply names_a_task_In, Hfk, filter_In. split; assumption.
  - assert (Hex : existsb (fun r => negb (LogMigration.names_a_task task_ids r))
                    (filter LogMigration.is_task_log rows) = true).
    { clear Hnodup. induction (filter LogMigration.is_task_log rows)
        as [|r l IH]; simpl in *; [discriminate|].
      destruct (LogMigration.names_a_task task_ids r); simpl in *;
        [apply IH; exact Hfk|reflexivity]. }
    apply existsb_exists in Hex. destruct Hex as [r [Hin Hno]].
    apply filter_In in Hin. destruct Hin as [Hin Htask].
    exists r. split; [exact Hin|]. split; [exact Htask|].
    intros Hthere. apply names_a_task_In in Hthere.
    rewrite Hthere in Hno. discriminate Hno.
Qed.

(** The sample table: with the task of its task logs in place the
    migration completes and keeps the four rows; once that task is gone,
    it fails. *)
Lemma sample_table_is_migrated :
  NoDup (map LogMigration.old_id LogMigration.old_table) /\
  (exists table,
     LogMigration.apply_migration ["task-fail-1"%string] LogMigration.old_table
       = Some table /\
     Permutation (map LogMigration.new_content table)
       (map LogMigration.old_content LogMigration.old_table) /\
     List.length table = 4%nat) /\
  LogMigration.apply_migration [] LogMigration.old_table = None.
Proof.
  assert (Hnodup : NoDup (map LogMigration.old_id LogMigration.old_table)).
  { simpl. repeat constructor; simpl; intuition discriminate. }
  split; [exact Hnodup|]. split; [|reflexivity].
  pose proof (migration_keeps_every_row ["task-fail-1"%string]
                LogMigration.old_table Hnodup) as H.
  destruct (LogMigration.apply_migration ["task-fail-1"%string]
              LogMigration.old_table) as [table|] eqn:Hrun;
    [|discriminate Hrun].
  exists table. split; [reflexivity|].
  destruct H as [_ [Hperm [Hlen _]]]. split; [exact Hperm|exact Hlen].
Defined.

(** After the migration a row is of type "execution" exactly when it has a
    task id; system and audit rows have none, and no row is left under the
    task ids "system_error" or "audit_log".  The rows that were kept under
    those two ids became the system and the audit rows. *)
Theorem migration_separates_log_types (rows : list LogMigration.OldRow)
    (r : LogMigration.NewRow) :
  In r (LogMigration.migrate rows) ->
  (LogMigration.new_log_type r = log_execution <->
   LogMigration.new_task_id r <> None) /\
  LogMigration.new_task_id r <> Some "system_error"%string /\
  LogMigration.new_task_id r <> Some "audit_log"%string /\
  exists old,
    In old rows /\
    LogMigration.new_content r = LogMigration.old_content old /\
    match LogMigration.new_log_type r with
    | log_execution =>
        LogMigration.new_task_id r = Some (LogMigration.old_task_id old)
    | log_system => LogMigration.old_task_id old = "system_error"%string
    | log_audit => LogMigration.old_task_id old = "audit_log"%string
    end.
Proof.
  unfold LogMigration.migrate.
  rewrite !in_app_iff, !in_map_iff.
  intros [[old [<- Hin]]|[[old [<- Hin]]|[old [<- Hin]]]];
    apply filter_In in Hin; destruct Hin as [Hin Hkind]; simpl.
  - unfold LogMigration.is_task_log in Hkind.
    apply negb_true_iff, orb_false_iff in Hkind. destruct Hkind as [Hs Ha].
    apply String.eqb_neq in Hs, Ha.
    repeat split; try congruence.
    exists old. repeat split; assumption.
  - apply String.eqb_eq in Hkind.
    repeat split; try congruence.
    exists old. repeat split; assumption.
  - apply String.eqb_eq in Hkind.
    repeat split; try congruence.
    exists old. repeat split; assumption.
Qed.

(** The system error of the sample table after the migration. *)
Lemma system_error_becomes_a_system_log :
  map (fun r => (LogMigration.new_id r, LogMigration.new_task_id r,
                 LogMigration.new_log_type r))
    (LogMigration.migrate LogMigration.old_table)
    = [("log-1", Some "task-fail-1", log_execution);
       ("log-4", Some "task-fail-1", log_execution);
       ("log-2", None, log_system);
       ("log-3", None, log_audit)] /\
  exists old,
    In old LogMigration.old_table /\
    LogMigration.old_task_id old = "system_error".
Proof.
  assert (Hin : In (LogMigration.moved None log_system
                      (LogMigration.old_row "log-2" "system_error" failure))
                   (LogMigration.migrate LogMigration.old_table))
    by (simpl; right; right; left; reflexivity).
  destruct (migration_separates_log_types LogMigration.old_table _ Hin)
    as [_ [_ [_ [old [Hold [_ Hkind]]]]]].
  split; [reflexivity|].
  exists old. split; [exact Hold|exact Hkind].
Defined.
